(** * Plugin Manager: the plugin lifecycle engine of [pmplugin.py]

    A shallow embedding of the classes [Plugin] and [Plugins] of
    [src/pluginmanager/pmplugin.py], with the properties of the lifecycle
    (manifest loading, registry refresh, activation, deactivation,
    uninstallation, installation from an archive) stated and proved over it.

    Python objects are mutable and methods may raise: a method of an object
    of type [O] is a computation over the state [O * World] that either
    returns a value or raises, and in both cases yields the state reached.
    [World] gathers what the code reaches through [Krita.instance()], [os],
    [sys] and [qDebug]. *)

From Stdlib Require Import ZArith Ascii String.
From stdpp Require Import gmap strings list fin_maps.

Open Scope string_scope.

(** ** Python strings *)

Module Str.

(** [s[n:]] *)
Fixpoint slice_from (n : nat) (s : string) : string :=
  match n, s with
  | O, _ => s
  | S n', String _ r => slice_from n' r
  | S _, EmptyString => EmptyString
  end.

Definition startswith (pre s : string) : bool := String.prefix pre s.

Definition endswith (suf s : string) : bool :=
  (String.length suf <=? String.length s)%nat
  && String.eqb (slice_from (String.length s - String.length suf) s) suf.

Definition is_slash (c : ascii) : bool := Ascii.eqb c "/"%char.

(** [re.search(re.escape(lit) + '$', s)]: the literal ends the string,
    or is followed by one final newline, which [$] lets through. *)
Definition re_search_end (lit s : string) : bool :=
  endswith lit s || endswith (lit ++ String "010"%char EmptyString) s.

(** [s.rstrip('/')] *)
Fixpoint rstrip_slash (s : string) : string :=
  match s with
  | EmptyString => EmptyString
  | String c r =>
      let r' := rstrip_slash r in
      if is_slash c && String.eqb r' "" then "" else String c r'
  end.

(** Split at the last ['/']: the head with that slash ([None] when the
    string has no slash) and the tail after it. *)
Fixpoint rsplit_slash (s : string) : option string * string :=
  match s with
  | EmptyString => (None, EmptyString)
  | String c r =>
      match rsplit_slash r with
      | (Some h, t) => (Some (String c h), t)
      | (None, t) => if is_slash c then (Some "/", t) else (None, String c t)
      end
  end.

(** [s.split('/')]: never empty. *)
Fixpoint split_slash (s : string) : string * list string :=
  match s with
  | EmptyString => (EmptyString, [])
  | String c r =>
      let '(seg, rest) := split_slash r in
      if is_slash c then (EmptyString, seg :: rest) else (String c seg, rest)
  end.

Definition lower_ascii (c : ascii) : ascii :=
  let n := nat_of_ascii c in
  if (65 <=? n)%nat && (n <=? 90)%nat then ascii_of_nat (n + 32) else c.

(** [s.lower()], on ASCII letters. *)
Fixpoint lower (s : string) : string :=
  match s with
  | EmptyString => EmptyString
  | String c r => String (lower_ascii c) (lower r)
  end.

(** [sep.join(l)] *)
Fixpoint join (sep : string) (l : list string) : string :=
  match l with
  | [] => ""
  | [x] => x
  | x :: r => x ++ sep ++ join sep r
  end.

End Str.

(** ** [os.path], POSIX flavour *)

Module os_path.

(** [os.path.join(a, b)] *)
Definition join (a b : string) : string :=
  if Str.startswith "/" b then b
  else if String.eqb a "" || Str.endswith "/" a then a ++ b
  else a ++ "/" ++ b.

Definition join3 (a b c : string) : string := join (join a b) c.

(** [os.path.basename(p)] *)
Definition basename (p : string) : string := snd (Str.rsplit_slash p).

(** [os.path.dirname(p)] *)
Definition dirname (p : string) : string :=
  let head := default "" (fst (Str.rsplit_slash p)) in
  if negb (String.eqb head "") && negb (String.eqb (Str.rstrip_slash head) "")
  then Str.rstrip_slash head
  else head.

End os_path.

(** ** Exceptions and computations *)

Inductive PyExc : Type :=
| EInvalidType (msg : string)
| EInvalidValue (msg : string)
| KeyError (key : string)
| NameError (name : string)
| FileExistsError (p : string)
| FileNotFoundError (p : string)
| NotADirectoryError (p : string)
| IsADirectoryError (p : string)
| BadZipFile
| UnicodeDecodeError
| TypeError (what : string)
| ConfigParserError (what : string)
| HostError (is_exception : bool) (what : string).

(** Whether [except Exception] catches it. What the host or a plugin's code
    raises says so itself; the others are subclasses of [Exception]. *)
Definition is_Exception (e : PyExc) : bool :=
  match e with
  | HostError b _ => b
  | _ => true
  end.

(** [str(e)], in short. *)
Definition str_of_exc (e : PyExc) : string :=
  match e with
  | EInvalidType msg | EInvalidValue msg => msg
  | KeyError k => "'" ++ k ++ "'"
  | NameError n => "name '" ++ n ++ "' is not defined"
  | FileExistsError p => "File exists: '" ++ p ++ "'"
  | FileNotFoundError p => "No such file or directory: '" ++ p ++ "'"
  | NotADirectoryError p => "Not a directory: '" ++ p ++ "'"
  | IsADirectoryError p => "Is a directory: '" ++ p ++ "'"
  | BadZipFile => "File is not a zip file"
  | UnicodeDecodeError => "invalid start byte"
  | TypeError what | ConfigParserError what | HostError _ what => what
  end.

Inductive Outcome (S A : Type) : Type :=
| Ret (a : A) (s : S)
| Raise (e : PyExc) (s : S).
Arguments Ret {S A} a s.
Arguments Raise {S A} e s.

Definition final {S A} (o : Outcome S A) : S :=
  match o with Ret _ s => s | Raise _ s => s end.

Definition M (S A : Type) : Type := S -> Outcome S A.

Definition ret {S A} (a : A) : M S A := fun s => Ret a s.
Definition raise {S A} (e : PyExc) : M S A := fun s => Raise e s.
Definition bind {S A B} (m : M S A) (k : A -> M S B) : M S B :=
  fun s => match m s with
           | Ret a s' => k a s'
           | Raise e s' => Raise e s'
           end.
Definition get {S} : M S S := fun s => Ret s s.
Definition modify {S} (f : S -> S) : M S unit := fun s => Ret tt (f s).

(** A pure result that may be an exception. *)
Definition lift_sum {S A} (r : PyExc + A) : M S A :=
  match r with inl e => raise e | inr a => ret a end.

(** [try: m  except <those that sel accepts>: h] *)
Definition try_except {S A} (m : M S A) (sel : PyExc -> bool) (h : PyExc -> M S A)
  : M S A :=
  fun s => match m s with
           | Ret a s' => Ret a s'
           | Raise e s' => if sel e then h e s' else Raise e s'
           end.

Declare Scope py_scope.
Delimit Scope py_scope with py.
Notation "'let*' x ':=' c1 'in' c2" := (bind c1 (fun x => c2))
  (at level 10, x pattern, c1 at level 100, c2 at level 200) : py_scope.
Notation "c1 ';;' c2" := (bind c1 (fun _ => c2))
  (at level 100, c2 at level 200, right associativity) : py_scope.
Notation "'when' b 'then' c" := (if b then c else ret tt)
  (at level 10, b at level 100, c at level 100) : py_scope.
Open Scope py_scope.

(** A loop that builds a value: [for x in l: acc = body acc x]. *)
Fixpoint fold_each {S A B} (l : list A) (acc : B) (body : B -> A -> M S B) : M S B :=
  match l with
  | [] => ret acc
  | x :: r => let* acc' := body acc x in fold_each r acc' body
  end.

(** A loop [for x in l: body x]. *)
Fixpoint for_each {S A} (l : list A) (body : A -> M S unit) : M S unit :=
  match l with
  | [] => ret tt
  | x :: r => body x ;; for_each r body
  end.

(** Running a computation of the world inside a method of an object. *)
Definition in_world {O W A} (m : M W A) : M (O * W) A :=
  fun s => match m (snd s) with
           | Ret a w => Ret a (fst s, w)
           | Raise e w => Raise e (fst s, w)
           end.

(** Running a method on another object [o]; the caller gets the result and
    the object as the method left it. When the method raises, the object
    is out of the caller's reach and only the world's changes remain. *)
Definition on_object {O W A} (o : O) (m : M (O * W) A) : M W (A * O) :=
  fun w => match m (o, w) with
           | Ret a (o', w') => Ret (a, o') w'
           | Raise e (_, w') => Raise e w'
           end.

Definition self {O W} : M (O * W) O := fun s => Ret (fst s) s.
Definition set_self {O W} (f : O -> O) : M (O * W) unit :=
  fun s => Ret tt (f (fst s), snd s).

(** ** The world the plugin manager runs in *)

(** One member of a zip archive: its name and its bytes. *)
Record ZipEntry : Type := { zfilename : string; zdata : string }.

Inductive FileData : Type :=
| Text (s : string)
| ZipArchive (entries : list ZipEntry).

Inductive Node : Type :=
| Dir
| File (d : FileData).

(** A loaded module: its [__file__], when it has one and it is a [str]. *)
Record PyModule : Type := { mod_file : option string }.

(** A host action: its object name and its ['menulocation'] property. *)
Record Action : Type := { objectName : string; menulocation : option string }.

(** A menu widget: for each of its actions, the object name and the
    submenu [action.menu()], if any. *)
#[warnings="-register-all"] Inductive Menu : Type :=
| MenuNode (items : list (string * option Menu)).

(** A live extension object: a key telling it from the others, and the file
    of its class, [inspect.getfile(extension.__class__)], which raises for
    a class that has none. *)
Record Extension : Type := { ext_key : string; ext_classfile : option string }.

Record World : Type := {
  appdata : string;                        (* QStandardPaths.writableLocation(AppDataLocation) *)
  settings : gmap (string * string) string; (* the host's settings: (group, key) to value *)
  fs : gmap string Node;                   (* the filesystem, by absolute path *)
  sys_modules : gmap string PyModule;      (* sys.modules *)
  actions : list Action;                   (* Krita.instance().actions() *)
  extensions : list Extension;             (* Krita.instance().extensions() *)
  menubar : option Menu;                   (* the active window's menu widget *)
  debug : list string                      (* what qDebug has printed *)
}.

Definition set_settings (f : gmap (string * string) string -> gmap (string * string) string)
  (w : World) : World :=
  {| appdata := appdata w; settings := f (settings w); fs := fs w;
     sys_modules := sys_modules w; actions := actions w;
     extensions := extensions w; menubar := menubar w; debug := debug w |}.

Definition set_fs (f : gmap string Node -> gmap string Node) (w : World) : World :=
  {| appdata := appdata w; settings := settings w; fs := f (fs w);
     sys_modules := sys_modules w; actions := actions w;
     extensions := extensions w; menubar := menubar w; debug := debug w |}.

Definition set_sys_modules (f : gmap string PyModule -> gmap string PyModule)
  (w : World) : World :=
  {| appdata := appdata w; settings := settings w; fs := fs w;
     sys_modules := f (sys_modules w); actions := actions w;
     extensions := extensions w; menubar := menubar w; debug := debug w |}.

Definition set_menubar (f : option Menu -> option Menu) (w : World) : World :=
  {| appdata := appdata w; settings := settings w; fs := fs w;
     sys_modules := sys_modules w; actions := actions w;
     extensions := extensions w; menubar := f (menubar w); debug := debug w |}.

Definition set_debug (f : list string -> list string) (w : World) : World :=
  {| appdata := appdata w; settings := settings w; fs := fs w;
     sys_modules := sys_modules w; actions := actions w;
     extensions := extensions w; menubar := menubar w; debug := f (debug w) |}.

(** [qDebug(msg)]. The texts are those of the code, without the counts
    they embed and with their line breaks as spaces. *)
Definition qDebug (msg : string) : M World unit := modify (set_debug (fun l => (l ++ [msg])%list)).

(** *** The host's settings store *)

Module Krita.

(** [Krita.instance().readSetting(group, key, default)] *)
Definition readSetting (group key dflt : string) : M World string :=
  let* w := get in ret (default dflt (settings w !! (group, key))).

(** [Krita.instance().writeSetting(group, key, value)]; writing [None]
    removes the key. *)
Definition writeSetting (group key : string) (value : option string) : M World unit :=
  modify (set_settings (fun m => match value with
                                 | Some v => <[(group, key) := v]> m
                                 | None => delete (group, key) m
                                 end)).

End Krita.

(** *** The filesystem

    The filesystem is a map from paths to what is there. A path is read as
    it is written, a trailing slash apart: the model is that of canonical
    paths, absolute and with no [.] or [..] component, which name the same
    place for the operating system, and it has no symbolic links. *)

Module os.

(** The key of a path: trailing slashes dropped, the root kept. *)
Definition key (p : string) : string :=
  let k := Str.rstrip_slash p in
  if String.eqb k "" then (if String.eqb p "" then "" else "/") else k.

(** What is at [p]; a path with a trailing slash only names a directory. *)
Definition stat (p : string) (w : World) : option Node :=
  if String.eqb p "" then None
  else match fs w !! key p with
       | Some Dir => Some Dir
       | Some (File d) => if Str.endswith "/" p then None else Some (File d)
       | None => None
       end.

(** [os.path.exists(p)] *)
Definition path_exists (p : string) : M World bool :=
  let* w := get in ret (bool_decide (is_Some (stat p w))).

(** [os.path.isfile(p)] *)
Definition path_isfile (p : string) : M World bool :=
  let* w := get in
  ret (match stat p w with Some (File _) => true | _ => false end).

(** [os.path.isdir(p)] *)
Definition path_isdir (p : string) : M World bool :=
  let* w := get in
  ret (match stat p w with Some Dir => true | _ => false end).

(** [os.mkdir(p)] *)
Definition mkdir (p : string) : M World unit :=
  let* w := get in
  match stat p w with
  | Some _ => raise (FileExistsError p)
  | None =>
      let parent := os_path.dirname (key p) in
      match (if String.eqb parent "" then Some Dir else stat parent w) with
      | Some Dir => modify (set_fs (fun m => <[key p := Dir]> m))
      | Some (File _) => raise (NotADirectoryError p)
      | None => raise (FileNotFoundError p)
      end
  end.

(** [os.remove(p)] *)
Definition remove (p : string) : M World unit :=
  let* w := get in
  match stat p w with
  | Some (File _) => modify (set_fs (fun m => delete (key p) m))
  | Some Dir => raise (IsADirectoryError p)
  | None => raise (FileNotFoundError p)
  end.

(** Whether the path [q] is [p] or lies below the directory [p]. *)
Definition below (p q : string) : bool :=
  String.eqb q p || Str.startswith (if String.eqb p "/" then p else p ++ "/") q.

(** [shutil.rmtree(p, ignore_errors=True)]: the tree at [p] goes; a path
    that is no directory is left alone and the error ignored. *)
Definition rmtree (p : string) : M World unit :=
  let* w := get in
  match stat p w with
  | Some Dir => modify (set_fs (fun m => filter (fun kv => below (key p) (fst kv) = false) m))
  | _ => ret tt
  end.

(** [os.scandir(p)]: the names of the entries of the directory [p]. *)
Definition scandir (p : string) : M World (list string) :=
  let* w := get in
  match stat p w with
  | Some Dir =>
      ret (omap (fun kv => if bool_decide (os_path.dirname (fst kv) = key p
                                           /\ fst kv <> key p)
                           then Some (os_path.basename (fst kv)) else None)
                (map_to_list (fs w)))
  | Some (File _) => raise (NotADirectoryError p)
  | None => raise (FileNotFoundError p)
  end.

End os.

(** *** The parsed manifest

    What a [configparser.ConfigParser] holds once a text is read: the
    options of the [DEFAULT] section and those of each other section,
    option names already folded to lower case. *)

Record ConfigParser : Type := {
  cp_defaults : gmap string string;
  cp_sections : gmap string (gmap string string)
}.

(** *** What the code takes from its libraries and from the host

    The reader and the interpolation of [configparser], the decoding of
    bytes, the loader of a plugin's entry module, the hooks of an
    extension object and the answer to a confirmation prompt are used by
    the code and are not part of it. *)

Class HostAdapter : Type := {
  (* ConfigParser.read_string(text): the parsed content, or the parse error *)
  cp_read_string : string -> PyExc + ConfigParser;
  (* the interpolation applied by get() to a stored value, given the
     options in scope *)
  cp_interpolate : gmap string string -> string -> PyExc + string;
  (* bytes.decode(), and the decoding of a file opened as text *)
  bytes_decode : string -> PyExc + string;
  (* SourceFileLoader("__main__", script).load_module() *)
  load_module : string -> M World unit;
  (* extension.setup, when it is not None and callable *)
  ext_setup : Extension -> option (M World unit);
  (* extension.createActions, when it is not None and callable; it is
     called with the active window *)
  ext_createActions : Extension -> option (M World unit);
  (* QMessageBox.question(..., title, text, Yes | No) == QMessageBox.Yes *)
  question_yes : string -> string -> World -> bool
}.

Module configparser.

Section WithHost.
Context `{HostAdapter}.

(** [cfgParser[name]] *)
Definition getitem (cfg : ConfigParser) (name : string) : PyExc + gmap string string :=
  if String.eqb name "DEFAULT" then inr (cp_defaults cfg)
  else match cp_sections cfg !! name with
       | Some opts => inr (opts ∪ cp_defaults cfg)
       | None => inl (KeyError name)
       end.

(** [settings.get(option, fallback)] on the section proxy: the options
    of the section, then those of [DEFAULT], then the fallback. *)
Definition proxy_get (opts : gmap string string) (option fallback : string)
  : PyExc + string :=
  match opts !! Str.lower option with
  | Some v => cp_interpolate opts v
  | None => inr fallback
  end.

(** [configParser.read(filename)]: a file that cannot be opened is
    skipped silently and leaves the parser empty. *)
Definition read (filename : string) : M World ConfigParser :=
  let* w := get in
  match os.stat filename w with
  | Some (File (Text s)) =>
      let* text := lift_sum (bytes_decode s) in
      lift_sum (cp_read_string text)
  | Some (File (ZipArchive _)) => raise UnicodeDecodeError
  | _ => ret {| cp_defaults := ∅; cp_sections := ∅ |}
  end.

End WithHost.

End configparser.

(** ** Python values passed to the public operations *)

Inductive PyVal (Obj : Type) : Type :=
| PyNone
| PyStr (s : string)
| PyInt (z : Z)
| PyBool (b : bool)
| PyObj (o : Obj).
Arguments PyNone {Obj}.
Arguments PyStr {Obj} s.
Arguments PyInt {Obj} z.
Arguments PyBool {Obj} b.
Arguments PyObj {Obj} o.

(** [v == n] for an integer constant [n]; a [bool] is the integer 0 or 1. *)
Definition py_eq_int {Obj} (v : PyVal Obj) (n : Z) : bool :=
  match v with
  | PyInt z => Z.eqb z n
  | PyBool b => Z.eqb (if b then 1 else 0) n
  | _ => false
  end.

Definition dquote : string := String "034"%char EmptyString.

(** [Plugins.path()]: the installation root. When it does not exist the
    code reaches [os.mkdir(dest)] with no [dest] in scope. *)
Definition Plugins_path : M World string :=
  let* w := get in
  let returned := os_path.join (appdata w) "pykrita" in
  let* found := os.path_exists returned in
  if found then ret returned else raise (NameError "dest").

(** *** Archives *)

Module zipfile.

(** [zipfile.ZipFile(name, 'r')]: the members of the archive. *)
Definition open_archive (zipFileName : string) : M World (list ZipEntry) :=
  let* w := get in
  match os.stat zipFileName w with
  | Some (File (ZipArchive entries)) => ret entries
  | Some (File (Text _)) => raise BadZipFile
  | Some Dir => raise (IsADirectoryError zipFileName)
  | None => raise (FileNotFoundError zipFileName)
  end.

(** [archive.open(name).read()]: the bytes of the member of that name. *)
Definition read_member (archive : list ZipEntry) (memberName : string) : M World string :=
  match List.find (fun e => String.eqb (zfilename e) memberName) archive with
  | Some e => ret (zdata e)
  | None => raise (KeyError memberName)
  end.

(** The name an extracted member gets below the destination: the empty,
    ['.'] and ['..'] components are dropped. *)
Definition arcname (memberName : string) : string :=
  let '(first, rest) := Str.split_slash memberName in
  Str.join "/" (List.filter
                  (fun x => negb (String.eqb x "" || String.eqb x "." || String.eqb x ".."))
                  (first :: rest)).

Fixpoint prefixes (acc : string) (segs : list string) : list string :=
  match segs with
  | [] => []
  | seg :: r => let acc' := acc ++ "/" ++ seg in acc' :: prefixes acc' r
  end.

(** The directories on the way to [p], outermost first, [p] included. *)
Definition ancestors (p : string) : list string :=
  let '(first, rest) := Str.split_slash p in
  if String.eqb first "" then prefixes "" rest else first :: prefixes first rest.

(** [os.makedirs(p)]: the missing directories on the way are made. *)
Definition makedirs (p : string) : M World unit :=
  for_each (ancestors p) (fun d =>
    let* found := os.path_exists d in
    when negb found then os.mkdir d).

(** [open(p, 'wb').write(data)] *)
Definition write_file (p data : string) : M World unit :=
  let* w := get in
  match os.stat p w with
  | Some Dir => raise (IsADirectoryError p)
  | _ =>
      let parent := os_path.dirname (os.key p) in
      match (if String.eqb parent "" then Some Dir else os.stat parent w) with
      | Some Dir => modify (set_fs (fun m => <[os.key p := File (Text data)]> m))
      | Some (File _) => raise (NotADirectoryError p)
      | None => raise (FileNotFoundError p)
      end
  end.

(** [archive.extract(member, dest)], for a member whose name has been set
    to [memberName]: a name that ends with a slash is a directory. *)
Definition extract (memberName data dest : string) : M World unit :=
  let targetpath := os.key (os_path.join dest (arcname memberName)) in
  let upperdirs := os_path.dirname targetpath in
  let* found := os.path_exists upperdirs in
  (when negb (String.eqb upperdirs "") && negb found then makedirs upperdirs) ;;
  if Str.endswith "/" memberName then
    let* isdir := os.path_isdir targetpath in
    when negb isdir then os.mkdir targetpath
  else write_file targetpath data.

End zipfile.

(** *** Menus *)

Module menu.

(** The first action of the widget whose object name is [name]: its
    position and its submenu. *)
Fixpoint find_action (name : string) (items : list (string * option Menu)) (i : nat)
  : option (nat * option Menu) :=
  match items with
  | [] => None
  | (n, sub) :: r =>
      if String.eqb n name then Some (i, sub) else find_action name r (S i)
  end.

(** [menu.addAction(action)] on the menu reached from the menu bar by the
    positions [at_]. *)
Fixpoint addAction (at_ : list nat) (action : string) (m : Menu) : Menu :=
  match m with
  | MenuNode items =>
      match at_ with
      | [] => MenuNode (items ++ [(action, None)])%list
      | i :: rest =>
          MenuNode (alter (fun it => (fst it, addAction rest action <$> snd it)) i items)
      end
  end.

End menu.

(** ** class [Plugin] *)

Module Plugin.

Definition ACTION_VALIDATE_ASK : Z := 0.
Definition ACTION_VALIDATE_YES : Z := 1.
Definition ACTION_VALIDATE_NO : Z := 2.

Record t : Type := {
  id : string;
  name : string;
  description : string;
  path : string;
  manual : string;
  desktopFile : string;
  isActive : bool;
  isValid : bool
}.

(** The fields as [__init__] and [__defaultValues] set them. *)
Definition blank : t :=
  {| id := ""; name := ""; description := ""; path := ""; manual := "";
     desktopFile := ""; isActive := false; isValid := false |}.

Definition with_id (v : string) (p : t) : t :=
  {| id := v; name := name p; description := description p; path := path p;
     manual := manual p; desktopFile := desktopFile p;
     isActive := isActive p; isValid := isValid p |}.
Definition with_name (v : string) (p : t) : t :=
  {| id := id p; name := v; description := description p; path := path p;
     manual := manual p; desktopFile := desktopFile p;
     isActive := isActive p; isValid := isValid p |}.
Definition with_description (v : string) (p : t) : t :=
  {| id := id p; name := name p; description := v; path := path p;
     manual := manual p; desktopFile := desktopFile p;
     isActive := isActive p; isValid := isValid p |}.
Definition with_path (v : string) (p : t) : t :=
  {| id := id p; name := name p; description := description p; path := v;
     manual := manual p; desktopFile := desktopFile p;
     isActive := isActive p; isValid := isValid p |}.
Definition with_manual (v : string) (p : t) : t :=
  {| id := id p; name := name p; description := description p; path := path p;
     manual := v; desktopFile := desktopFile p;
     isActive := isActive p; isValid := isValid p |}.
Definition with_desktopFile (v : string) (p : t) : t :=
  {| id := id p; name := name p; description := description p; path := path p;
     manual := manual p; desktopFile := v;
     isActive := isActive p; isValid := isValid p |}.
Definition with_isActive (v : bool) (p : t) : t :=
  {| id := id p; name := name p; description := description p; path := path p;
     manual := manual p; desktopFile := desktopFile p;
     isActive := v; isValid := isValid p |}.
Definition with_isValid (v : bool) (p : t) : t :=
  {| id := id p; name := name p; description := description p; path := path p;
     manual := manual p; desktopFile := desktopFile p;
     isActive := isActive p; isValid := v |}.

(** The state of a method of a plugin: the object and the world. *)
Abbreviation St := (t * World)%type.

Section WithHost.
Context `{HostAdapter}.

(** [__defaultValues] *)
Definition defaultValues : M St unit := set_self (fun _ => blank).

(** [__loadFromcfgParser]. The values [get] returns are strings, so the
    two [isinstance(..., list)] branches are never taken. *)
Definition loadFromcfgParser (cfgParser : ConfigParser) : M St unit :=
  let* settings := lift_sum (configparser.getitem cfgParser "Desktop Entry") in
  let* v := lift_sum (configparser.proxy_get settings "X-KDE-Library" "") in
  set_self (with_id v) ;;
  let* v := lift_sum (configparser.proxy_get settings "Name" "") in
  set_self (with_name v) ;;
  let* v := lift_sum (configparser.proxy_get settings "Comment" "") in
  set_self (with_description v) ;;
  let* root := in_world Plugins_path in
  let* p := self in
  set_self (with_path (os_path.join root (id p))) ;;
  let* v := lift_sum (configparser.proxy_get settings "X-Krita-Manual" "") in
  set_self (with_manual v) ;;
  let* p := self in
  (when negb (String.eqb (manual p) "")
   then set_self (with_manual (os_path.join (path p) (manual p)))) ;;
  set_self (with_isValid true) ;;
  let* p := self in
  let* v := in_world (Krita.readSetting "python" ("enable_" ++ id p) "false") in
  if String.eqb v "true"
  then set_self (with_isActive true)
  else set_self (with_isActive false).

(** [loadFromDesktopFile] *)
Definition loadFromDesktopFile (desktopFileName : PyVal t) : M St unit :=
  defaultValues ;;
  match desktopFileName with
  | PyNone => ret tt
  | PyStr fileName =>
      let* isfile := in_world (os.path_isfile fileName) in
      if isfile then
        if Str.re_search_end ".desktop" fileName then
          set_self (with_desktopFile fileName) ;;
          let* configParser := in_world (configparser.read fileName) in
          loadFromcfgParser configParser
        else
          set_self (with_isValid false) ;;
          set_self (with_isActive false) ;;
          raise (EInvalidValue "Given `desktopFileName` must have .desktop extension")
      else
        set_self (with_isValid false) ;;
        set_self (with_isActive false) ;;
        raise (EInvalidValue "Given `desktopFileName` file doesnt exists")
  | _ => raise (EInvalidType "Given `desktopFileName` must be a <str>")
  end.

(** [loadFromDesktopContent] *)
Definition loadFromDesktopContent (desktopContent : PyVal t) : M St unit :=
  defaultValues ;;
  match desktopContent with
  | PyNone => ret tt
  | PyStr content =>
      if String.eqb content "" then ret tt
      else
        let* configParser := lift_sum (cp_read_string content) in
        loadFromcfgParser configParser ;;
        (* theorical desktop file *)
        let* root := in_world Plugins_path in
        let* p := self in
        set_self (with_desktopFile (os_path.join root (id p ++ ".desktop")))
  | _ => raise (EInvalidType "Given `desktopContent` must be a <str>")
  end.

(** [Plugin(desktopFileName)]: a new object, with [__init__] run on it. *)
Definition new (desktopFileName : PyVal t) : M World t :=
  let* r := on_object blank (loadFromDesktopFile desktopFileName) in
  ret (snd r).

(** The loop of [deactivate] over the names of the loaded modules: a
    module goes when the directory of its file is the plugin's path. *)
Definition unload_modules (moduleNames : list string) : M St unit :=
  for_each moduleNames (fun moduleName =>
    let* w := in_world get in
    let* p := self in
    match sys_modules w !! moduleName with
    | None => raise (KeyError moduleName)
    | Some module =>
        match mod_file module with
        | Some file =>
            when String.eqb (os_path.dirname file) (path p)
            then in_world (modify (set_sys_modules (delete moduleName)))
        | None => ret tt
        end
    end).

(** [deactivate] *)
Definition deactivate : M St unit :=
  let* p := self in
  if negb (isActive p) then
    (* already inactive, do nothing *)
    ret tt
  else
    set_self (with_isActive false) ;;
    in_world (Krita.writeSetting "python" ("enable_" ++ id p) (Some "false")) ;;
    let* w := in_world get in
    let moduleNames := (map_to_list (sys_modules w)).*1 in
    unload_modules moduleNames.

(** [__getMenuLocation], on the segments [seg :: rest] of the location.
    A widget is given by the positions that lead to it from the menu bar.
    With no widget to start from, the search starts from the menu bar of
    the active window, also when a submenu on the way is missing. *)
Fixpoint getMenuLocation (root : option Menu) (seg : string) (rest : list string)
  (fromWidget : option (list nat * Menu)) : option (list nat * Menu) :=
  let fromWidget :=
    match fromWidget with
    | None => (fun m => ([], m)) <$> root
    | Some widget => Some widget
    end in
  match fromWidget with
  | None => None
  | Some (at_, MenuNode items) =>
      match menu.find_action seg items 0 with
      | None => None
      | Some (i, sub) =>
          let sub' := (fun m => ((at_ ++ [i])%list, m)) <$> sub in
          match rest with
          | [] => sub'
          | seg' :: rest' => getMenuLocation root seg' rest' sub'
          end
      end
  end.

(** [activate] *)
Definition activate : M St unit :=
  let* p := self in
  if isActive p then
    (* already active, do nothing *)
    ret tt
  else
    (* set plugin activated in Krita settings *)
    set_self (with_isActive true) ;;
    in_world (Krita.writeSetting "python" ("enable_" ++ id p) (Some "true")) ;;
    (* plugin must be activated through __init__.py *)
    let script := os_path.join (path p) "__init__.py" in
    in_world (load_module script) ;;
    (* make a list of current defined actions *)
    let* w := in_world get in
    let actionsListId := objectName <$> actions w in
    let* newActionsList :=
      fold_each (extensions w) [] (fun newActionsList extension =>
        let* classfile :=
          match ext_classfile extension with
          | Some f => ret f
          | None => raise (TypeError "inspect.getfile")
          end in
        let* p := self in
        if String.eqb (os_path.dirname classfile) (path p) then
          match ext_setup extension with
          | Some setup => in_world setup
          | None => ret tt
          end ;;
          match ext_createActions extension with
          | Some createActions =>
              in_world createActions ;;
              let* w' := in_world get in
              ret (newActionsList ++
                   List.filter (fun a => negb (bool_decide (objectName a ∈ actionsListId)))
                               (actions w'))%list
          | None => ret newActionsList
          end
        else ret newActionsList) in
    for_each newActionsList (fun action =>
      match menulocation action with
      | None => ret tt
      | Some location =>
          let* w := in_world get in
          let '(seg, rest) := Str.split_slash location in
          match getMenuLocation (menubar w) seg rest None with
          | Some (at_, _) =>
              in_world (modify (set_menubar (fmap (menu.addAction at_ (objectName action)))))
          | None => ret tt
          end
      end).

(** [uninstall] *)
Definition uninstall (confirmUninstall : PyVal t) : M St bool :=
  let confirmUninstall :=
    match confirmUninstall with
    | PyNone => PyInt ACTION_VALIDATE_ASK
    | v => v
    end in
  let* confirmUninstall :=
    if py_eq_int confirmUninstall ACTION_VALIDATE_ASK then
      let* p := self in
      let* w := in_world get in
      if question_yes "Uninstall Plugin"
           ("The plugin " ++ dquote ++ name p ++ dquote
            ++ " will be completely removed. Confirm uninstallation?") w
      then ret (PyInt ACTION_VALIDATE_YES)
      else ret (PyInt ACTION_VALIDATE_NO)
    else ret confirmUninstall in
  if py_eq_int confirmUninstall ACTION_VALIDATE_NO then
    in_world (qDebug "user didnt confirm uninstallation Cancel uninstallation") ;;
    ret false
  else
    (* deactivate plugin if still active *)
    deactivate ;;
    let* p := self in
    in_world (Krita.writeSetting "python" ("enable_" ++ id p) None) ;;
    (* remove files *)
    let* found := in_world (os.path_exists (desktopFile p)) in
    (when found then in_world (os.remove (desktopFile p))) ;;
    let* w := in_world get in
    let actionFile := os_path.join3 (appdata w) "actions" (id p ++ ".action") in
    let* found := in_world (os.path_exists actionFile) in
    (when found then in_world (os.remove actionFile)) ;;
    let* found := in_world (os.path_exists (path p)) in
    (when found then in_world (os.rmtree (path p))) ;;
    (* curent plugin is not valid anymore... *)
    defaultValues ;;
    ret true.

(** Where [install] sends an archive member. *)
Inductive Destination : Type :=
| InstallRoot      (* Plugins.path() *)
| ActionsDir       (* <application data>/actions *)
| PluginDir.       (* plugin.path() *)

(** The three branches of the extraction loop of [install]: the
    destination of the member named [filename] and the name it is
    extracted under, or [None] when the member is skipped. *)
Definition route (pluginId : string) (rootPathLength initPathLength : nat)
  (filename : string) : option (Destination * string) :=
  if String.eqb (os_path.basename filename) (pluginId ++ ".desktop") then
    Some (InstallRoot, Str.slice_from rootPathLength filename)
  else if String.eqb (os_path.basename filename) (pluginId ++ ".action") then
    Some (ActionsDir, Str.slice_from rootPathLength filename)
  else if (initPathLength <? String.length filename)%nat then
    Some (PluginDir, Str.slice_from initPathLength filename)
  else None.

(** [len(os.path.dirname(name))], plus one for the slash when not empty. *)
Definition prefix_length (fileName : string) : nat :=
  let n := String.length (os_path.dirname fileName) in
  if (0 <? n)%nat then n + 1 else n.

(** The extraction loop of [install]. *)
Definition install_extract (archive : list ZipEntry) (plugin : t)
  (desktopFileName initFileName : string) : M World unit :=
  let rootPathLength := prefix_length desktopFileName in
  let initPathLength := prefix_length initFileName in
  for_each archive (fun fileSrc =>
    match route (id plugin) rootPathLength initPathLength (zfilename fileSrc) with
    | Some (InstallRoot, filename) =>
        let* root := Plugins_path in
        zipfile.extract filename (zdata fileSrc) root
    | Some (ActionsDir, filename) =>
        let* w := get in
        zipfile.extract filename (zdata fileSrc) (os_path.join (appdata w) "actions")
    | Some (PluginDir, filename) =>
        zipfile.extract filename (zdata fileSrc) (path plugin)
    | None => ret tt
    end).

(** The part of [install] that settles the target directory: whether
    the installation goes on. An existing directory is overwritten or not
    as [overwrite] says, or as the user answers; a missing one is made. *)
Definition install_target (overwrite : PyVal t) (plugin : t) : M World bool :=
  let* found := os.path_exists (path plugin) in
  if found then
    let* overwrite :=
      if py_eq_int overwrite ACTION_VALIDATE_ASK then
        let* w := get in
        if question_yes "Install Plugin"
             ("The plugin " ++ dquote ++ name plugin ++ dquote
              ++ " already exists. Overwrite it?") w
        then ret (PyInt ACTION_VALIDATE_YES)
        else ret (PyInt ACTION_VALIDATE_NO)
      else ret overwrite in
    if py_eq_int overwrite ACTION_VALIDATE_NO then
      qDebug ("Plugin already exist in destination: " ++ path plugin
              ++ " Cancel installation") ;;
      ret false
    else ret true
  else
    os.mkdir (path plugin) ;;
    ret true.

(** The body of the [try] of [install], the archive being open. *)
Definition install_from (zipFileName : string) (overwrite : PyVal t)
  (archive : list ZipEntry) : M World (option t) :=
  (* open zip file and search for desktop entry *)
  let namelist := zfilename <$> archive in
  match List.filter (Str.re_search_end ".desktop") namelist with
  | [] =>
      qDebug ("No desktop entry found in archive: " ++ zipFileName) ;;
      ret None
  | _ :: _ :: _ =>
      qDebug ("Too much desktop entry found in archive: " ++ zipFileName) ;;
      ret None
  | [desktopFileName] =>
      let* plugin := new PyNone in
      (* initialise plugin with information from desktop entry stored into zip file *)
      let* bytes := zipfile.read_member archive desktopFileName in
      let* content := lift_sum (bytes_decode bytes) in
      let* r := on_object plugin (loadFromDesktopContent (PyStr content)) in
      let plugin := snd r in
      if negb (isValid plugin) then
        (* plugin it not valid, stop *)
        qDebug "Plugin from archive is not valid" ;;
        ret None
      else
        let initFileName := os_path.join (id plugin) "__init__.py" in
        match List.filter (Str.re_search_end initFileName) namelist with
        | [] =>
            (* no __init__ file, invalid plugin... *)
            qDebug ("File '" ++ initFileName ++ "' not found in archive: " ++ zipFileName) ;;
            ret None
        | initFileName :: _ =>
            (* Archive seems to be valid *)
            let* go := install_target overwrite plugin in
            if negb go then ret None
            else
              (* extract files *)
              install_extract archive plugin desktopFileName initFileName ;;
              (* here, everything is OK: activate plugin *)
              let* r := on_object plugin activate in
              ret (Some (snd r))
        end
  end.

(** [Plugin.install(zipFileName, overwrite)]: the plugin, or [None]. *)
Definition install (zipFileName overwrite : PyVal t) : M World (option t) :=
  let overwrite :=
    match overwrite with
    | PyNone => PyInt ACTION_VALIDATE_ASK
    | v => v
    end in
  match zipFileName with
  | PyStr zipFileName =>
      let* isfile := os.path_isfile zipFileName in
      if negb isfile then
        (* not a file=> exit *)
        qDebug ("File name doesn't exist: " ++ zipFileName) ;;
        ret None
      else
        try_except
          (let* archive := zipfile.open_archive zipFileName in
           install_from zipFileName overwrite archive)
          is_Exception
          (fun e =>
             qDebug ("Unable to read archive archive: " ++ zipFileName) ;;
             qDebug (str_of_exc e) ;;
             ret None)
  | _ => raise (EInvalidType "Given `zipFile` must be a <str>")
  end.

End WithHost.

End Plugin.

(** ** class [Plugins] *)

Module Plugins.

(** The state of a method of the registry: the dictionary [__plugins],
    plugin id to plugin, and the world. *)
Abbreviation St := (gmap string Plugin.t * World)%type.

Section WithHost.
Context `{HostAdapter}.

(** [path] *)
Definition path : M World string := Plugins_path.

(** [length] *)
Definition length : M St nat := let* plugins := self in ret (size plugins).

(** [append]: [True] if added, otherwise [False]. *)
Definition append (plugin : PyVal Plugin.t) : M St bool :=
  let* plugin :=
    match plugin with
    | PyStr fileName =>
        try_except
          (let* p := in_world (Plugin.new (PyStr fileName)) in ret (Some p))
          (fun _ => true)
          (fun _ => ret None)
    | PyObj p => ret (Some p)
    | _ => ret None
    end in
  match plugin with
  | None => ret false
  | Some plugin =>
      if negb (String.eqb (Plugin.id plugin) "") then
        set_self (fun plugins => <[Plugin.id plugin := plugin]> plugins) ;;
        ret true
      else ret false
  end.

(** [__buildList] *)
Definition buildList : M St unit :=
  set_self (fun _ => ∅) ;;
  let* root := in_world Plugins_path in
  let* files := in_world (os.scandir root) in
  for_each files (fun fileName =>
    let* root := in_world Plugins_path in
    let fullPathName := os_path.join root fileName in
    when Str.re_search_end ".desktop" fileName
    then (append (PyStr fullPathName) ;; ret tt)).

(** [Plugins()] *)
Definition new : M World (gmap string Plugin.t) :=
  let* r := on_object (∅ : gmap string Plugin.t) buildList in
  ret (snd r).

(** [remove] *)
Definition remove (id : PyVal Plugin.t) : M St unit :=
  match id with
  | PyStr id => set_self (fun plugins => delete id plugins)
  | _ => raise (EInvalidType "Given `id` must be a <str>")
  end.

(** [plugin]: the plugin of the given id, or [None]. *)
Definition plugin (id : PyVal Plugin.t) : M St (option Plugin.t) :=
  match id with
  | PyStr id => let* plugins := self in ret (plugins !! id)
  | _ => raise (EInvalidType "Given `id` must be a <str>")
  end.

(** [plugins]: the plugins of the registry (in no particular order). *)
Definition plugins : M St (list Plugin.t) :=
  let* plugins := self in ret ((map_to_list plugins).*2).

(** [refresh] *)
Definition refresh : M St unit := buildList.

End WithHost.

End Plugins.

(** ** A reference host

    A small host to run the code on concrete inputs: manifests made of
    header lines, comment lines and [key=value] lines, none indented; a
    loader that registers the entry module when its file exists and raises
    when it does not; extensions without hooks, or with a [setup] hook
    that raises. *)

Module reference.

Definition is_space (c : ascii) : bool :=
  Ascii.eqb c " "%char || Ascii.eqb c "009"%char || Ascii.eqb c "013"%char.

Fixpoint lstrip (s : string) : string :=
  match s with
  | String c r => if is_space c then lstrip r else s
  | EmptyString => EmptyString
  end.

Fixpoint rstrip (s : string) : string :=
  match s with
  | EmptyString => EmptyString
  | String c r =>
      let r' := rstrip r in
      if is_space c && String.eqb r' "" then "" else String c r'
  end.

Definition strip (s : string) : string := rstrip (lstrip s).

Fixpoint split_lines (s : string) : string * list string :=
  match s with
  | EmptyString => (EmptyString, [])
  | String c r =>
      let '(line, rest) := split_lines r in
      if Ascii.eqb c "010"%char then (EmptyString, line :: rest)
      else (String c line, rest)
  end.

(** The text before and after the first [=] or [:]. *)
Fixpoint split_delimiter (s : string) : option (string * string) :=
  match s with
  | EmptyString => None
  | String c r =>
      if Ascii.eqb c "="%char || Ascii.eqb c ":"%char then Some (EmptyString, r)
      else match split_delimiter r with
           | Some (k, v) => Some (String c k, v)
           | None => None
           end
  end.

(** The name between the brackets of a header line. *)
Definition header (line : string) : option string :=
  if Str.startswith "[" line && Str.endswith "]" line
     && (2 <? String.length line)%nat
  then Some (String.substring 1 (String.length line - 2) line)
  else None.

(** The parser so far, and the section the next options go to. *)
Definition ReadState : Type := ConfigParser * option string.

Definition add_option (sect k v : string) (cfg : ConfigParser) : PyExc + ConfigParser :=
  if String.eqb sect "DEFAULT" then
    match cp_defaults cfg !! k with
    | Some _ => inl (ConfigParserError "DuplicateOptionError")
    | None => inr {| cp_defaults := <[k := v]> (cp_defaults cfg);
                     cp_sections := cp_sections cfg |}
    end
  else
    let opts := default ∅ (cp_sections cfg !! sect) in
    match opts !! k with
    | Some _ => inl (ConfigParserError "DuplicateOptionError")
    | None => inr {| cp_defaults := cp_defaults cfg;
                     cp_sections := <[sect := <[k := v]> opts]> (cp_sections cfg) |}
    end.

Definition read_line (line : string) (st : ReadState) : PyExc + ReadState :=
  let '(cfg, cursect) := st in
  let value := strip line in
  if String.eqb value "" || Str.startswith "#" value || Str.startswith ";" value
  then inr st
  else match header value with
       | Some sectname =>
           if String.eqb sectname "DEFAULT" then inr (cfg, Some sectname)
           else match cp_sections cfg !! sectname with
                | Some _ => inl (ConfigParserError "DuplicateSectionError")
                | None => inr ({| cp_defaults := cp_defaults cfg;
                                  cp_sections := <[sectname := ∅]> (cp_sections cfg) |},
                               Some sectname)
                end
       | None =>
           match cursect with
           | None => inl (ConfigParserError "MissingSectionHeaderError")
           | Some sect =>
               match split_delimiter value with
               | Some (k, v) =>
                   let optname := Str.lower (rstrip k) in
                   if String.eqb optname "" then inl (ConfigParserError "ParsingError")
                   else match add_option sect optname (strip v) cfg with
                        | inl e => inl e
                        | inr cfg' => inr (cfg', cursect)
                        end
               | None => inl (ConfigParserError "ParsingError")
               end
           end
       end.

Fixpoint read_lines (lines : list string) (st : ReadState) : PyExc + ReadState :=
  match lines with
  | [] => inr st
  | line :: r =>
      match read_line line st with
      | inl e => inl e
      | inr st' => read_lines r st'
      end
  end.

Definition read_string (text : string) : PyExc + ConfigParser :=
  let '(first, rest) := split_lines text in
  match read_lines (first :: rest) ({| cp_defaults := ∅; cp_sections := ∅ |}, None) with
  | inl e => inl e
  | inr (cfg, _) => inr cfg
  end.

Fixpoint has_percent (s : string) : bool :=
  match s with
  | EmptyString => false
  | String c r => Ascii.eqb c "%"%char || has_percent r
  end.

(** A value without a percent sign is returned as it is; the reference
    refuses the others. *)
Definition interpolate (_ : gmap string string) (v : string) : PyExc + string :=
  if has_percent v then inl (ConfigParserError "InterpolationSyntaxError") else inr v.

Fixpoint is_ascii (s : string) : bool :=
  match s with
  | EmptyString => true
  | String c r => (nat_of_ascii c <? 128)%nat && is_ascii r
  end.

Definition decode (bytes : string) : PyExc + string :=
  if is_ascii bytes then inr bytes else inl UnicodeDecodeError.

(** The entry module is registered as [__main__] when its file exists. *)
Definition loader (script : string) : M World unit :=
  let* isfile := os.path_isfile script in
  if isfile
  then modify (set_sys_modules (fun m => <["__main__" := {| mod_file := Some script |}]> m))
  else raise (FileNotFoundError script).

(** The reference host, with the answer the user gives to every prompt. *)
Definition host (answer_yes : bool) : HostAdapter :=
  {| cp_read_string := read_string;
     cp_interpolate := interpolate;
     bytes_decode := decode;
     load_module := loader;
     ext_setup := fun _ => None;
     ext_createActions := fun _ => None;
     question_yes := fun _ _ _ => answer_yes |}.

(** The same host, the extensions having a [setup] hook that raises. *)
Definition host_failing_setup : HostAdapter :=
  {| cp_read_string := read_string;
     cp_interpolate := interpolate;
     bytes_decode := decode;
     load_module := loader;
     ext_setup := fun _ => Some (raise (HostError true "setup failed"));
     ext_createActions := fun _ => None;
     question_yes := fun _ _ _ => false |}.

End reference.

(** ** Sample data: a registry directory and archives *)

Module sample.

Definition nl : string := String "010"%char EmptyString.

Definition manifest (pluginId title : string) : string :=
  "[Desktop Entry]" ++ nl ++ "Type=Service" ++ nl
  ++ "X-KDE-Library=" ++ pluginId ++ nl ++ "Name=" ++ title ++ nl.

(** A manifest without the [X-KDE-Library] key. *)
Definition manifest_without_id : string :=
  "[Desktop Entry]" ++ nl ++ "Type=Service" ++ nl ++ "Name=Bar" ++ nl.

(** A manifest without the [Desktop Entry] section. *)
Definition manifest_without_section : string :=
  "[Other]" ++ nl ++ "X-KDE-Library=bar" ++ nl.

(** The installation root with [a.desktop] (id [foo]) and [b.desktop]
    (no id key), and a directory for downloads. *)
Definition files : gmap string Node :=
  <["/app/pykrita/a.desktop" := File (Text (manifest "foo" "Foo"))]>
  (<["/app/pykrita/b.desktop" := File (Text manifest_without_id)]>
  (<["/app/pykrita" := Dir]>
  (<["/app" := Dir]>
  (<["/tmp" := Dir]> ∅)))).

Definition world : World :=
  {| appdata := "/app"; settings := ∅; fs := files; sys_modules := ∅;
     actions := []; extensions := []; menubar := None; debug := [] |}.

Definition entry (n d : string) : ZipEntry := {| zfilename := n; zdata := d |}.

(** An archive for the plugin [baz], with a file beside the plugin's
    directory. *)
Definition archive_baz : list ZipEntry :=
  [ entry "baz.desktop" (manifest "baz" "Baz");
    entry "baz/" "";
    entry "baz/__init__.py" "pass";
    entry "baz/helper.py" "pass";
    entry "README.txt" "hello" ].

(** An archive with two manifests, and one without entry module. *)
Definition archive_two_manifests : list ZipEntry :=
  [ entry "baz.desktop" (manifest "baz" "Baz");
    entry "qux.desktop" (manifest "qux" "Qux");
    entry "baz/__init__.py" "pass" ].

Definition archive_no_entry_point : list ZipEntry :=
  [ entry "baz.desktop" (manifest "baz" "Baz");
    entry "baz/helper.py" "pass" ].

Definition with_file (p : string) (d : FileData) (w : World) : World :=
  set_fs (fun m => <[p := File d]> m) w.

Definition with_setting (k v : string) (w : World) : World :=
  set_settings (fun m => <[("python", k) := v]> m) w.

Definition with_module (n file : string) (w : World) : World :=
  set_sys_modules (fun m => <[n := {| mod_file := Some file |}]> m) w.

(** The sample world with an archive downloaded as [/tmp/plugin.zip]. *)
Definition world_with (archive : list ZipEntry) : World :=
  with_file "/tmp/plugin.zip" (ZipArchive archive) world.

(** The same, the plugin [baz] being already enabled in the settings. *)
Definition world_enabled : World :=
  with_setting "enable_baz" "true" (world_with archive_baz).

(** The sample world with three modules loaded: the entry module of [baz],
    a module of a subdirectory of [baz], and a module of the library. *)
Definition world_loaded : World :=
  with_module "baz" "/app/pykrita/baz/__init__.py"
    (with_module "baz.sub.tools" "/app/pykrita/baz/sub/tools.py"
       (with_module "os" "/usr/lib/python3/os.py" world)).

(** The plugin [baz] as an installation leaves it on disk, active or not. *)
Definition plugin_baz (active : bool) : Plugin.t :=
  {| Plugin.id := "baz"; Plugin.name := "Baz"; Plugin.description := "";
     Plugin.path := "/app/pykrita/baz"; Plugin.manual := "";
     Plugin.desktopFile := "/app/pykrita/baz.desktop";
     Plugin.isActive := active; Plugin.isValid := true |}.

(** A world without installation root. *)
Definition world_without_root : World :=
  {| appdata := "/app"; settings := ∅;
     fs := <["/app" := Dir]> (<["/tmp" := Dir]> ∅);
     sys_modules := ∅; actions := []; extensions := []; menubar := None;
     debug := [] |}.

(** The extension object of another plugin. *)
Definition other_extension : Extension :=
  {| ext_key := "pluginmanager";
     ext_classfile := Some "/app/pykrita/pluginmanager/pluginmanager.py" |}.

(** The sample world with the plugin [baz] on disk, manifest, action file
    and entry module, and the extension object of another plugin. *)
Definition world_on_disk : World :=
  {| appdata := "/app"; settings := ∅;
     fs := <["/app/pykrita/baz.desktop" := File (Text (manifest "baz" "Baz"))]>
           (<["/app/pykrita/baz" := Dir]>
           (<["/app/pykrita/baz/__init__.py" := File (Text "pass")]>
           (<["/app/actions" := Dir]>
           (<["/app/actions/baz.action" := File (Text "<ActionCollection/>")]>
            files))));
     sys_modules := ∅; actions := [];
     extensions := [other_extension];
     menubar := None; debug := [] |}.

(** The extension object of the plugin [baz], and the plugin on disk with
    this object live beside that of the other plugin. *)
Definition baz_extension : Extension :=
  {| ext_key := "baz"; ext_classfile := Some "/app/pykrita/baz/baz.py" |}.

Definition world_with_extension : World :=
  {| appdata := "/app"; settings := ∅; fs := fs world_on_disk;
     sys_modules := ∅; actions := [];
     extensions := [other_extension; baz_extension];
     menubar := None; debug := [] |}.

(** The same, the plugin being enabled and its entry module loaded. *)
Definition world_installed : World :=
  with_module "baz" "/app/pykrita/baz/__init__.py"
    (with_setting "enable_baz" "true" world_on_disk).

(** What the reference reader makes of a text, and the options of its
    [Desktop Entry] section. *)
Definition parsed (text : string) : ConfigParser :=
  match reference.read_string text with
  | inr cfg => cfg
  | inl _ => {| cp_defaults := ∅; cp_sections := ∅ |}
  end.

Definition desktop_entry (cfg : ConfigParser) : gmap string string :=
  match configparser.getitem cfg "Desktop Entry" with
  | inr opts => opts
  | inl _ => ∅
  end.

(** The record of the manifest [a.desktop] of the sample root. *)
Definition plugin_foo : Plugin.t :=
  {| Plugin.id := "foo"; Plugin.name := "Foo"; Plugin.description := "";
     Plugin.path := "/app/pykrita/foo"; Plugin.manual := "";
     Plugin.desktopFile := "/app/pykrita/a.desktop";
     Plugin.isActive := false; Plugin.isValid := true |}.

End sample.

(** ** Vocabulary of the properties *)

Definition is_str {O} (v : PyVal O) : bool :=
  match v with PyStr _ => true | _ => false end.
Definition is_none {O} (v : PyVal O) : bool :=
  match v with PyNone => true | _ => false end.
Definition is_obj {O} (v : PyVal O) : bool :=
  match v with PyObj _ => true | _ => false end.

(** The installation root, and whether it exists. *)
Definition install_root (w : World) : string := os_path.join (appdata w) "pykrita".
Definition root_exists (w : World) : bool :=
  bool_decide (is_Some (os.stat (install_root w) w)).

(** Whether the host's setting for the plugin is the enabled sentinel. *)
Definition setting_enabled (w : World) (pluginId : string) : bool :=
  String.eqb (default "false" (settings w !! ("python", "enable_" ++ pluginId))) "true".

(** The record a manifest declaring [i], [n], [c], [m] is loaded into. *)
Definition loaded (w : World) (i n c m : string) : Plugin.t :=
  let path := os_path.join (install_root w) i in
  {| Plugin.id := i; Plugin.name := n; Plugin.description := c;
     Plugin.path := path;
     Plugin.manual := if String.eqb m "" then "" else os_path.join path m;
     Plugin.desktopFile := "";
     Plugin.isActive := setting_enabled w i;
     Plugin.isValid := true |}.

(** The world once the enabled, or disabled, sentinel of a plugin is written. *)
Definition sentinel_written (value : string) (p : Plugin.t) (w : World) : World :=
  set_settings (fun m => <[("python", "enable_" ++ Plugin.id p) := value]> m) w.

(** A module whose file is directly in the plugin's install directory. *)
Definition in_plugin_dir (p : Plugin.t) (m : PyModule) : bool :=
  match mod_file m with
  | Some file => String.eqb (os_path.dirname file) (Plugin.path p)
  | None => false
  end.

(** The module table without the modules of the plugin's directory. *)
Definition unload (p : Plugin.t) (mods : gmap string PyModule) : gmap string PyModule :=
  filter (fun kv => in_plugin_dir p (snd kv) = false) mods.

Definition purge_one (p : Plugin.t) (mods : gmap string PyModule) (k : string)
  : gmap string PyModule :=
  match mods !! k with
  | Some m => if in_plugin_dir p m then delete k mods else mods
  | None => mods
  end.

Definition purge (p : Plugin.t) (l : list string) (mods : gmap string PyModule)
  : gmap string PyModule :=
  fold_left (purge_one p) l mods.

(** The manifests and the entry modules [install] finds in an archive. *)
Definition manifests (archive : list ZipEntry) : list string :=
  List.filter (Str.re_search_end ".desktop") (zfilename <$> archive).
Definition entry_points (pluginId : string) (archive : list ZipEntry) : list string :=
  List.filter (Str.re_search_end (os_path.join pluginId "__init__.py"))
              (zfilename <$> archive).

(** The [overwrite] argument of [install], [None] standing for "ask". *)
Definition overwrite_policy (overwrite : PyVal Plugin.t) : PyVal Plugin.t :=
  match overwrite with
  | PyNone => PyInt Plugin.ACTION_VALIDATE_ASK
  | v => v
  end.

(** The text of the prompt of [uninstall]. *)
Definition uninstall_prompt (p : Plugin.t) : string :=
  "The plugin " ++ dquote ++ Plugin.name p ++ dquote
  ++ " will be completely removed. Confirm uninstallation?".

(** An invariant of a computation: it holds in the state reached, whether
    the computation returns or raises. *)
Definition preserves {S A} (I : S -> Prop) (m : M S A) : Prop :=
  forall s, I s -> I (final (m s)).

(** An invariant on the object and one on the world. *)
Definition both {O W} (Io : O -> Prop) (Iw : W -> Prop) : O * W -> Prop :=
  fun s => Io (fst s) /\ Iw (snd s).

Section Vocabulary.
Context `{HostAdapter}.

(** The structural checks of [install] passed: one manifest [d], which
    loads into the valid record [plugin], and an entry module [i]. *)
Definition validated (archive : list ZipEntry) (w : World) (d i : string)
  (plugin : Plugin.t) : Prop :=
  manifests archive = [d]
  /\ (exists bytes content,
        zipfile.read_member archive d w = Ret bytes w
        /\ bytes_decode bytes = inr content
        /\ on_object Plugin.blank (Plugin.loadFromDesktopContent (PyStr content)) w
           = Ret (tt, plugin) w)
  /\ Plugin.isValid plugin = true
  /\ (exists rest, entry_points (Plugin.id plugin) archive = i :: rest).

(** The structural checks of [install] failed: no manifest, several
    manifests, or a manifest whose plugin has no entry module. *)
Inductive rejected (archive : list ZipEntry) (w : World) : Prop :=
| rejected_no_manifest :
    manifests archive = [] -> rejected archive w
| rejected_ambiguous d1 d2 r :
    manifests archive = d1 :: d2 :: r -> rejected archive w
| rejected_no_entry_point d bytes content p w' :
    manifests archive = [d] ->
    zipfile.read_member archive d w = Ret bytes w ->
    bytes_decode bytes = inr content ->
    on_object Plugin.blank (Plugin.loadFromDesktopContent (PyStr content)) w
    = Ret (tt, p) w' ->
    entry_points (Plugin.id p) archive = [] ->
    rejected archive w.

(** The file at [file] is a manifest that reads as [cfg]. *)
Definition manifest_at (w : World) (file : string) (cfg : ConfigParser) : Prop :=
  exists bytes text,
    os.stat file w = Some (File (Text bytes))
    /\ bytes_decode bytes = inr text
    /\ cp_read_string text = inr cfg.

(** The manifest declares the id [i], the name [n], the comment [c] and
    the manual [m] (empty when the key is absent). *)
Definition declares (cfg : ConfigParser) (i n c m : string) : Prop :=
  exists opts,
    configparser.getitem cfg "Desktop Entry" = inr opts
    /\ configparser.proxy_get opts "X-KDE-Library" "" = inr i
    /\ configparser.proxy_get opts "Name" "" = inr n
    /\ configparser.proxy_get opts "Comment" "" = inr c
    /\ configparser.proxy_get opts "X-Krita-Manual" "" = inr m.

(** The manifest has no [X-KDE-Library] key, the section being there or not. *)
Definition lacks_id_key (cfg : ConfigParser) : Prop :=
  forall opts, configparser.getitem cfg "Desktop Entry" = inr opts ->
               opts !! "x-kde-library" = None.

(** The code the host runs during an activation keeps [Iw]: the loader of
    the entry module and the hooks of the extensions. *)
Definition host_keeps (Iw : World -> Prop) : Prop :=
  (forall script, preserves Iw (load_module script))
  /\ (forall x run, ext_setup x = Some run -> preserves Iw run)
  /\ (forall x run, ext_createActions x = Some run -> preserves Iw run).

(** The turn of the extension [x] in the loop of [activate] over the
    extensions raises [e] and leaves the world [w']: the file of its class
    cannot be told; or the class is of the plugin's directory and its
    [setup] hook raises; or [setup], if there is one, returns and the
    [createActions] hook raises. *)
Inductive extension_raises (p : Plugin.t) (x : Extension) (w : World) (e : PyExc)
  (w' : World) : Prop :=
| raises_getfile :
    ext_classfile x = None -> e = TypeError "inspect.getfile" -> w' = w ->
    extension_raises p x w e w'
| raises_setup file setup :
    ext_classfile x = Some file -> os_path.dirname file = Plugin.path p ->
    ext_setup x = Some setup -> setup w = Raise e w' ->
    extension_raises p x w e w'
| raises_createActions file w1 createActions :
    ext_classfile x = Some file -> os_path.dirname file = Plugin.path p ->
    match ext_setup x with Some setup => setup w | None => Ret tt w end = Ret tt w1 ->
    ext_createActions x = Some createActions -> createActions w1 = Raise e w' ->
    extension_raises p x w e w'.

(** The turn of the extension [x] in the loop of [activate] returns and
    takes the world from [w] to [w']: its class is of another directory and
    nothing is done; or it is of the plugin's directory and its hooks, those
    it has, return. *)
Inductive extension_returns (p : Plugin.t) (x : Extension) (w w' : World) : Prop :=
| returns_elsewhere file :
    ext_classfile x = Some file -> os_path.dirname file <> Plugin.path p -> w' = w ->
    extension_returns p x w w'
| returns_hooks file w1 :
    ext_classfile x = Some file -> os_path.dirname file = Plugin.path p ->
    match ext_setup x with Some setup => setup w | None => Ret tt w end = Ret tt w1 ->
    match ext_createActions x with
    | Some createActions => createActions w1
    | None => Ret tt w1
    end = Ret tt w' ->
    extension_returns p x w w'.

(** The turns of the extensions [l], one after the other. *)
Inductive extensions_return (p : Plugin.t) : list Extension -> World -> World -> Prop :=
| return_nil w : extensions_return p [] w w
| return_cons x l w w1 w' :
    extension_returns p x w w1 -> extensions_return p l w1 w' ->
    extensions_return p (x :: l) w w'.

(** The confirmation of [uninstall] resolves to "no": given as such, or
    asked and not answered with yes. *)
Definition aborts (confirmUninstall : PyVal Plugin.t) (p : Plugin.t) (w : World) : Prop :=
  py_eq_int confirmUninstall Plugin.ACTION_VALIDATE_NO = true
  \/ ((confirmUninstall = PyNone
       \/ py_eq_int confirmUninstall Plugin.ACTION_VALIDATE_ASK = true)
      /\ question_yes "Uninstall Plugin" (uninstall_prompt p) w = false).

End Vocabulary.

(** ** Vocabulary of the further properties *)

(** The registry's keys are the ids of its records, and none is empty. *)
Definition keyed (registry : gmap string Plugin.t) : Prop :=
  forall k p, registry !! k = Some p -> Plugin.id p = k /\ k <> "".

(** No slash in the string. *)
Fixpoint no_slash (s : string) : bool :=
  match s with
  | EmptyString => true
  | String c r => negb (Str.is_slash c) && no_slash r
  end.

(** The records of a registry as a refresh in the world [w] builds them:
    keyed by their id, valid, with the flag of the host's setting, the
    path below the installation root and, for manifest, a file of that
    directory itself (its name has no slash) with the [.desktop] extension. *)
Definition listed (w : World) (registry : gmap string Plugin.t) : Prop :=
  forall k p, registry !! k = Some p ->
    Plugin.id p = k /\ k <> ""
    /\ Plugin.isValid p = true
    /\ Plugin.isActive p = setting_enabled w k
    /\ Plugin.path p = os_path.join (install_root w) k
    /\ exists fileName,
         Plugin.desktopFile p = os_path.join (install_root w) fileName
         /\ no_slash fileName = true
         /\ Str.re_search_end ".desktop" fileName = true.


(** The world once [deactivate] has run on the record. *)
Definition deactivated (p : Plugin.t) (w : World) : World :=
  if Plugin.isActive p
  then set_sys_modules (unload p) (sentinel_written "false" p w)
  else w.

(** The action definition file of a plugin. *)
Definition action_file (w : World) (p : Plugin.t) : string :=
  os_path.join3 (appdata w) "actions" (Plugin.id p ++ ".action").

(** The world without the file [f], if there is such a file. *)
Definition without_file (f : string) (w : World) : World :=
  match os.stat f w with
  | Some (File _) => set_fs (fun m => delete (os.key f) m) w
  | _ => w
  end.

(** The world without the directory [d] and all below it, if there is
    such a directory. *)
Definition without_tree (d : string) (w : World) : World :=
  match os.stat d w with
  | Some Dir => set_fs (fun m => filter (fun kv => os.below (os.key d) (fst kv) = false) m) w
  | _ => w
  end.

(** The world once the plugin is uninstalled. *)
Definition uninstalled (p : Plugin.t) (w : World) : World :=
  without_tree (Plugin.path p)
    (without_file (action_file w p)
       (without_file (Plugin.desktopFile p)
          (set_settings (fun m => delete ("python", "enable_" ++ Plugin.id p) m)
             (deactivated p w)))).

(** Only deletions lead from the files of [w] to those of [w']. *)
Definition shrinks (w w' : World) : Prop :=
  forall q, fs w' !! q = None \/ fs w' !! q = fs w !! q.

Section Vocabulary2.
Context `{HostAdapter}.

(** The confirmation of [uninstall] resolves to "yes": asked and answered
    with yes, or any value given that is neither "ask" nor "no". *)
Definition proceeds (confirmUninstall : PyVal Plugin.t) (p : Plugin.t) (w : World) : Prop :=
  let confirm :=
    match confirmUninstall with
    | PyNone => PyInt Plugin.ACTION_VALIDATE_ASK
    | v => v
    end in
  (py_eq_int confirm Plugin.ACTION_VALIDATE_ASK = false
   /\ py_eq_int confirm Plugin.ACTION_VALIDATE_NO = false)
  \/ (py_eq_int confirm Plugin.ACTION_VALIDATE_ASK = true
      /\ question_yes "Uninstall Plugin" (uninstall_prompt p) w = true).

End Vocabulary2.


(** The text of the prompt of [install]. *)
Definition install_prompt (plugin : Plugin.t) : string :=
  "The plugin " ++ dquote ++ Plugin.name plugin ++ dquote
  ++ " already exists. Overwrite it?".

Section Vocabulary3.
Context `{HostAdapter}.

(** The overwriting of an existing plugin is refused: by the argument, or
    by the user when asked. *)
Definition refuses (overwrite : PyVal Plugin.t) (plugin : Plugin.t) (w : World) : Prop :=
  py_eq_int (overwrite_policy overwrite) Plugin.ACTION_VALIDATE_NO = true
  \/ (py_eq_int (overwrite_policy overwrite) Plugin.ACTION_VALIDATE_ASK = true
      /\ question_yes "Install Plugin" (install_prompt plugin) w = false).

End Vocabulary3.

(** A path the filesystem of the model reads as the operating system
    does: absolute, with no empty, [.] or [..] component, so that nothing
    is left to resolve. *)
Definition canonical (p : string) : bool :=
  let '(first, rest) := Str.split_slash p in
  String.eqb first ""
  && match rest with [] => false | _ => true end
  && forallb (fun x => negb (String.eqb x "" || String.eqb x "." || String.eqb x ".."))
             rest.

(** The name [name] in the directory [dir] of an archive, or at its top
    when [dir] is empty. *)
Definition in_directory (dir name : string) : string :=
  if String.eqb dir "" then name else dir ++ "/" ++ name.

(** The directory [install] extracts a member to. *)
Definition destination (plugin : Plugin.t) (w : World) (d : Plugin.Destination) : string :=
  match d with
  | Plugin.InstallRoot => install_root w
  | Plugin.ActionsDir => os_path.join (appdata w) "actions"
  | Plugin.PluginDir => Plugin.path plugin
  end.

(** The path the member named [name], sent to [d], is extracted at. *)
Definition extracted_at (plugin : Plugin.t) (w : World) (d : Plugin.Destination)
  (name : string) : string :=
  os.key (os_path.join (destination plugin w d) (zipfile.arcname name)).

(** The paths the extraction of the member [filename] may write, the
    manifest of the archive being [desktopFileName] and its entry module
    [initFileName]: the path it is extracted at and the directories on the
    way, which are made when they are missing. *)
Definition touched (plugin : Plugin.t) (w : World) (desktopFileName initFileName : string)
  (filename : string) : list string :=
  match Plugin.route (Plugin.id plugin) (Plugin.prefix_length desktopFileName)
                     (Plugin.prefix_length initFileName) filename with
  | Some (d, name) =>
      let t := extracted_at plugin w d name in
      t :: (os.key <$> zipfile.ancestors (os_path.dirname t))
  | None => []
  end.

(** None of the members [post] is extracted at the path [k], nor has it
    on its way. *)
Definition untouched (k : string) (plugin : Plugin.t) (w : World)
  (desktopFileName initFileName : string) (post : list ZipEntry) : bool :=
  forallb (fun f => negb (existsb (String.eqb k)
                            (touched plugin w desktopFileName initFileName (zfilename f))))
          post.

(** The path [k] holds [v], and the application data are at [a]. *)
Definition kept (k : string) (v : option Node) (a : string) (w : World) : Prop :=
  fs w !! k = v /\ appdata w = a.

(** An equation between closed terms, settled by evaluation. *)
Ltac by_computation :=
  lazymatch goal with
  | |- @eq ?T _ ?r => vm_cast_no_check (@eq_refl T r)
  end.

(** ** Properties *)

(** *** Strings and paths *)

Lemma slice_from_app (pre s : string) :
  Str.slice_from (String.length pre) (pre ++ s) = s.
Proof. induction pre as [|c pre IH]; simpl; [by destruct s|exact IH]. Qed.

Lemma length_app (a b : string) :
  String.length (a ++ b) = String.length a + String.length b.
Proof. induction a as [|c a IH]; simpl; [done|by rewrite IH]. Qed.

Lemma slice_from_add (n m : nat) (s : string) :
  Str.slice_from (n + m) s = Str.slice_from m (Str.slice_from n s).
Proof.
  revert s. induction n as [|n IH]; intros s; simpl; [done|].
  destruct s as [|c s]; [by destruct m|apply IH].
Qed.

Lemma endswith_app (suf pre s : string) :
  Str.endswith suf s = true -> Str.endswith suf (pre ++ s) = true.
Proof.
  unfold Str.endswith. intros [Hlen Heq]%andb_true_iff.
  apply Nat.leb_le in Hlen. apply andb_true_iff. split.
  - apply Nat.leb_le. rewrite length_app. lia.
  - rewrite length_app.
    replace (String.length pre + String.length s - String.length suf)
      with (String.length pre + (String.length s - String.length suf)) by lia.
    by rewrite slice_from_add, slice_from_app.
Qed.

Lemma re_search_end_app (lit pre s : string) :
  Str.re_search_end lit s = true -> Str.re_search_end lit (pre ++ s) = true.
Proof.
  unfold Str.re_search_end. intros [Hs|Hs]%orb_true_iff; apply orb_true_iff;
    [left|right]; by apply endswith_app.
Qed.

(** A name joined to a directory keeps its ending. *)
Lemma re_search_end_join (lit dir fileName : string) :
  Str.startswith "/" fileName = false ->
  Str.re_search_end lit fileName = true ->
  Str.re_search_end lit (os_path.join dir fileName) = true.
Proof.
  intros Hrel Hend. unfold os_path.join. rewrite Hrel.
  destruct (_ || _); [by apply re_search_end_app|].
  by do 2 apply re_search_end_app.
Qed.

(** *** Invariants of computations *)

Lemma preserves_ret {S A} (I : S -> Prop) (a : A) : preserves I (ret a).
Proof. intros s Hs. exact Hs. Qed.

Lemma preserves_raise {S A} (I : S -> Prop) e : preserves I (raise e : M S A).
Proof. intros s Hs. exact Hs. Qed.

Lemma preserves_get {S} (I : S -> Prop) : preserves I get.
Proof. intros s Hs. exact Hs. Qed.

Lemma preserves_self {O W} (I : O * W -> Prop) : preserves I self.
Proof. intros s Hs. exact Hs. Qed.

Lemma preserves_lift_sum {S A} (I : S -> Prop) (r : PyExc + A) : preserves I (lift_sum r).
Proof. destruct r; intros s Hs; exact Hs. Qed.

Lemma preserves_modify {S} (I : S -> Prop) (f : S -> S) :
  (forall s, I s -> I (f s)) -> preserves I (modify f).
Proof. intros Hf s Hs. by apply Hf. Qed.

Lemma preserves_bind {S A B} (I : S -> Prop) (m : M S A) (k : A -> M S B) :
  preserves I m -> (forall a, preserves I (k a)) -> preserves I (bind m k).
Proof.
  intros Hm Hk s Hs. unfold bind. specialize (Hm s Hs).
  destruct (m s) as [a s'|e s']; simpl in *; [by apply Hk|done].
Qed.

Lemma preserves_try_except {S A} (I : S -> Prop) (m : M S A) sel h :
  preserves I m -> (forall e, preserves I (h e)) -> preserves I (try_except m sel h).
Proof.
  intros Hm Hh s Hs. unfold try_except. specialize (Hm s Hs).
  destruct (m s) as [a s'|e s']; simpl in *; [done|].
  destruct (sel e); [by apply Hh|done].
Qed.

Lemma preserves_for_each {S A} (I : S -> Prop) (l : list A) (body : A -> M S unit) :
  (forall x, preserves I (body x)) -> preserves I (for_each l body).
Proof.
  intros Hb. induction l as [|x l IH]; simpl; [apply preserves_ret|].
  apply preserves_bind; auto.
Qed.

Lemma preserves_for_each_in {S A} (I : S -> Prop) (l : list A) (body : A -> M S unit) :
  (forall x, x ∈ l -> preserves I (body x)) -> preserves I (for_each l body).
Proof.
  induction l as [|x l IH]; intros Hb; simpl; [apply preserves_ret|].
  apply preserves_bind.
  - apply Hb. by left.
  - intros _. apply IH. intros y Hy. apply Hb. by right.
Qed.

Lemma preserves_fold_each {S A B} (I : S -> Prop) (l : list A) (acc : B)
    (body : B -> A -> M S B) :
  (forall b x, preserves I (body b x)) -> preserves I (fold_each l acc body).
Proof.
  intros Hb. revert acc. induction l as [|x l IH]; intros acc; simpl;
    [apply preserves_ret|].
  apply preserves_bind; auto.
Qed.

Lemma preserves_in_world {O W A} (Io : O -> Prop) (Iw : W -> Prop) (m : M W A) :
  preserves Iw m -> preserves (both Io Iw) (in_world m : M (O * W) A).
Proof.
  intros Hm [o w] [Ho Hw]. unfold in_world. simpl in *. specialize (Hm w Hw).
  by destruct (m w).
Qed.

(** The structure of a computation is followed down to the calls of the
    host, which are left as goals. *)
Ltac preserves_step :=
  first
    [ apply preserves_ret | apply preserves_raise | apply preserves_get
    | apply preserves_self | apply preserves_lift_sum
    | apply preserves_bind; [|intros ?]
    | apply preserves_for_each; intros ?
    | apply preserves_fold_each; intros ? ?
    | apply preserves_try_except; [|intros ?]
    | match goal with
      | |- preserves _ (match ?x with _ => _ end) => destruct x eqn:?
      end ].

Ltac preserves_auto := repeat preserves_step.

Lemma preserves_True {S A} (m : M S A) : preserves (fun _ => True) m.
Proof. by intros s _. Qed.

(** Reduction of the fields of a record, and of nothing else. *)
Ltac plugin_cbn :=
  cbn [fst snd Plugin.id Plugin.name Plugin.description Plugin.path Plugin.manual
       Plugin.desktopFile Plugin.isActive Plugin.isValid
       Plugin.with_id Plugin.with_name Plugin.with_description Plugin.with_path
       Plugin.with_manual Plugin.with_desktopFile Plugin.with_isActive
       Plugin.with_isValid] in *.

Section ActivationSteps.
Context `{HostAdapter}.

#[local] Arguments os_path.join : simpl never.
#[local] Arguments os_path.dirname : simpl never.
#[local] Arguments os.stat : simpl never.

(** An exception raised at the turn of an extension reaches the caller of
    [activate], the extensions before it having had their turn. *)
Lemma activate_extension_raises (p : Plugin.t) (w w1 w2 w3 : World)
    (pre post : list Extension) (x : Extension) (e : PyExc) :
  Plugin.isActive p = false ->
  load_module (os_path.join (Plugin.path p) "__init__.py") (sentinel_written "true" p w)
  = Ret tt w1 ->
  extensions w1 = (pre ++ x :: post)%list ->
  extensions_return p pre w1 w2 ->
  extension_raises p x w2 e w3 ->
  Plugin.activate (p, w) = Raise e (Plugin.with_isActive true p, w3).
Proof.
  intros Hp Hload Hexts Hpre Hx.
  unfold Plugin.activate. unfold bind at 1. simpl. rewrite Hp.
  unfold bind at 1. simpl. unfold bind at 1. simpl.
  fold (sentinel_written "true" p w).
  unfold bind at 1, in_world at 1. simpl. rewrite Hload. simpl.
  unfold bind at 1. simpl. rewrite Hexts.
  generalize (objectName <$> actions w1). intros ids.
  match goal with |- bind (fold_each _ [] ?body) ?k _ = _ =>
    assert (Hfold : forall acc, fold_each (pre ++ x :: post) acc body
                                  (Plugin.with_isActive true p, w1)
                                = Raise e (Plugin.with_isActive true p, w3)) end.
  { clear Hexts Hload. induction Hpre as [w2|y pre w1 wa w2 Hy Hpre IH]; intros acc.
    - cbn [app fold_each]. unfold bind at 1. unfold bind at 1.
      destruct Hx as [Hfile -> ->|file setup Hfile Hdir Hsetup Hraise
                      |file w' createActions Hfile Hdir Hsetup Hcreate Hraise].
      + by rewrite Hfile.
      + rewrite Hfile. simpl. unfold bind at 1. simpl.
        apply String.eqb_eq in Hdir. rewrite Hdir.
        unfold bind at 1. rewrite Hsetup. unfold in_world. simpl. by rewrite Hraise.
      + rewrite Hfile. simpl. unfold bind at 1. simpl.
        apply String.eqb_eq in Hdir. rewrite Hdir.
        unfold bind at 1. rewrite Hcreate.
        assert (Hs : match ext_setup x with
                     | Some setup => in_world setup
                     | None => ret tt
                     end (Plugin.with_isActive true p, w2)
                     = Ret tt (Plugin.with_isActive true p, w')).
        { destruct (ext_setup x) as [setup|].
          - unfold in_world. simpl. by rewrite Hsetup.
          - by injection Hsetup as <-. }
        rewrite Hs. unfold bind at 1. unfold in_world at 1. simpl. by rewrite Hraise.
    - cbn [app fold_each]. unfold bind at 1. unfold bind at 1.
      destruct Hy as [file Hfile Hdir ->|file w' Hfile Hdir Hsetup Hcreate].
      + rewrite Hfile. simpl. unfold bind at 1. simpl.
        apply String.eqb_neq in Hdir. rewrite Hdir. simpl. by apply IH.
      + rewrite Hfile. simpl. unfold bind at 1. simpl.
        apply String.eqb_eq in Hdir. rewrite Hdir.
        unfold bind at 1.
        assert (Hs : match ext_setup y with
                     | Some setup => in_world setup
                     | None => ret tt
                     end (Plugin.with_isActive true p, w1)
                     = Ret tt (Plugin.with_isActive true p, w')).
        { destruct (ext_setup y) as [setup|].
          - unfold in_world. simpl. by rewrite Hsetup.
          - by injection Hsetup as <-. }
        rewrite Hs.
        destruct (ext_createActions y) as [createActions|].
        * unfold bind at 1. unfold in_world at 1. simpl. rewrite Hcreate. simpl.
          unfold bind at 1. simpl. by apply IH.
        * injection Hcreate as <-. simpl. by apply IH. }
  unfold bind. by rewrite Hfold.
Qed.

End ActivationSteps.

Section Properties.
Context `{HostAdapter}.

#[local] Arguments configparser.proxy_get : simpl never.
#[local] Arguments configparser.getitem : simpl never.
#[local] Arguments Plugins_path : simpl never.
#[local] Arguments os_path.join : simpl never.
#[local] Arguments Str.re_search_end : simpl never.
#[local] Arguments os.stat : simpl never.

(** *** Loading a manifest *)

Lemma Plugins_path_eq (w : World) :
  Plugins_path w
  = if root_exists w then Ret (install_root w) w else Raise (NameError "dest") w.
Proof.
  unfold Plugins_path, bind, get, os.path_exists, ret, root_exists, install_root.
  simpl. by destruct (bool_decide _).
Qed.

(** Loading reads the world and leaves it as it is. *)
Lemma loadFromcfgParser_world cfg p w :
  snd (final (Plugin.loadFromcfgParser cfg (p, w))) = w.
Proof.
  unfold Plugin.loadFromcfgParser, Krita.readSetting, bind, ret, raise, get, self,
    set_self, in_world, lift_sum.
  destruct (configparser.getitem cfg "Desktop Entry") as [e|opts]; [done|]; simpl.
  destruct (configparser.proxy_get opts "X-KDE-Library" "") as [e|i]; [done|]; simpl.
  destruct (configparser.proxy_get opts "Name" "") as [e|n]; [done|]; simpl.
  destruct (configparser.proxy_get opts "Comment" "") as [e|c]; [done|]; simpl.
  rewrite Plugins_path_eq. destruct (root_exists w); [|done]; simpl.
  destruct (configparser.proxy_get opts "X-Krita-Manual" "") as [e|m]; [done|]; simpl.
  destruct (negb _); simpl; destruct (String.eqb _ "true"); done.
Qed.

(** What a load that returns has read. *)
Lemma loadFromcfgParser_ret cfg p w p' w' :
  Plugin.loadFromcfgParser cfg (p, w) = Ret tt (p', w') ->
  root_exists w = true
  /\ Plugin.isValid p' = true
  /\ Plugin.isActive p' = setting_enabled w (Plugin.id p')
  /\ exists opts, configparser.getitem cfg "Desktop Entry" = inr opts
                  /\ configparser.proxy_get opts "X-KDE-Library" "" = inr (Plugin.id p').
Proof.
  unfold Plugin.loadFromcfgParser, Krita.readSetting, bind, ret, raise, get, self,
    set_self, in_world, lift_sum.
  destruct (configparser.getitem cfg "Desktop Entry") as [e|opts]; [done|]; simpl.
  destruct (configparser.proxy_get opts "X-KDE-Library" "") as [e|i] eqn:Hi; [done|]; simpl.
  destruct (configparser.proxy_get opts "Name" "") as [e|n]; [done|]; simpl.
  destruct (configparser.proxy_get opts "Comment" "") as [e|c]; [done|]; simpl.
  rewrite Plugins_path_eq. destruct (root_exists w); [|done]; simpl.
  destruct (configparser.proxy_get opts "X-Krita-Manual" "") as [e|m]; [done|]; simpl.
  intros Heq. unfold setting_enabled.
  assert (Hid : Plugin.id p' = i).
  { destruct (negb _), (String.eqb _ "true"); injection Heq as <- _; reflexivity. }
  rewrite Hid.
  split_and!; [done| | |eauto].
  - destruct (negb _), (String.eqb _ "true"); injection Heq as <- _; reflexivity.
  - destruct (negb _); destruct (String.eqb _ "true"); injection Heq as <- _;
      reflexivity.
Qed.

Lemma loadFromcfgParser_no_section cfg p w :
  cp_sections cfg !! "Desktop Entry" = None ->
  Plugin.loadFromcfgParser cfg (p, w) = Raise (KeyError "Desktop Entry") (p, w).
Proof.
  intros Hs. unfold Plugin.loadFromcfgParser, configparser.getitem. simpl.
  unfold bind at 1. by rewrite Hs.
Qed.

Lemma loadFromcfgParser_ok cfg p w i n c m :
  declares cfg i n c m ->
  root_exists w = true ->
  Plugin.loadFromcfgParser cfg (p, w)
  = Ret tt (Plugin.with_desktopFile (Plugin.desktopFile p) (loaded w i n c m), w).
Proof.
  intros (opts & Hs & Hi & Hn & Hc & Hm) Hr.
  unfold Plugin.loadFromcfgParser, Krita.readSetting, bind, ret, raise, get, self,
    set_self, in_world, lift_sum.
  rewrite Hs. simpl. rewrite Hi. simpl. rewrite Hn. simpl. rewrite Hc. simpl.
  rewrite Plugins_path_eq, Hr. simpl. rewrite Hm. simpl.
  unfold loaded, setting_enabled, Plugin.with_desktopFile. simpl.
  destruct (String.eqb_spec m "") as [->|]; simpl; destruct (String.eqb _ "true");
    reflexivity.
Qed.

Lemma loadFromDesktopContent_world v p w :
  snd (final (Plugin.loadFromDesktopContent v (p, w))) = w.
Proof.
  unfold Plugin.loadFromDesktopContent, Plugin.defaultValues.
  unfold bind at 1. simpl.
  destruct v as [|content| | |]; try done.
  destruct (String.eqb content ""); [done|].
  unfold bind at 1. unfold lift_sum. destruct (cp_read_string content) as [e|cfg]; [done|].
  simpl. unfold bind at 1.
  pose proof (loadFromcfgParser_world cfg Plugin.blank w) as Hw.
  destruct (Plugin.loadFromcfgParser cfg (Plugin.blank, w)) as [[] [p' w']|e [p' w']];
    simpl in Hw; subst w'; [|done].
  unfold bind, in_world. simpl. rewrite Plugins_path_eq. by destruct (root_exists w).
Qed.

(** A valid record built from a manifest's text mirrors the host's setting. *)
Lemma loadFromDesktopContent_active content p w p' w' :
  Plugin.loadFromDesktopContent (PyStr content) (p, w) = Ret tt (p', w') ->
  Plugin.isValid p' = true ->
  Plugin.isActive p' = setting_enabled w (Plugin.id p').
Proof.
  unfold Plugin.loadFromDesktopContent, Plugin.defaultValues.
  unfold bind at 1. simpl.
  destruct (String.eqb content ""); [by intros [= <- <-]|].
  unfold bind at 1. unfold lift_sum. destruct (cp_read_string content) as [e|cfg]; [done|].
  simpl. unfold bind at 1.
  destruct (Plugin.loadFromcfgParser cfg (Plugin.blank, w)) as [[] [p1 w1]|e [p1 w1]] eqn:E;
    [|done].
  apply loadFromcfgParser_ret in E as (_ & _ & Ha & _).
  unfold bind, in_world, self, set_self. simpl.
  destruct (Plugins_path w1) as [r w2|e w2]; simpl; [|done].
  by intros [= <- <-] _.
Qed.

(** A load that raises has not marked the record valid. *)
Lemma loadFromcfgParser_raise cfg p w e p' w' :
  Plugin.loadFromcfgParser cfg (p, w) = Raise e (p', w') ->
  Plugin.isValid p' = Plugin.isValid p.
Proof.
  unfold Plugin.loadFromcfgParser, Krita.readSetting, bind, ret, raise, get, self,
    set_self, in_world, lift_sum.
  destruct (configparser.getitem cfg "Desktop Entry") as [e0|opts];
    [by intros [= _ <- _]|]; simpl.
  destruct (configparser.proxy_get opts "X-KDE-Library" "") as [e0|i];
    [by intros [= _ <- _]|]; simpl.
  destruct (configparser.proxy_get opts "Name" "") as [e0|n];
    [by intros [= _ <- _]|]; simpl.
  destruct (configparser.proxy_get opts "Comment" "") as [e0|c];
    [by intros [= _ <- _]|]; simpl.
  rewrite Plugins_path_eq. destruct (root_exists w); [|by intros [= _ <- _]]; simpl.
  destruct (configparser.proxy_get opts "X-Krita-Manual" "") as [e0|m];
    [by intros [= _ <- _]|]; simpl.
  destruct (negb _), (String.eqb _ "true"); discriminate.
Qed.

Lemma proxy_get_absent opts option fallback :
  opts !! Str.lower option = None ->
  configparser.proxy_get opts option fallback = inr fallback.
Proof. intros Hk. unfold configparser.proxy_get. by rewrite Hk. Qed.

(** The load of a text that reads as [cfg], step by step. *)
Lemma loadFromDesktopContent_eq content cfg p w :
  content <> "" ->
  cp_read_string content = inr cfg ->
  Plugin.loadFromDesktopContent (PyStr content) (p, w)
  = match Plugin.loadFromcfgParser cfg (Plugin.blank, w) with
    | Ret _ (p1, w1) =>
        match Plugins_path w1 with
        | Ret root w2 =>
            Ret tt (Plugin.with_desktopFile
                      (os_path.join root (Plugin.id p1 ++ ".desktop")) p1, w2)
        | Raise e w2 => Raise e (p1, w2)
        end
    | Raise e s => Raise e s
    end.
Proof.
  intros Hne Hread.
  unfold Plugin.loadFromDesktopContent, Plugin.defaultValues.
  unfold bind at 1. simpl.
  destruct (String.eqb_spec content "") as [->|_]; [done|].
  unfold bind at 1. rewrite Hread. simpl. unfold bind at 1.
  destruct (Plugin.loadFromcfgParser cfg (Plugin.blank, w)) as [[] [p1 w1]|e [p1 w1]];
    [|done].
  unfold bind, in_world, self, set_self, ret. simpl.
  by destruct (Plugins_path w1).
Qed.

(** C1 (amended). Loading a non-empty manifest text that the parser reads
    fails, with [KeyError] and the record left not valid, when the
    [Desktop Entry] section is absent. When the section is there and the
    [X-KDE-Library] key is not, the load does not fail for that: provided
    the installation root exists and the values of [Name], [Comment] and
    [X-Krita-Manual] interpolate, it returns, the id is the empty string
    and the record is marked valid. For every non-empty text, whether the
    parser reads it or not and whether the root exists or not, the record
    is valid afterwards exactly when the load returned. *)
Theorem manifest_required_fields (content : string) (p : Plugin.t) (w : World) :
  content <> "" ->
  let outcome := Plugin.loadFromDesktopContent (PyStr content) (p, w) in
  (forall cfg,
     cp_read_string content = inr cfg ->
     cp_sections cfg !! "Desktop Entry" = None ->
     outcome = Raise (KeyError "Desktop Entry") (Plugin.blank, w))
  /\ (forall cfg opts n c m,
        cp_read_string content = inr cfg ->
        root_exists w = true ->
        configparser.getitem cfg "Desktop Entry" = inr opts ->
        opts !! "x-kde-library" = None ->
        configparser.proxy_get opts "Name" "" = inr n ->
        configparser.proxy_get opts "Comment" "" = inr c ->
        configparser.proxy_get opts "X-Krita-Manual" "" = inr m ->
        let record :=
          Plugin.with_desktopFile (os_path.join (install_root w) ".desktop")
                                  (loaded w "" n c m) in
        outcome = Ret tt (record, w)
        /\ Plugin.isValid record = true /\ Plugin.id record = "")
  /\ (Plugin.isValid (fst (final outcome)) = true <-> exists s, outcome = Ret tt s).
Proof.
  intros Hne outcome. subst outcome. split_and!.
  - intros cfg Hread Hs.
    rewrite (loadFromDesktopContent_eq content cfg p w Hne Hread).
    by rewrite loadFromcfgParser_no_section.
  - intros cfg opts n c m Hread Hroot Hs Hi Hn Hc Hm.
    rewrite (loadFromDesktopContent_eq content cfg p w Hne Hread).
    rewrite (loadFromcfgParser_ok cfg Plugin.blank w "" n c m);
      [|by exists opts; split_and!; try done; by apply proxy_get_absent|done].
    by rewrite Plugins_path_eq, Hroot.
  - destruct (cp_read_string content) as [e|cfg] eqn:Hread.
    + assert (Hraise : Plugin.loadFromDesktopContent (PyStr content) (p, w)
                       = Raise e (Plugin.blank, w)).
      { unfold Plugin.loadFromDesktopContent, Plugin.defaultValues.
        unfold bind at 1. simpl.
        destruct (String.eqb_spec content "") as [->|_]; [done|].
        unfold bind at 1. by rewrite Hread. }
      rewrite Hraise. simpl. split; [done|]. by intros [s Hs].
    + rewrite (loadFromDesktopContent_eq content cfg p w Hne Hread).
      destruct (Plugin.loadFromcfgParser cfg (Plugin.blank, w))
        as [[] [p1 w1]|e [p1 w1]] eqn:E.
      * pose proof (loadFromcfgParser_world cfg Plugin.blank w) as Hw.
        rewrite E in Hw. simpl in Hw. subst w1.
        apply loadFromcfgParser_ret in E as (Hroot & Hv & _).
        rewrite Plugins_path_eq, Hroot. simpl. split; [eauto|done].
      * apply loadFromcfgParser_raise in E. simpl. rewrite E. simpl.
        split; [done|]. by intros [s Hs].
Qed.

(** *** Activation and deactivation *)

Lemma activate_active (p : Plugin.t) (w : World) :
  Plugin.isActive p = true -> Plugin.activate (p, w) = Ret tt (p, w).
Proof. intros Hp. unfold Plugin.activate, bind, self. simpl. by rewrite Hp. Qed.

Lemma deactivate_inactive (p : Plugin.t) (w : World) :
  Plugin.isActive p = false -> Plugin.deactivate (p, w) = Ret tt (p, w).
Proof. intros Hp. unfold Plugin.deactivate, bind, self. simpl. by rewrite Hp. Qed.

(** C8. Activating a record that is active, and deactivating one that is
    not, change nothing: the record and the world (settings, loaded
    modules, menus, files) come back as they were, and nothing is raised. *)
Theorem activate_deactivate_noop (p : Plugin.t) (w : World) :
  (Plugin.isActive p = true -> Plugin.activate (p, w) = Ret tt (p, w))
  /\ (Plugin.isActive p = false -> Plugin.deactivate (p, w) = Ret tt (p, w)).
Proof. split; [apply activate_active|apply deactivate_inactive]. Qed.

(** C10. Activation is not atomic. On an inactive record its first
    effects are the flag of the record and the enabled sentinel in the
    settings; the entry module is loaded after. So when the loader raises,
    the exception reaches the caller with the record active and the world
    as the loader left it, the sentinel having been written before. So
    does the exception of a later step: when, the module loaded and the
    extensions before it having had their turn, the turn of an extension
    raises (the file of its class cannot be told, or a hook of an
    extension of the plugin's directory raises), that exception reaches
    the caller with the record active and the world as that step left it. And
    whenever the activation raises, at any step, the record is active, and
    the settings hold the sentinel unless the host's own code removed it. *)
Theorem activate_not_atomic (p : Plugin.t) (w : World) :
  Plugin.isActive p = false ->
  let key := ("python", "enable_" ++ Plugin.id p) in
  let script := os_path.join (Plugin.path p) "__init__.py" in
  settings (sentinel_written "true" p w) !! key = Some "true"
  /\ (forall e w',
        load_module script (sentinel_written "true" p w) = Raise e w' ->
        Plugin.activate (p, w) = Raise e (Plugin.with_isActive true p, w'))
  /\ (forall w1 w2 pre x post e w',
        load_module script (sentinel_written "true" p w) = Ret tt w1 ->
        extensions w1 = (pre ++ x :: post)%list ->
        extensions_return p pre w1 w2 ->
        extension_raises p x w2 e w' ->
        Plugin.activate (p, w) = Raise e (Plugin.with_isActive true p, w'))
  /\ (forall e p' w',
        Plugin.activate (p, w) = Raise e (p', w') ->
        Plugin.isActive p' = true
        /\ (host_keeps (fun w => settings w !! key = Some "true") ->
            settings w' !! key = Some "true")).
Proof.
  intros Hp key script. split_and!.
  - apply lookup_insert_eq.
  - intros e w' Hl. unfold Plugin.activate, Krita.writeSetting.
    unfold bind at 1. simpl. rewrite Hp.
    unfold bind, set_self, in_world, modify; simpl.
    unfold sentinel_written in Hl. subst script. by rewrite Hl.
  - intros w1 w2 pre x post e w' Hload Hexts Hpre Hx.
    by apply (activate_extension_raises p w w1 w2 w' pre post x e).
  - intros e p' w' Hraise.
    revert Hraise. unfold Plugin.activate. unfold bind at 1. simpl. rewrite Hp.
    unfold bind at 1. simpl. unfold bind at 1. simpl. fold (sentinel_written "true" p w).
    intros Hraise. split.
    + match type of Hraise with ?m ?s = _ =>
        assert (Hk : preserves (both (fun o => Plugin.isActive o = true) (fun _ => True)) m)
      end.
      { preserves_auto; apply preserves_in_world, preserves_True. }
      specialize (Hk (Plugin.with_isActive true p, sentinel_written "true" p w)).
      rewrite Hraise in Hk. by apply Hk.
    + intros (Hload & Hsetup & Hcreate).
      match type of Hraise with ?m ?s = _ =>
        assert (Hk : preserves (both (fun _ => True)
                                     (fun w => settings w !! key = Some "true")) m)
      end.
      { preserves_auto; apply preserves_in_world;
          first [ apply Hload | apply preserves_get
                | apply preserves_modify; intros x Hx; exact Hx
                | eapply Hsetup; eassumption | eapply Hcreate; eassumption ]. }
      specialize (Hk (Plugin.with_isActive true p, sentinel_written "true" p w)).
      rewrite Hraise in Hk. apply Hk. split; [done|]. apply lookup_insert_eq.
Qed.

Lemma purge_one_lookup p (mods : gmap string PyModule) k k' :
  purge_one p mods k !! k'
  = if bool_decide (k' = k)
    then match mods !! k with
         | Some m => if in_plugin_dir p m then None else Some m
         | None => None
         end
    else mods !! k'.
Proof.
  unfold purge_one. case_bool_decide as Hk; subst.
  - destruct (mods !! k) as [m|] eqn:E; [|by rewrite E].
    destruct (in_plugin_dir p m); [by rewrite lookup_delete_eq|by rewrite E].
  - destruct (mods !! k) as [m|] eqn:E; [|done].
    destruct (in_plugin_dir p m); [by rewrite lookup_delete_ne|done].
Qed.

Lemma purge_lookup p l (mods : gmap string PyModule) k :
  purge p l mods !! k
  = if bool_decide (k ∈ l)
    then match mods !! k with
         | Some m => if in_plugin_dir p m then None else Some m
         | None => None
         end
    else mods !! k.
Proof.
  unfold purge. revert mods. induction l as [|x l IH]; intros mods; simpl; [done|].
  rewrite IH, !purge_one_lookup.
  destruct (decide (k = x)) as [->|Hne].
  - rewrite (bool_decide_eq_true_2 (x = x)) by done.
    rewrite (bool_decide_eq_true_2 (x ∈ x :: l)) by set_solver.
    destruct (mods !! x) as [m|]; [|by destruct (bool_decide (x ∈ l))].
    destruct (in_plugin_dir p m) eqn:E; [by destruct (bool_decide (x ∈ l))|].
    rewrite E. by destruct (bool_decide (x ∈ l)).
  - rewrite (bool_decide_eq_false_2 (k = x)) by done.
    destruct (decide (k ∈ l)) as [Hin|Hin].
    + rewrite (bool_decide_eq_true_2 (k ∈ l)) by done.
      rewrite (bool_decide_eq_true_2 (k ∈ x :: l)); [done|].
      apply elem_of_cons. by right.
    + rewrite (bool_decide_eq_false_2 (k ∈ l)) by done.
      rewrite (bool_decide_eq_false_2 (k ∈ x :: l)); [done|].
      by apply not_elem_of_cons.
Qed.

(** Going through all the names of the table leaves the filtered table. *)
Lemma purge_all p (mods : gmap string PyModule) :
  purge p (map_to_list mods).*1 mods = unload p mods.
Proof.
  apply map_eq. intros k. apply option_eq. intros m.
  rewrite purge_lookup. unfold unload. rewrite map_lookup_filter_Some. simpl.
  destruct (mods !! k) as [m0|] eqn:E.
  - rewrite bool_decide_eq_true_2.
    + destruct (in_plugin_dir p m0) eqn:Em; split.
      all: try (intros [[= <-] Hm]; congruence); try (intros [= <-]; done); try done.
    + apply list_elem_of_fmap. exists (k, m0). split; [done|].
      by apply elem_of_map_to_list.
  - destruct (bool_decide _); split; try done; by intros [? _].
Qed.

(** The loop of [deactivate], over names that are all in the table. *)
Lemma unload_modules_eq l : forall p w,
  NoDup l ->
  (forall k, k ∈ l -> is_Some (sys_modules w !! k)) ->
  Plugin.unload_modules l (p, w) = Ret tt (p, set_sys_modules (purge p l) w).
Proof.
  induction l as [|k l IH]; intros p w Hnd Hin.
  - by destruct w.
  - apply NoDup_cons in Hnd as [Hk Hnd].
    destruct (Hin k) as [m Hm]; [set_solver|].
    assert (Hstep : forall k', k' ∈ l -> is_Some (purge_one p (sys_modules w) k !! k')).
    { intros k' Hk'. rewrite purge_one_lookup.
      rewrite bool_decide_eq_false_2 by set_solver. apply Hin. set_solver. }
    specialize (IH p (set_sys_modules (fun mods => purge_one p mods k) w) Hnd Hstep).
    assert (Hone : purge_one p (sys_modules w) k
                   = if in_plugin_dir p m then delete k (sys_modules w)
                     else sys_modules w).
    { unfold purge_one. by rewrite Hm. }
    unfold Plugin.unload_modules in *. simpl for_each.
    unfold bind at 1. unfold bind at 1. unfold in_world at 1, get at 1. simpl.
    unfold bind at 1. simpl. rewrite Hm.
    destruct w as [ad st f mods acts exts mb dbg].
    unfold set_sys_modules, purge in *. simpl in *. rewrite Hone in *.
    unfold in_plugin_dir in *.
    destruct (mod_file m) as [file|]; [|exact IH].
    destruct (String.eqb (os_path.dirname file) (Plugin.path p)); exact IH.
Qed.

(** C5 (amended). Deactivating an active record clears its flag, writes
    the disabled sentinel, and removes from the module table the modules
    whose file is directly in the plugin's install directory, and only
    those: a module whose file is in a subdirectory stays loaded. *)
Theorem deactivate_unloads (p : Plugin.t) (w : World) :
  Plugin.isActive p = true ->
  Plugin.deactivate (p, w)
  = Ret tt (Plugin.with_isActive false p,
            set_sys_modules (unload p) (sentinel_written "false" p w))
  /\ (forall name m,
        unload p (sys_modules w) !! name = Some m
        <-> sys_modules w !! name = Some m
            /\ forall file, mod_file m = Some file ->
                            os_path.dirname file <> Plugin.path p).
Proof.
  intros Hp. split.
  - unfold Plugin.deactivate. unfold bind at 1. simpl. rewrite Hp. simpl.
    unfold bind at 1. simpl. unfold bind at 1. simpl. unfold bind at 1. simpl.
    rewrite unload_modules_eq.
    + simpl. do 2 f_equal. destruct w; unfold set_sys_modules, sentinel_written,
        set_settings; simpl. f_equal. exact (purge_all p _).
    + apply NoDup_fst_map_to_list.
    + intros k Hk. simpl. apply list_elem_of_fmap in Hk as [[k' m] [-> Hk]].
      apply elem_of_map_to_list in Hk. simpl. eauto.
  - intros name m. unfold unload. rewrite map_lookup_filter_Some. simpl.
    unfold in_plugin_dir. split; intros [Hm Hfile]; (split; [done|]).
    + intros file Hf. rewrite Hf in Hfile. by apply String.eqb_neq.
    + destruct (mod_file m) as [file|]; [|done].
      apply String.eqb_neq. by apply Hfile.
Qed.

(** *** Uninstallation *)

(** C9. An uninstallation whose confirmation resolves to "no" reports the
    cancellation by returning [False], does not raise, and changes no
    state: the record, the settings and the filesystem (and the module
    table) are as before; one line goes to the debug output. *)
Theorem uninstall_abort (confirmUninstall : PyVal Plugin.t) (p : Plugin.t) (w : World) :
  aborts confirmUninstall p w ->
  let w' :=
    set_debug
      (fun l => (l ++ ["user didnt confirm uninstallation Cancel uninstallation"])%list)
      w in
  Plugin.uninstall confirmUninstall (p, w) = Ret false (p, w')
  /\ settings w' = settings w /\ fs w' = fs w /\ sys_modules w' = sys_modules w.
Proof.
  intros Habort w'. subst w'.
  split; [|done].
  destruct Habort as [Hno | [Hask Hq]].
  - unfold Plugin.uninstall.
    destruct confirmUninstall as [| s | z | b | o]; try discriminate Hno; simpl in *.
    + unfold bind. destruct (Z.eqb_spec z Plugin.ACTION_VALIDATE_ASK) as [->|];
        [discriminate|].
      simpl. rewrite Hno. simpl. reflexivity.
    + destruct b; simpl in *; discriminate.
  - unfold Plugin.uninstall.
    assert (Hc : py_eq_int match confirmUninstall with
                           | PyNone => PyInt Plugin.ACTION_VALIDATE_ASK
                           | _ => confirmUninstall
                           end Plugin.ACTION_VALIDATE_ASK = true).
    { destruct Hask as [-> | Hask]; [reflexivity|].
      destruct confirmUninstall; try discriminate; done. }
    unfold bind at 1. rewrite Hc. unfold bind, self, in_world, get; simpl.
    unfold uninstall_prompt in Hq. rewrite Hq. simpl. reflexivity.
Qed.

(** *** Arguments of the wrong shape *)

(** C6 (amended). A value that is not a string makes [remove], [plugin]
    and [install] raise [EInvalidType], and so do the two loaders unless
    the value is [None], which they take as nothing to load. [append] does
    not raise: given a value that is neither a path nor a record it
    returns [False] and leaves the registry as it was. *)
Theorem wrong_argument_shape (v overwrite : PyVal Plugin.t)
    (registry : gmap string Plugin.t) (p : Plugin.t) (w : World) :
  is_str v = false ->
  (exists msg, Plugins.remove v (registry, w) = Raise (EInvalidType msg) (registry, w))
  /\ (exists msg, Plugins.plugin v (registry, w) = Raise (EInvalidType msg) (registry, w))
  /\ (exists msg, Plugin.install v overwrite w = Raise (EInvalidType msg) w)
  /\ (is_none v = false ->
        (exists msg, Plugin.loadFromDesktopFile v (p, w)
                     = Raise (EInvalidType msg) (Plugin.blank, w))
        /\ (exists msg, Plugin.loadFromDesktopContent v (p, w)
                        = Raise (EInvalidType msg) (Plugin.blank, w)))
  /\ (is_obj v = false -> Plugins.append v (registry, w) = Ret false (registry, w)).
Proof.
  intros Hv. destruct v; try discriminate Hv; repeat split; intros; try discriminate;
    try (eexists; reflexivity); reflexivity.
Qed.

(** *** Installation *)

Lemma on_object_load_world content w p w' :
  on_object Plugin.blank (Plugin.loadFromDesktopContent (PyStr content)) w
  = Ret (tt, p) w' ->
  w' = w
  /\ Plugin.loadFromDesktopContent (PyStr content) (Plugin.blank, w) = Ret tt (p, w).
Proof.
  unfold on_object. intros Hload.
  pose proof (loadFromDesktopContent_world (PyStr content) Plugin.blank w) as Hw.
  destruct (Plugin.loadFromDesktopContent _ _) as [[] [p1 w1]|e [p1 w1]];
    simpl in Hw; [|done].
  injection Hload as <- <-. by subst w1.
Qed.

(** C4. An archive that fails the structural checks of [install] (no
    manifest, several manifests, or no entry module for the plugin of its
    manifest) makes [install] return [None] and leaves the filesystem as it
    was: in particular no directory is made for the plugin. *)
Theorem install_rejected (zipFileName : string) (overwrite : PyVal Plugin.t)
    (archive : list ZipEntry) (w : World) :
  os.stat zipFileName w = Some (File (ZipArchive archive)) ->
  rejected archive w ->
  exists w', Plugin.install (PyStr zipFileName) overwrite w = Ret None w'
             /\ fs w' = fs w.
Proof.
  intros Hzip Hrej.
  unfold Plugin.install, os.path_isfile, zipfile.open_archive.
  unfold bind at 1. simpl. rewrite Hzip. simpl.
  unfold try_except, bind at 1. unfold bind at 1, get at 1. simpl. rewrite Hzip. simpl.
  unfold Plugin.install_from. fold (manifests archive).
  destruct Hrej as [Hm | d1 d2 r Hm | d bytes content p w' Hm Hread Hdec Hload Hinit].
  - rewrite Hm. eexists; split; [reflexivity|done].
  - rewrite Hm. eexists; split; [reflexivity|done].
  - rewrite Hm. unfold bind at 1. simpl.
    unfold bind at 1. rewrite Hread.
    unfold bind at 1. rewrite Hdec. simpl.
    unfold bind at 1. rewrite Hload.
    apply on_object_load_world in Hload as [-> _].
    simpl. destruct (Plugin.isValid p); simpl.
    + fold (entry_points (Plugin.id p) archive). rewrite Hinit.
      eexists; split; [reflexivity|done].
    + eexists; split; [reflexivity|done].
Qed.

(** C3 (amended). For an archive that passes the checks, the record
    [install] builds from the manifest is active exactly when the host's
    setting for the plugin already is the enabled sentinel, so it is
    inactive only when the setting is absent or different. Once the
    target directory is settled and the files are extracted, [install] runs
    the activation on that record before it returns: it returns the record
    as the activation leaves it, [None] when the activation raises an
    [Exception]. On a record built active the activation does nothing, and
    [install] returns it as it is. *)
Theorem install_then_activate (zipFileName : string) (overwrite : PyVal Plugin.t)
    (archive : list ZipEntry) (w wt wx : World) (d i : string) (plugin : Plugin.t) :
  os.stat zipFileName w = Some (File (ZipArchive archive)) ->
  validated archive w d i plugin ->
  Plugin.install_target (overwrite_policy overwrite) plugin w = Ret true wt ->
  Plugin.install_extract archive plugin d i wt = Ret tt wx ->
  Plugin.isActive plugin = setting_enabled w (Plugin.id plugin)
  /\ Plugin.install (PyStr zipFileName) overwrite w
     = match Plugin.activate (plugin, wx) with
       | Ret _ (plugin', w') => Ret (Some plugin') w'
       | Raise e (_, w') =>
           if is_Exception e
           then Ret None
                  (set_debug
                     (fun l => (l ++ [("Unable to read archive archive: " ++ zipFileName)%string;
                                      str_of_exc e])%list) w')
           else Raise e w'
       end
  /\ (Plugin.isActive plugin = true ->
      Plugin.install (PyStr zipFileName) overwrite w = Ret (Some plugin) wx).
Proof.
  intros Hzip (Hm & (bytes & content & Hread & Hdec & Hload) & Hvalid & rest & Hinit)
    Htarget Hextract.
  assert (Hinstall : Plugin.install (PyStr zipFileName) overwrite w
     = match Plugin.activate (plugin, wx) with
       | Ret _ (plugin', w') => Ret (Some plugin') w'
       | Raise e (_, w') =>
           if is_Exception e
           then Ret None
                  (set_debug
                     (fun l => (l ++ [("Unable to read archive archive: " ++ zipFileName)%string;
                                      str_of_exc e])%list) w')
           else Raise e w'
       end).
  { unfold Plugin.install, os.path_isfile, zipfile.open_archive.
    unfold bind at 1. simpl. rewrite Hzip. simpl.
    unfold try_except, bind at 1. unfold bind at 1, get at 1. simpl. rewrite Hzip. simpl.
    unfold Plugin.install_from. fold (manifests archive). rewrite Hm.
    unfold bind at 1. simpl.
    unfold bind at 1. rewrite Hread.
    unfold bind at 1. rewrite Hdec. simpl.
    unfold bind at 1. rewrite Hload. simpl. rewrite Hvalid. simpl.
    fold (entry_points (Plugin.id plugin) archive). rewrite Hinit.
    unfold bind at 1. fold (overwrite_policy overwrite). rewrite Htarget. simpl.
    unfold bind at 1. rewrite Hextract.
    unfold bind at 1, on_object.
    destruct (Plugin.activate (plugin, wx)) as [[] [p' w']|e [p' w']]; simpl; [done|].
    destruct (is_Exception e); [|done].
    destruct w'. unfold bind, qDebug, modify, ret, set_debug. simpl.
    by rewrite <- app_assoc. }
  split_and!.
  - apply on_object_load_world in Hload as [_ Hload].
    by eapply loadFromDesktopContent_active.
  - exact Hinstall.
  - intros Hactive. rewrite Hinstall. by rewrite activate_active.
Qed.

(** *** The registry *)

Lemma read_world fileName w : final (configparser.read fileName w) = w.
Proof.
  unfold configparser.read, bind, get, lift_sum. simpl.
  destruct (os.stat fileName w) as [[|[bytes|entries]]|]; simpl; try done.
  destruct (bytes_decode bytes) as [e|text]; simpl; [done|].
  by destruct (cp_read_string text).
Qed.

Lemma read_manifest w fileName cfg :
  manifest_at w fileName cfg -> configparser.read fileName w = Ret cfg w.
Proof.
  intros (bytes & text & Hstat & Hdec & Hread).
  unfold configparser.read, bind, get, lift_sum. simpl.
  rewrite Hstat, Hdec. simpl. by rewrite Hread.
Qed.

(** Building a record from a file leaves the world as it is. *)
Lemma new_world v w : final (Plugin.new v w) = w.
Proof.
  unfold Plugin.new, on_object, Plugin.loadFromDesktopFile, Plugin.defaultValues.
  unfold bind at 1. unfold bind at 1. simpl.
  destruct v as [|fileName| | |]; try done.
  unfold bind at 1, in_world at 1, os.path_isfile, bind at 1, get. simpl.
  destruct (os.stat fileName w) as [[|data]|]; simpl; try done.
  destruct (Str.re_search_end ".desktop" fileName); simpl; [|done].
  unfold bind, in_world, set_self, ret. simpl.
  pose proof (read_world fileName w) as Hr.
  destruct (configparser.read fileName w) as [cfg w1|e w1]; simpl in *; subst w1;
    [|done].
  pose proof (loadFromcfgParser_world cfg (Plugin.with_desktopFile fileName Plugin.blank) w)
    as Hw.
  by destruct (Plugin.loadFromcfgParser _ _) as [[] [p1 w1]|e [p1 w1]].
Qed.

Lemma new_manifest w fileName cfg :
  manifest_at w fileName cfg ->
  Str.re_search_end ".desktop" fileName = true ->
  Plugin.new (PyStr fileName) w
  = match Plugin.loadFromcfgParser cfg (Plugin.with_desktopFile fileName Plugin.blank, w) with
    | Ret _ (p, w') => Ret p w'
    | Raise e (_, w') => Raise e w'
    end.
Proof.
  intros Hman Hext. pose proof (read_manifest _ _ _ Hman) as Hread.
  destruct Hman as (bytes & text & Hstat & _).
  unfold Plugin.new, on_object, Plugin.loadFromDesktopFile, Plugin.defaultValues.
  unfold bind at 1. unfold bind at 1. simpl.
  unfold bind at 1, in_world at 1, os.path_isfile, bind at 1, get. simpl.
  rewrite Hstat. simpl. rewrite Hext.
  unfold bind, in_world, set_self, ret. simpl. rewrite Hread. simpl.
  by destruct (Plugin.loadFromcfgParser _ _) as [[] [p1 w1]|e [p1 w1]].
Qed.

(** A manifest with an id enters the registry under that id. *)
Lemma append_manifest registry w fileName cfg i n c m :
  manifest_at w fileName cfg ->
  Str.re_search_end ".desktop" fileName = true ->
  declares cfg i n c m ->
  root_exists w = true ->
  i <> "" ->
  Plugins.append (PyStr fileName) (registry, w)
  = Ret true (<[i := Plugin.with_desktopFile fileName (loaded w i n c m)]> registry, w).
Proof.
  intros Hman Hext Hdecl Hroot Hi.
  unfold Plugins.append, try_except. unfold bind at 1, bind at 1, in_world. simpl.
  rewrite (new_manifest _ _ _ Hman Hext).
  rewrite (loadFromcfgParser_ok cfg _ w i n c m Hdecl Hroot). simpl.
  destruct (String.eqb_spec i "") as [->|_]; [done|]. reflexivity.
Qed.

(** A manifest without id key is refused, whatever else it holds. *)
Lemma append_lacks_id registry w fileName cfg :
  manifest_at w fileName cfg ->
  Str.re_search_end ".desktop" fileName = true ->
  lacks_id_key cfg ->
  Plugins.append (PyStr fileName) (registry, w) = Ret false (registry, w).
Proof.
  intros Hman Hext Hlacks.
  unfold Plugins.append, try_except. unfold bind at 1, bind at 1, in_world. simpl.
  rewrite (new_manifest _ _ _ Hman Hext).
  pose proof (loadFromcfgParser_world cfg (Plugin.with_desktopFile fileName Plugin.blank) w)
    as Hw.
  destruct (Plugin.loadFromcfgParser _ _) as [[] [p1 w1]|e [p1 w1]] eqn:E;
    simpl in Hw; subst w1; simpl; [|done].
  apply loadFromcfgParser_ret in E as (_ & _ & _ & opts & Hs & Hid).
  rewrite (proxy_get_absent opts "X-KDE-Library" "" (Hlacks opts Hs)) in Hid.
  injection Hid as <-. reflexivity.
Qed.

(** C7. With a valid manifest [a.desktop] of id [foo] and a manifest
    [b.desktop] without id key in the installation root, in either order
    of the listing, [refresh] returns without raising, leaves the world as
    it is, and the registry holds one record: that of id [foo], valid. *)
Theorem refresh_skips_corrupt (registry : gmap string Plugin.t) (w : World)
    (names : list string) (cfga cfgb : ConfigParser) (n c m : string) :
  root_exists w = true ->
  os.scandir (install_root w) w = Ret names w ->
  names ≡ₚ ["a.desktop"; "b.desktop"] ->
  manifest_at w (os_path.join (install_root w) "a.desktop") cfga ->
  declares cfga "foo" n c m ->
  manifest_at w (os_path.join (install_root w) "b.desktop") cfgb ->
  lacks_id_key cfgb ->
  let record :=
    Plugin.with_desktopFile (os_path.join (install_root w) "a.desktop")
                            (loaded w "foo" n c m) in
  Plugins.refresh (registry, w) = Ret tt ({["foo" := record]}, w)
  /\ Plugin.id record = "foo" /\ Plugin.isValid record = true.
Proof.
  intros Hroot Hscan Hperm Ha Hdecl Hb Hlacks record.
  split; [|done].
  assert (Hea : Str.re_search_end ".desktop" "a.desktop" = true) by reflexivity.
  assert (Heb : Str.re_search_end ".desktop" "b.desktop" = true) by reflexivity.
  assert (Hfa := re_search_end_join ".desktop" (install_root w) "a.desktop" eq_refl Hea).
  assert (Hfb := re_search_end_join ".desktop" (install_root w) "b.desktop" eq_refl Heb).
  assert (Hstep_a : forall reg,
    (let* root := in_world Plugins_path in
     when Str.re_search_end ".desktop" "a.desktop"
     then (Plugins.append (PyStr (os_path.join root "a.desktop")) ;; ret tt)) (reg, w)
    = Ret tt (<["foo" := record]> reg, w)).
  { intros reg. unfold bind at 1, in_world. simpl. rewrite Plugins_path_eq, Hroot.
    unfold bind. by rewrite (append_manifest reg w _ cfga "foo" n c m). }
  assert (Hstep_b : forall reg,
    (let* root := in_world Plugins_path in
     when Str.re_search_end ".desktop" "b.desktop"
     then (Plugins.append (PyStr (os_path.join root "b.desktop")) ;; ret tt)) (reg, w)
    = Ret tt (reg, w)).
  { intros reg. unfold bind at 1, in_world. simpl. rewrite Plugins_path_eq, Hroot.
    unfold bind. by rewrite (append_lacks_id reg w _ cfgb). }
  unfold Plugins.refresh, Plugins.buildList.
  unfold bind at 1. simpl. unfold bind at 1, in_world at 1. simpl.
  rewrite Plugins_path_eq, Hroot. unfold bind at 1, in_world at 1. simpl.
  rewrite Hscan.
  apply Permutation_sym, Permutation_length_2_inv in Hperm as [->| ->]; simpl for_each.
  - unfold bind at 1. rewrite Hstep_a. unfold bind at 1. rewrite Hstep_b. reflexivity.
  - unfold bind at 1. rewrite Hstep_b. unfold bind at 1. rewrite Hstep_a. reflexivity.
Qed.

End Properties.

(** ** The properties on the sample data *)

(** C1, witness: the theorem at the manifest without id key. *)
Lemma manifest_required_fields_witness :
  sample.manifest_without_id <> ""
  /\ let outcome :=
       @Plugin.loadFromDesktopContent (reference.host false)
         (PyStr sample.manifest_without_id) (Plugin.blank, sample.world) in
     Plugin.isValid (fst (final outcome)) = true <-> exists s, outcome = Ret tt s.
Proof.
  assert (Hne : sample.manifest_without_id <> "") by discriminate.
  split; [exact Hne|].
  destruct (@manifest_required_fields (reference.host false) sample.manifest_without_id
              Plugin.blank sample.world Hne) as (_ & _ & Hiff).
  exact Hiff.
Defined.

(** C1, counterexample: a manifest whose [Desktop Entry] section has no
    [X-KDE-Library] key loads without error into a record marked valid,
    with the empty id. *)
Lemma manifest_without_id_is_valid :
  exists cfg opts p,
    @cp_read_string (reference.host false) sample.manifest_without_id = inr cfg
    /\ cp_sections cfg !! "Desktop Entry" = Some opts
    /\ opts !! "x-kde-library" = None
    /\ @Plugin.loadFromDesktopContent (reference.host false)
         (PyStr sample.manifest_without_id) (Plugin.blank, sample.world)
       = Ret tt (p, sample.world)
    /\ Plugin.isValid p = true
    /\ Plugin.id p = "".
Proof.
  do 3 eexists. split_and!.
  - vm_compute. reflexivity.
  - vm_compute. reflexivity.
  - vm_compute. reflexivity.
  - vm_compute. reflexivity.
  - reflexivity.
  - reflexivity.
Qed.

(** C8, witness: the plugin [baz], active and inactive. *)
Lemma activate_deactivate_noop_witness :
  (Plugin.isActive (sample.plugin_baz true) = true
   /\ @Plugin.activate (reference.host false) (sample.plugin_baz true, sample.world)
      = Ret tt (sample.plugin_baz true, sample.world))
  /\ (Plugin.isActive (sample.plugin_baz false) = false
      /\ Plugin.deactivate (sample.plugin_baz false, sample.world)
         = Ret tt (sample.plugin_baz false, sample.world)).
Proof.
  split; (split; [reflexivity|]).
  - apply (@activate_deactivate_noop (reference.host false)). reflexivity.
  - apply (@activate_deactivate_noop (reference.host false)). reflexivity.
Defined.

(** C10, witness: the entry module of [baz] is not on disk, the loader
    raises, and the record and the settings keep the activation; and the
    entry module is on disk, the [setup] hook of the extension of [baz]
    raises, and the record, the settings and the module table keep the
    activation. *)
Lemma activate_not_atomic_witness :
  Plugin.isActive (sample.plugin_baz false) = false
  /\ @Plugin.activate (reference.host false) (sample.plugin_baz false, sample.world)
     = Raise (FileNotFoundError "/app/pykrita/baz/__init__.py")
             (sample.plugin_baz true, sample.with_setting "enable_baz" "true" sample.world)
  /\ @Plugin.activate reference.host_failing_setup
       (sample.plugin_baz false, sample.world_with_extension)
     = Raise (HostError true "setup failed")
             (sample.plugin_baz true,
              sample.with_module "__main__" "/app/pykrita/baz/__init__.py"
                (sample.with_setting "enable_baz" "true" sample.world_with_extension)).
Proof.
  destruct (@activate_not_atomic (reference.host false) (sample.plugin_baz false)
              sample.world eq_refl) as (_ & Hload & _).
  destruct (@activate_not_atomic reference.host_failing_setup (sample.plugin_baz false)
              sample.world_with_extension eq_refl) as (_ & _ & Hhook & _).
  split_and!.
  - reflexivity.
  - apply Hload. by_computation.
  - apply (Hhook (sample.with_module "__main__" "/app/pykrita/baz/__init__.py"
                    (sample.with_setting "enable_baz" "true" sample.world_with_extension))
                 (sample.with_module "__main__" "/app/pykrita/baz/__init__.py"
                    (sample.with_setting "enable_baz" "true" sample.world_with_extension))
                 [sample.other_extension] sample.baz_extension []).
    + by_computation.
    + reflexivity.
    + eapply return_cons; [|apply return_nil].
      apply (returns_elsewhere _ _ _ _ "/app/pykrita/pluginmanager/pluginmanager.py");
        [reflexivity| |reflexivity].
      replace (os_path.dirname _) with "/app/pykrita/pluginmanager"
        by (symmetry; by_computation).
      discriminate.
    + apply (raises_setup _ _ _ _ _ "/app/pykrita/baz/baz.py"
               (raise (HostError true "setup failed"))).
      * reflexivity.
      * by_computation.
      * reflexivity.
      * reflexivity.
Defined.

(** C5, witness: the plugin [baz] with three modules loaded. *)
Lemma deactivate_unloads_witness :
  Plugin.isActive (sample.plugin_baz true) = true
  /\ Plugin.deactivate (sample.plugin_baz true, sample.world_loaded)
     = Ret tt (sample.plugin_baz false,
               set_sys_modules (unload (sample.plugin_baz true))
                 (sentinel_written "false" (sample.plugin_baz true) sample.world_loaded)).
Proof.
  split; [reflexivity|].
  apply deactivate_unloads. reflexivity.
Defined.

(** C5, counterexample: after the deactivation of [baz] the module of the
    subdirectory [baz/sub], whose file is under the install directory of
    the plugin, is still in the module table; the entry module is not. *)
Lemma deactivate_keeps_subdirectory_module :
  exists w',
    Plugin.deactivate (sample.plugin_baz true, sample.world_loaded)
    = Ret tt (sample.plugin_baz false, w')
    /\ Str.startswith (Plugin.path (sample.plugin_baz true) ++ "/")
                      "/app/pykrita/baz/sub/tools.py" = true
    /\ sys_modules w' !! "baz.sub.tools"
       = Some {| mod_file := Some "/app/pykrita/baz/sub/tools.py" |}
    /\ sys_modules w' !! "baz" = None.
Proof.
  eexists. split_and!.
  - vm_compute. reflexivity.
  - reflexivity.
  - vm_compute. reflexivity.
  - vm_compute. reflexivity.
Qed.

(** C9, witness: an uninstallation refused by its argument. *)
Lemma uninstall_abort_witness :
  aborts (H := reference.host true) (PyInt Plugin.ACTION_VALIDATE_NO)
    (sample.plugin_baz true) sample.world
  /\ exists w',
       @Plugin.uninstall (reference.host true) (PyInt Plugin.ACTION_VALIDATE_NO)
         (sample.plugin_baz true, sample.world)
       = Ret false (sample.plugin_baz true, w')
       /\ settings w' = settings sample.world /\ fs w' = fs sample.world.
Proof.
  assert (Habort : aborts (H := reference.host true) (PyInt Plugin.ACTION_VALIDATE_NO)
                     (sample.plugin_baz true) sample.world) by (left; reflexivity).
  split; [exact Habort|].
  eexists.
  destruct (@uninstall_abort (reference.host true) _ _ _ Habort) as (Hun & Hs & Hf & _).
  split_and!; [exact Hun|exact Hs|exact Hf].
Defined.

(** C6, witness: an integer given where a string is expected. *)
Lemma wrong_argument_shape_witness :
  is_str (PyInt 5 : PyVal Plugin.t) = false
  /\ (exists msg, Plugins.remove (PyInt 5) (∅, sample.world)
                  = Raise (EInvalidType msg) (∅, sample.world)).
Proof.
  split; [reflexivity|].
  apply (@wrong_argument_shape (reference.host false) (PyInt 5) PyNone ∅ Plugin.blank
           sample.world eq_refl).
Defined.

(** C6, counterexample: [append] given an integer, which is neither a
    path nor a record, raises nothing and returns [False]. *)
Lemma append_integer_returns_false :
  @Plugins.append (reference.host false) (PyInt 5) (∅, sample.world)
  = Ret false (∅, sample.world).
Proof. reflexivity. Qed.

(** C7, witness: the sample installation root. *)
Lemma refresh_skips_corrupt_witness :
  exists record,
    @Plugins.refresh (reference.host false) (∅, sample.world)
    = Ret tt ({["foo" := record]}, sample.world)
    /\ Plugin.id record = "foo" /\ Plugin.isValid record = true.
Proof.
  eexists.
  eapply (@refresh_skips_corrupt (reference.host false) ∅ sample.world
            ["a.desktop"; "b.desktop"]).
  - reflexivity.
  - vm_compute. reflexivity.
  - reflexivity.
  - do 2 eexists. split_and!; [vm_compute; reflexivity|reflexivity|vm_compute; reflexivity].
  - eexists. split_and!; vm_compute; reflexivity.
  - do 2 eexists. split_and!; [vm_compute; reflexivity|reflexivity|vm_compute; reflexivity].
  - intros opts. vm_compute. intros [= <-]. reflexivity.
Defined.

(** C4, witness: an archive whose manifest names a plugin without entry
    module. *)
Lemma install_rejected_witness :
  rejected (H := reference.host false) sample.archive_no_entry_point
    (sample.world_with sample.archive_no_entry_point)
  /\ exists w',
       @Plugin.install (reference.host false) (PyStr "/tmp/plugin.zip") PyNone
         (sample.world_with sample.archive_no_entry_point) = Ret None w'
       /\ fs w' = fs (sample.world_with sample.archive_no_entry_point).
Proof.
  assert (Hrej : rejected (H := reference.host false) sample.archive_no_entry_point
                   (sample.world_with sample.archive_no_entry_point)).
  { eapply (@rejected_no_entry_point (reference.host false)) with (d := "baz.desktop").
    - reflexivity.
    - vm_compute. reflexivity.
    - vm_compute. reflexivity.
    - vm_compute. reflexivity.
    - reflexivity. }
  split; [exact Hrej|].
  apply (@install_rejected (reference.host false) "/tmp/plugin.zip" PyNone
           sample.archive_no_entry_point); [reflexivity|exact Hrej].
Defined.

(** C3, witness: the archive of [baz] installed in the sample world, where
    the plugin is not enabled: the record is built inactive and [install]
    returns what the activation makes of it. *)
Lemma install_then_activate_witness :
  exists wx,
    Plugin.isActive (sample.plugin_baz false)
    = setting_enabled (sample.world_with sample.archive_baz)
        (Plugin.id (sample.plugin_baz false))
    /\ @Plugin.install (reference.host false) (PyStr "/tmp/plugin.zip") PyNone
         (sample.world_with sample.archive_baz)
       = match @Plugin.activate (reference.host false) (sample.plugin_baz false, wx) with
         | Ret _ (plugin', w') => Ret (Some plugin') w'
         | Raise e (_, w') =>
             if is_Exception e
             then Ret None
                    (set_debug
                       (fun l => (l ++ [("Unable to read archive archive: "
                                         ++ "/tmp/plugin.zip")%string;
                                        str_of_exc e])%list) w')
             else Raise e w'
         end
    /\ (Plugin.isActive (sample.plugin_baz false) = true ->
        @Plugin.install (reference.host false) (PyStr "/tmp/plugin.zip") PyNone
          (sample.world_with sample.archive_baz)
        = Ret (Some (sample.plugin_baz false)) wx).
Proof.
  eexists.
  eapply (@install_then_activate (reference.host false) "/tmp/plugin.zip" PyNone
            sample.archive_baz (sample.world_with sample.archive_baz) _ _
            "baz.desktop" "baz/__init__.py" (sample.plugin_baz false)).
  - reflexivity.
  - split_and!.
    + reflexivity.
    + do 2 eexists. split_and!; vm_compute; reflexivity.
    + reflexivity.
    + eexists. reflexivity.
  - vm_compute. reflexivity.
  - vm_compute. reflexivity.
Defined.

(** C3, counterexample: the plugin [baz] being already enabled in the
    host's settings, the record [install] builds from the archive is
    active, the activation [install] runs on it does nothing (the entry
    module is on disk and is not loaded), and [install] returns it. *)
Lemma install_builds_active_record :
  validated (H := reference.host false) sample.archive_baz sample.world_enabled
    "baz.desktop" "baz/__init__.py" (sample.plugin_baz true)
  /\ Plugin.isActive (sample.plugin_baz true) = true
  /\ exists w',
       @Plugin.install (reference.host false) (PyStr "/tmp/plugin.zip") PyNone
         sample.world_enabled = Ret (Some (sample.plugin_baz true)) w'
       /\ os.stat "/app/pykrita/baz/__init__.py" w' = Some (File (Text "pass"))
       /\ sys_modules w' = ∅.
Proof.
  split_and!.
  - split_and!.
    + reflexivity.
    + do 2 eexists. split_and!; vm_compute; reflexivity.
    + reflexivity.
    + eexists. reflexivity.
  - reflexivity.
  - eexists. split_and!; vm_compute; reflexivity.
Qed.

(** C2, on the code: [install] does not test that a member lies under
    the directory of the entry module, only that its name is longer than
    that prefix. The member [README.txt] of the archive of [baz], beside
    the directory [baz/], is extracted into the install directory of the
    plugin, under its name cut by the four characters of [baz/]. *)
Theorem install_extracts_member_outside_prefix :
  Str.startswith "baz/" "README.txt" = false
  /\ Plugin.route "baz" (Plugin.prefix_length "baz.desktop")
       (Plugin.prefix_length "baz/__init__.py") "README.txt"
     = Some (Plugin.PluginDir, "ME.txt")
  /\ exists p w',
       @Plugin.install (reference.host false) (PyStr "/tmp/plugin.zip") PyNone
         (sample.world_with sample.archive_baz) = Ret (Some p) w'
       /\ Plugin.path p = "/app/pykrita/baz"
       /\ fs w' !! "/app/pykrita/baz/ME.txt" = Some (File (Text "hello"))
       /\ fs w' !! "/app/pykrita/baz/helper.py" = Some (File (Text "pass")).
Proof.
  split_and!; [reflexivity|reflexivity|].
  do 2 eexists. split_and!; vm_compute; reflexivity.
Qed.

(** ** Further properties *)

Section Loading.
Context `{HostAdapter}.

#[local] Arguments configparser.proxy_get : simpl never.
#[local] Arguments configparser.getitem : simpl never.
#[local] Arguments Plugins_path : simpl never.
#[local] Arguments os_path.join : simpl never.
#[local] Arguments Str.re_search_end : simpl never.
#[local] Arguments os.stat : simpl never.

(** X1. A manifest text that declares the id [i], the name [n], the
    comment [c] and the manual [m] loads into the record of those values:
    the path is the installation root joined with the id, the manual is
    empty when none is declared and joined to the path otherwise, the
    manifest file is the one the plugin would have in the root, the flag
    mirrors the host's setting; the world is not changed. *)
Theorem loadFromDesktopContent_declared (content : string) (cfg : ConfigParser)
    (i n c m : string) (p : Plugin.t) (w : World) :
  content <> "" ->
  cp_read_string content = inr cfg ->
  declares cfg i n c m ->
  root_exists w = true ->
  Plugin.loadFromDesktopContent (PyStr content) (p, w)
  = Ret tt ({| Plugin.id := i; Plugin.name := n; Plugin.description := c;
               Plugin.path := os_path.join (install_root w) i;
               Plugin.manual :=
                 if String.eqb m "" then ""
                 else os_path.join (os_path.join (install_root w) i) m;
               Plugin.desktopFile := os_path.join (install_root w) (i ++ ".desktop");
               Plugin.isActive := setting_enabled w i;
               Plugin.isValid := true |}, w).
Proof.
  intros Hne Hread Hdecl Hroot.
  rewrite (loadFromDesktopContent_eq content cfg p w Hne Hread).
  rewrite (loadFromcfgParser_ok cfg Plugin.blank w i n c m Hdecl Hroot).
  by rewrite Plugins_path_eq, Hroot.
Qed.

(** X2. A manifest file with the [.desktop] extension that declares [i],
    [n], [c], [m] makes [Plugin(fileName)] return the record of those
    values, with that file as its manifest file. *)
Theorem new_declared (fileName : string) (cfg : ConfigParser)
    (i n c m : string) (w : World) :
  manifest_at w fileName cfg ->
  Str.re_search_end ".desktop" fileName = true ->
  declares cfg i n c m ->
  root_exists w = true ->
  Plugin.new (PyStr fileName) w
  = Ret {| Plugin.id := i; Plugin.name := n; Plugin.description := c;
           Plugin.path := os_path.join (install_root w) i;
           Plugin.manual :=
             if String.eqb m "" then ""
             else os_path.join (os_path.join (install_root w) i) m;
           Plugin.desktopFile := fileName;
           Plugin.isActive := setting_enabled w i;
           Plugin.isValid := true |} w.
Proof.
  intros Hman Hext Hdecl Hroot.
  rewrite (new_manifest w fileName cfg Hman Hext).
  by rewrite (loadFromcfgParser_ok cfg _ w i n c m Hdecl Hroot).
Qed.

(** X3. [loadFromDesktopFile] on a path that is no file, or on a file
    without the [.desktop] extension, raises [EInvalidValue]; the record
    has been reset (not valid, not active) and the world is as before. *)
Theorem loadFromDesktopFile_refused (fileName : string) (p : Plugin.t) (w : World) :
  (forall d, os.stat fileName w = Some (File d) ->
             Str.re_search_end ".desktop" fileName = false) ->
  exists msg,
    Plugin.loadFromDesktopFile (PyStr fileName) (p, w)
    = Raise (EInvalidValue msg) (Plugin.blank, w).
Proof.
  intros Hfile.
  unfold Plugin.loadFromDesktopFile, Plugin.defaultValues.
  unfold bind at 1. simpl.
  unfold bind at 1, in_world at 1, os.path_isfile, bind at 1, get. simpl.
  destruct (os.stat fileName w) as [[|d]|] eqn:E; simpl.
  - eexists. reflexivity.
  - rewrite (Hfile d eq_refl). eexists. reflexivity.
  - eexists. reflexivity.
Qed.

Lemma loadFromDesktopFile_world v p w :
  snd (final (Plugin.loadFromDesktopFile v (p, w))) = w.
Proof.
  unfold Plugin.loadFromDesktopFile, Plugin.defaultValues.
  unfold bind at 1. simpl.
  destruct v as [|fileName| | |]; try done.
  unfold bind at 1, in_world at 1, os.path_isfile, bind at 1, get. simpl.
  destruct (os.stat fileName w) as [[|data]|]; simpl; try done.
  destruct (Str.re_search_end ".desktop" fileName); simpl; [|done].
  unfold bind, in_world, set_self, ret. simpl.
  pose proof (read_world fileName w) as Hr.
  destruct (configparser.read fileName w) as [cfg w1|e w1]; simpl in *; subst w1;
    [|done].
  pose proof (loadFromcfgParser_world cfg (Plugin.with_desktopFile fileName Plugin.blank) w)
    as Hw.
  by destruct (Plugin.loadFromcfgParser _ _) as [[] [p1 w1]|e [p1 w1]].
Qed.

(** X4. The two loaders only read the world, and what they make of the
    record does not depend on what the record held: every load starts from
    the default values, so a load that finds nothing to load, or fails,
    has erased the previous record. *)
Theorem load_resets (v : PyVal Plugin.t) (p : Plugin.t) (w : World) :
  (snd (final (Plugin.loadFromDesktopFile v (p, w))) = w
   /\ Plugin.loadFromDesktopFile v (p, w) = Plugin.loadFromDesktopFile v (Plugin.blank, w))
  /\ (snd (final (Plugin.loadFromDesktopContent v (p, w))) = w
      /\ Plugin.loadFromDesktopContent v (p, w)
         = Plugin.loadFromDesktopContent v (Plugin.blank, w))
  /\ (v = PyNone \/ v = PyStr "" ->
      Plugin.loadFromDesktopContent v (p, w) = Ret tt (Plugin.blank, w)).
Proof.
  split_and!.
  - apply loadFromDesktopFile_world.
  - reflexivity.
  - apply loadFromDesktopContent_world.
  - reflexivity.
  - by intros [-> | ->].
Qed.

End Loading.

Section Registry.
Context `{HostAdapter}.

#[local] Arguments configparser.proxy_get : simpl never.
#[local] Arguments configparser.getitem : simpl never.
#[local] Arguments Plugins_path : simpl never.
#[local] Arguments os_path.join : simpl never.
#[local] Arguments Str.re_search_end : simpl never.
#[local] Arguments os.stat : simpl never.
#[local] Arguments Plugin.new : simpl never.

Lemma preserves_in_world_self {O W A} (Io : O -> Prop) (m : M W A) :
  preserves (fun s : O * W => Io (fst s)) (in_world m).
Proof. intros [o w] Ho. unfold in_world. simpl in *. by destruct (m w). Qed.

(** Where a load that returns puts the record. *)
Lemma loadFromcfgParser_ret_paths cfg p w p' w' :
  Plugin.loadFromcfgParser cfg (p, w) = Ret tt (p', w') ->
  Plugin.path p' = os_path.join (install_root w) (Plugin.id p')
  /\ Plugin.desktopFile p' = Plugin.desktopFile p.
Proof.
  unfold Plugin.loadFromcfgParser, Krita.readSetting, bind, ret, raise, get, self,
    set_self, in_world, lift_sum.
  destruct (configparser.getitem cfg "Desktop Entry") as [e|opts]; [done|]; simpl.
  destruct (configparser.proxy_get opts "X-KDE-Library" "") as [e|i]; [done|]; simpl.
  destruct (configparser.proxy_get opts "Name" "") as [e|n]; [done|]; simpl.
  destruct (configparser.proxy_get opts "Comment" "") as [e|c]; [done|]; simpl.
  rewrite Plugins_path_eq. destruct (root_exists w); [|done]; simpl.
  destruct (configparser.proxy_get opts "X-Krita-Manual" "") as [e|m]; [done|]; simpl.
  intros Heq.
  destruct (negb _), (String.eqb _ "true"); injection Heq as <- _; split; reflexivity.
Qed.

(** What [Plugin(fileName)] returns, when it returns. *)
Lemma new_ret fileName w p w' :
  Plugin.new (PyStr fileName) w = Ret p w' ->
  w' = w
  /\ Str.re_search_end ".desktop" fileName = true
  /\ Plugin.desktopFile p = fileName
  /\ Plugin.isValid p = true
  /\ Plugin.isActive p = setting_enabled w (Plugin.id p)
  /\ Plugin.path p = os_path.join (install_root w) (Plugin.id p).
Proof.
  intros Hnew. pose proof (new_world (PyStr fileName) w) as Hw.
  rewrite Hnew in Hw. simpl in Hw. subst w'. split; [done|].
  revert Hnew.
  unfold Plugin.new, on_object, Plugin.loadFromDesktopFile, Plugin.defaultValues.
  unfold bind at 1. unfold bind at 1. simpl.
  unfold bind at 1, in_world at 1, os.path_isfile, bind at 1, get. simpl.
  destruct (os.stat fileName w) as [[|data]|]; simpl; try done.
  destruct (Str.re_search_end ".desktop" fileName); simpl; [|done].
  unfold bind, in_world, set_self, ret. simpl.
  pose proof (read_world fileName w) as Hr.
  destruct (configparser.read fileName w) as [cfg w1|e w1]; simpl in *; subst w1;
    [|done].
  destruct (Plugin.loadFromcfgParser _ _) as [[] [p1 w1]|e [p1 w1]] eqn:E; [|done].
  intros [= <- _].
  pose proof (loadFromcfgParser_ret_paths _ _ _ _ _ E) as [Hpath Hfile].
  apply loadFromcfgParser_ret in E as (_ & Hv & Ha & _).
  split_and!; done.
Qed.

(** The two outcomes of [append] on a path: refused, or the record of the
    file entered under its id. *)
Lemma append_str fileName registry w :
  Plugins.append (PyStr fileName) (registry, w) = Ret false (registry, w)
  \/ exists p,
       Plugin.new (PyStr fileName) w = Ret p w
       /\ Plugin.id p <> ""
       /\ Plugins.append (PyStr fileName) (registry, w)
          = Ret true (<[Plugin.id p := p]> registry, w).
Proof.
  unfold Plugins.append, try_except, bind, in_world, ret, set_self. simpl.
  pose proof (new_world (PyStr fileName) w) as Hw.
  destruct (Plugin.new (PyStr fileName) w) as [p w1|e w1]; simpl in Hw; subst w1;
    simpl; [|by left].
  destruct (String.eqb_spec (Plugin.id p) "") as [Hid|Hid]; simpl; [by left|].
  right. exists p. done.
Qed.

Lemma append_world v registry w :
  snd (final (Plugins.append v (registry, w))) = w.
Proof.
  destruct v as [|fileName| | |p]; try done.
  - destruct (append_str fileName registry w) as [->|(p & _ & _ & ->)]; done.
  - unfold Plugins.append, bind. simpl. by destruct (negb _).
Qed.

Lemma keyed_insert registry p :
  keyed registry -> Plugin.id p <> "" -> keyed (<[Plugin.id p := p]> registry).
Proof.
  intros Hk Hid k q. rewrite lookup_insert. case_decide as Heq.
  - intros [= <-]. by subst k.
  - apply Hk.
Qed.

(** X6. The keys of the registry are the ids of its records, and the
    empty id is never a key: [append] with any argument, [remove] with any
    argument and [refresh] keep it so, whether they return or raise. *)
Theorem registry_keyed (v : PyVal Plugin.t) (registry : gmap string Plugin.t) (w : World) :
  keyed registry ->
  keyed (fst (final (Plugins.append v (registry, w))))
  /\ keyed (fst (final (Plugins.remove v (registry, w))))
  /\ keyed (fst (final (Plugins.refresh (registry, w)))).
Proof.
  intros Hk.
  assert (Happend : forall v0, preserves (fun s => keyed (fst s)) (Plugins.append v0)).
  { intros v0 [reg w0] Hreg. simpl in Hreg.
    destruct v0 as [|fileName| | |p]; try done.
    - destruct (append_str fileName reg w0) as [->|(p & _ & Hid & ->)]; [done|].
      by apply keyed_insert.
    - unfold Plugins.append, bind. simpl.
      destruct (String.eqb_spec (Plugin.id p) ""); simpl; [done|].
      by apply keyed_insert. }
  split_and!.
  - by apply (Happend v (registry, w)).
  - destruct v as [|k| | |]; try done. simpl.
    intros k' q. rewrite lookup_delete. case_decide; [done|]. apply Hk.
  - unfold Plugins.refresh, Plugins.buildList. unfold bind at 1. simpl.
    match goal with |- keyed (fst (final (?m ?st0))) =>
      assert (Hm : preserves (fun st => keyed (fst st)) m) end.
    { repeat first [ apply Happend | apply preserves_in_world_self | preserves_step ]. }
    apply Hm. simpl. intros k p. by rewrite lookup_empty.
Qed.

End Registry.

Section Refresh.
Context `{HostAdapter}.

#[local] Arguments configparser.proxy_get : simpl never.
#[local] Arguments configparser.getitem : simpl never.
#[local] Arguments Plugins_path : simpl never.
#[local] Arguments os_path.join : simpl never.
#[local] Arguments Str.re_search_end : simpl never.
#[local] Arguments os.stat : simpl never.
#[local] Arguments Plugin.new : simpl never.
#[local] Arguments Plugins.append : simpl never.

(** The base name of a path has no slash, and the names [os.scandir]
    returns are base names. *)
Lemma no_slash_basename (s : string) : no_slash (os_path.basename s) = true.
Proof.
  unfold os_path.basename. induction s as [|c s IH]; [done|].
  change (Str.rsplit_slash (String c s))
    with (match Str.rsplit_slash s with
          | (Some h, t) => (Some (String c h), t)
          | (None, t) => if Str.is_slash c then (Some "/", t) else (None, String c t)
          end).
  destruct (Str.rsplit_slash s) as [[h|] t]; [exact IH|].
  destruct (Str.is_slash c) eqn:Hc; [exact IH|].
  cbn [snd no_slash] in *. by rewrite Hc, IH.
Qed.

Lemma scandir_names (dir : string) (w w1 : World) (files : list string) :
  os.scandir dir w = Ret files w1 ->
  forall fileName, fileName ∈ files -> no_slash fileName = true.
Proof.
  unfold os.scandir, bind, get, ret, raise. simpl.
  destruct (os.stat dir w) as [[|d]|]; try done.
  intros [= <- _] fileName Hin.
  apply list_elem_of_omap in Hin as (kv & _ & Hkv).
  destruct (bool_decide _); [|done].
  injection Hkv as <-. apply no_slash_basename.
Qed.

Lemma listed_insert w registry p fileName :
  listed w registry ->
  Plugin.new (PyStr (os_path.join (install_root w) fileName)) w = Ret p w ->
  no_slash fileName = true ->
  Str.re_search_end ".desktop" fileName = true ->
  Plugin.id p <> "" ->
  listed w (<[Plugin.id p := p]> registry).
Proof.
  intros Hl Hnew Hplain Hext Hid k q. rewrite lookup_insert. case_decide as Heq.
  - intros [= <-]. subst k.
    apply new_ret in Hnew as (_ & _ & Hfile & Hv & Ha & Hp).
    split_and!; try done. by exists fileName.
  - apply Hl.
Qed.

(** One turn of the loop of [__buildList]. *)
Lemma buildList_step w fileName :
  no_slash fileName = true ->
  preserves (fun st => listed w (fst st) /\ snd st = w)
    (let* root := in_world Plugins_path in
     let fullPathName := os_path.join root fileName in
     when Str.re_search_end ".desktop" fileName
     then (Plugins.append (PyStr fullPathName) ;; ret tt)).
Proof.
  intros Hplain [reg w0] [Hl Hw]. simpl in Hl, Hw. subst w0.
  unfold bind, in_world, ret. simpl. rewrite !Plugins_path_eq.
  destruct (root_exists w); [|by split]. simpl.
  destruct (Str.re_search_end ".desktop" fileName) eqn:Hext; [|by split].
  destruct (append_str (os_path.join (install_root w) fileName) reg w)
    as [->|(p & Hnew & Hid & ->)]; [by split|].
  simpl. split; [|done]. by eapply listed_insert.
Qed.

(** What [refresh] leaves behind. *)
Lemma refresh_builds (registry : gmap string Plugin.t) (w : World) :
  listed w (fst (final (Plugins.refresh (registry, w))))
  /\ snd (final (Plugins.refresh (registry, w))) = w.
Proof.
  change ((fun st => listed w (fst st) /\ snd st = w)
            (final (Plugins.refresh (registry, w)))).
  set (I := fun st : gmap string Plugin.t * World => listed w (fst st) /\ snd st = w).
  assert (Hempty : I (∅, w)) by (by split).
  unfold Plugins.refresh, Plugins.buildList. unfold bind at 1. simpl.
  unfold bind at 1, in_world at 1. simpl. rewrite Plugins_path_eq.
  destruct (root_exists w); [|exact Hempty]. simpl.
  unfold bind at 1, in_world at 1. simpl.
  assert (Hscan : final (os.scandir (install_root w) w) = w).
  { unfold os.scandir, bind, get. simpl. by destruct (os.stat _ w) as [[|d]|]. }
  destruct (os.scandir (install_root w) w) as [files w1|e w1] eqn:Hfiles;
    simpl in Hscan; subst w1; [|exact Hempty].
  apply (preserves_for_each_in I files); [|exact Hempty].
  intros fileName Hin. apply buildList_step.
  by apply (scandir_names _ _ _ _ Hfiles).
Qed.

(** X9. Whatever the registry held, and whether it returns or raises,
    [refresh] leaves the world as it is and a registry whose records are
    keyed by their id, which is not empty, are valid, carry the flag of the
    host's setting, have their path below the installation root, and come
    each from a [.desktop] file of that directory itself: the manifest
    file of the record is the root joined with a name without slash. *)
Theorem refresh_listed (registry : gmap string Plugin.t) (w : World) :
  listed w (fst (final (Plugins.refresh (registry, w))))
  /\ snd (final (Plugins.refresh (registry, w))) = w.
Proof. exact (refresh_builds registry w). Qed.

(** X8. [refresh] rebuilds the registry from the directory alone: what it
    returns does not depend on what the registry held before, and it does
    not change the world; so a second [refresh] returns the same registry. *)
Theorem refresh_idempotent (registry registry' : gmap string Plugin.t) (w w' : World) :
  Plugins.refresh (registry, w) = Ret tt (registry', w') ->
  w' = w
  /\ (forall other, Plugins.refresh (other, w) = Ret tt (registry', w))
  /\ Plugins.refresh (registry', w') = Ret tt (registry', w').
Proof.
  intros Href.
  destruct (refresh_builds registry w) as [_ Hw]. rewrite Href in Hw. simpl in Hw.
  subst w'.
  assert (Hany : forall other, Plugins.refresh (other, w) = Ret tt (registry', w)).
  { intros other. rewrite <- Href. reflexivity. }
  split_and!; [done|exact Hany|apply Hany].
Qed.

Lemma Plugins_path_missing (w : World) :
  root_exists w = false -> Plugins_path w = Raise (NameError "dest") w.
Proof. intros Hroot. by rewrite Plugins_path_eq, Hroot. Qed.

(** Without installation root, the load of a manifest that declares a
    plugin raises where it asks for the root. *)
Lemma loadFromDesktopContent_missing_root content cfg i n c m p w :
  root_exists w = false ->
  content <> "" -> cp_read_string content = inr cfg -> declares cfg i n c m ->
  Plugin.loadFromDesktopContent (PyStr content) (p, w)
  = Raise (NameError "dest")
          (Plugin.with_description c (Plugin.with_name n (Plugin.with_id i Plugin.blank)), w).
Proof.
  intros Hroot Hne Hread (opts & Hs & Hi & Hn & Hc & Hm).
  rewrite (loadFromDesktopContent_eq content cfg p w Hne Hread).
  unfold Plugin.loadFromcfgParser, bind, ret, raise, get, self, set_self, in_world,
    lift_sum.
  rewrite Hs. simpl. rewrite Hi. simpl. rewrite Hn. simpl. rewrite Hc. simpl.
  by rewrite (Plugins_path_missing w Hroot).
Qed.

(** X5. When the installation root does not exist, [Plugins.path()]
    reaches [os.mkdir(dest)] with no [dest] defined: it raises [NameError]
    and creates nothing. So do the constructor of the registry and
    [refresh], which leaves the registry empty, and the load of a manifest
    text that declares a plugin, which leaves the record not valid. *)
Theorem missing_root (registry : gmap string Plugin.t) (content : string)
    (cfg : ConfigParser) (i n c m : string) (p : Plugin.t) (w : World) :
  root_exists w = false ->
  Plugins.path w = Raise (NameError "dest") w
  /\ Plugins.new w = Raise (NameError "dest") w
  /\ Plugins.refresh (registry, w) = Raise (NameError "dest") (∅, w)
  /\ (content <> "" -> cp_read_string content = inr cfg -> declares cfg i n c m ->
      exists p', Plugin.loadFromDesktopContent (PyStr content) (p, w)
                 = Raise (NameError "dest") (p', w)
                 /\ Plugin.isValid p' = false).
Proof.
  intros Hroot.
  pose proof (Plugins_path_missing w Hroot) as Hpath.
  assert (Href : forall r, Plugins.refresh (r, w) = Raise (NameError "dest") (∅, w)).
  { intros r. unfold Plugins.refresh, Plugins.buildList. unfold bind at 1. simpl.
    unfold bind at 1, in_world at 1. simpl. by rewrite Hpath. }
  split_and!.
  - exact Hpath.
  - unfold Plugins.new, on_object, bind. by rewrite (Href ∅).
  - apply Href.
  - intros Hne Hread Hdecl. eexists. split.
    + by apply (loadFromDesktopContent_missing_root content cfg i n c m).
    + reflexivity.
Qed.

(** X7. A record with a non-empty id given to [append] enters the
    registry under its id, replacing the record that had this id if any:
    [plugin] then returns it for that id and answers as before for the
    others, the length grows by one exactly when the id is new; [remove]
    of the id returns, leaves the registry without that id and the others
    as they were before the [append], and [plugin] then returns [None]
    for the id. A record with the empty id is refused. *)
Theorem registry_round_trip (p : Plugin.t) (registry : gmap string Plugin.t) (w : World) :
  (Plugin.id p <> "" ->
   let registry' := <[Plugin.id p := p]> registry in
   Plugins.append (PyObj p) (registry, w) = Ret true (registry', w)
   /\ Plugins.plugin (PyStr (Plugin.id p)) (registry', w) = Ret (Some p) (registry', w)
   /\ (forall k, k <> Plugin.id p ->
         Plugins.plugin (PyStr k) (registry', w) = Ret (registry !! k) (registry', w))
   /\ Plugins.length (registry', w)
      = Ret (match registry !! Plugin.id p with
             | Some _ => size registry
             | None => S (size registry)
             end) (registry', w)
   /\ Plugins.remove (PyStr (Plugin.id p)) (registry', w)
      = Ret tt (delete (Plugin.id p) registry, w)
   /\ Plugins.plugin (PyStr (Plugin.id p)) (delete (Plugin.id p) registry, w)
      = Ret None (delete (Plugin.id p) registry, w))
  /\ (Plugin.id p = "" ->
      Plugins.append (PyObj p) (registry, w) = Ret false (registry, w)).
Proof.
  split.
  - intros Hid registry'. split_and!.
    + unfold Plugins.append, bind. simpl.
      destruct (String.eqb_spec (Plugin.id p) ""); [done|reflexivity].
    + unfold Plugins.plugin, bind, self, ret. simpl. subst registry'.
      by rewrite lookup_insert_eq.
    + intros k Hk. unfold Plugins.plugin, bind, self, ret. simpl. subst registry'.
      by rewrite lookup_insert_ne.
    + unfold Plugins.length, bind, self, ret. simpl. subst registry'.
      rewrite map_size_insert. by destruct (registry !! Plugin.id p).
    + unfold Plugins.remove, set_self. simpl. subst registry'.
      by rewrite delete_insert_eq.
    + unfold Plugins.plugin, bind, self, ret. simpl. by rewrite lookup_delete_eq.
  - intros Hid. unfold Plugins.append, bind. simpl. by rewrite Hid.
Qed.

End Refresh.

Section Uninstall.
Context `{HostAdapter}.

#[local] Arguments os_path.join : simpl never.
#[local] Arguments os_path.join3 : simpl never.
#[local] Arguments os.stat : simpl never.
#[local] Arguments os.key : simpl never.
#[local] Arguments os.below : simpl never.

(** [deactivate] never raises; it leaves the world [deactivated]. *)
Lemma deactivate_eq (p : Plugin.t) (w : World) :
  Plugin.deactivate (p, w)
  = Ret tt (if Plugin.isActive p then Plugin.with_isActive false p else p,
            deactivated p w).
Proof.
  unfold deactivated. destruct (Plugin.isActive p) eqn:Hp.
  - unfold Plugin.deactivate. unfold bind at 1. simpl. rewrite Hp. simpl.
    unfold bind at 1. simpl. unfold bind at 1. simpl. unfold bind at 1. simpl.
    rewrite unload_modules_eq.
    + simpl. do 2 f_equal. destruct w; unfold set_sys_modules, sentinel_written,
        set_settings; simpl. f_equal. exact (purge_all p _).
    + apply NoDup_fst_map_to_list.
    + intros k Hk. simpl. apply list_elem_of_fmap in Hk as [[k' m] [-> Hk]].
      apply elem_of_map_to_list in Hk. simpl. eauto.
  - by apply deactivate_inactive.
Qed.

Lemma remove_if_exists_st {B} (f : string) (p0 : Plugin.t) (w : World)
    (k : M Plugin.St B) :
  os.stat f w <> Some Dir ->
  (let* found := in_world (os.path_exists f) in
   (when found then in_world (os.remove f)) ;; k) (p0, w)
  = k (p0, without_file f w).
Proof.
  intros Hdir.
  unfold os.path_exists, os.remove, without_file.
  unfold bind, in_world, get, ret, modify.
  simpl. destruct (os.stat f w) as [[|d]|] eqn:E; [by destruct Hdir| |];
    simpl; rewrite ?E; simpl; reflexivity.
Qed.

Lemma rmtree_if_exists_st {B} (d : string) (p0 : Plugin.t) (w : World)
    (k : M Plugin.St B) :
  (let* found := in_world (os.path_exists d) in
   (when found then in_world (os.rmtree d)) ;; k) (p0, w)
  = k (p0, without_tree d w).
Proof.
  unfold os.path_exists, os.rmtree, without_tree.
  unfold bind, in_world, get, ret, modify.
  simpl. destruct (os.stat d w) as [[|x]|] eqn:E; simpl; rewrite ?E; simpl;
    reflexivity.
Qed.

Lemma appdata_without_file (f : string) (w : World) :
  appdata (without_file f w) = appdata w.
Proof. unfold without_file. by destruct (os.stat f w) as [[|d]|]. Qed.

Lemma stat_without_file_dir (q f : string) (w : World) :
  os.stat q (without_file f w) = Some Dir -> os.stat q w = Some Dir.
Proof.
  unfold without_file. destruct (os.stat f w) as [[|d]|] eqn:E; try done.
  unfold os.stat in *. simpl. destruct (String.eqb q ""); [done|].
  destruct (decide (os.key f = os.key q)) as [Heq|Hne].
  - rewrite Heq, lookup_delete_eq. done.
  - by rewrite lookup_delete_ne.
Qed.



Lemma shrinks_refl w : shrinks w w.
Proof. intros q. by right. Qed.

Lemma shrinks_trans w1 w2 w3 : shrinks w1 w2 -> shrinks w2 w3 -> shrinks w1 w3.
Proof.
  intros H12 H23 q. destruct (H23 q) as [Hn|He]; [by left|].
  rewrite He. apply H12.
Qed.

Lemma shrinks_without_file f w : shrinks w (without_file f w).
Proof.
  unfold without_file. destruct (os.stat f w) as [[|d]|]; try apply shrinks_refl.
  intros q. simpl. destruct (decide (os.key f = q)) as [<-|Hne].
  - left. apply lookup_delete_eq.
  - right. by apply lookup_delete_ne.
Qed.

Lemma shrinks_without_tree d w : shrinks w (without_tree d w).
Proof.
  unfold without_tree. destruct (os.stat d w) as [[|x]|]; try apply shrinks_refl.
  intros q. simpl.
  destruct (filter _ (fs w) !! q) as [n|] eqn:E; [|by left].
  right. apply map_lookup_filter_Some in E as [E _]. by rewrite E.
Qed.

Lemma stat_None_shrinks q w w' :
  shrinks w w' -> os.stat q w = None -> os.stat q w' = None.
Proof.
  intros Hs. unfold os.stat. destruct (String.eqb q ""); [done|].
  destruct (Hs (os.key q)) as [-> | ->]; done.
Qed.

Lemma stat_without_file_self f w :
  os.stat f w <> Some Dir -> os.stat f (without_file f w) = None.
Proof.
  intros Hdir. unfold without_file.
  destruct (os.stat f w) as [[|d]|] eqn:E; try done.
  unfold os.stat in *. simpl. destruct (String.eqb f ""); [done|].
  by rewrite lookup_delete_eq.
Qed.

Lemma stat_without_file_keeps_dir q f w :
  os.stat q w = Some Dir -> os.stat q (without_file f w) = Some Dir.
Proof.
  intros Hq. unfold without_file. destruct (os.stat f w) as [[|d]|] eqn:E; try done.
  unfold os.stat in *. simpl. destruct (String.eqb q ""); [done|].
  destruct (String.eqb f ""); [done|].
  destruct (decide (os.key f = os.key q)) as [Heq|Hne].
  - rewrite Heq in E. destruct (fs w !! os.key q) as [[|x]|]; try done.
    destruct (Str.endswith "/" q); done.
  - by rewrite lookup_delete_ne.
Qed.

(** X10. An uninstallation that goes on (confirmed, or given a value that
    is neither "ask" nor "no"), of a record whose manifest file, action
    file and directory are canonical paths (absolute, with no empty, [.] or
    [..] component, so that they name the place they spell), the manifest
    and the action file not being directories: it returns [True], the
    record is reset to the default values, the plugin is deactivated, the
    key of the setting is removed, the manifest file and the action file
    are gone, and so is everything at and below the plugin's directory;
    nothing else is changed in the filesystem, and nothing is created. *)
Theorem uninstall_proceeds (confirmUninstall : PyVal Plugin.t) (p : Plugin.t) (w : World) :
  proceeds confirmUninstall p w ->
  canonical (Plugin.desktopFile p) = true ->
  canonical (action_file w p) = true ->
  canonical (Plugin.path p) = true ->
  os.stat (Plugin.desktopFile p) w <> Some Dir ->
  os.stat (action_file w p) w <> Some Dir ->
  let w' := uninstalled p w in
  Plugin.uninstall confirmUninstall (p, w) = Ret true (Plugin.blank, w')
  /\ settings w' !! ("python", "enable_" ++ Plugin.id p) = None
  /\ os.stat (Plugin.desktopFile p) w' = None
  /\ os.stat (action_file w p) w' = None
  /\ (os.stat (Plugin.path p) w = Some Dir ->
      forall q, os.below (os.key (Plugin.path p)) q = true -> fs w' !! q = None)
  /\ shrinks w w'.
Proof.
  intros Hgo _ _ _ Hdesk Haction w'.
  set (w0 := deactivated p w).
  set (w1 := set_settings (fun m => delete ("python", "enable_" ++ Plugin.id p) m) w0).
  set (w2 := without_file (Plugin.desktopFile p) w1).
  set (w3 := without_file (action_file w p) w2).
  assert (Hfs1 : fs w1 = fs w).
  { subst w1 w0. unfold deactivated. by destruct (Plugin.isActive p). }
  assert (Hstat1 : forall q, os.stat q w1 = os.stat q w).
  { intros q. unfold os.stat. by rewrite Hfs1. }
  assert (Hs1 : shrinks w w1) by (intros q; right; by rewrite Hfs1).
  assert (Hs2 : shrinks w w2) by (eapply shrinks_trans, shrinks_without_file; done).
  assert (Hs3 : shrinks w w3) by (eapply shrinks_trans, shrinks_without_file; done).
  assert (Hs4 : shrinks w w') by (eapply shrinks_trans, shrinks_without_tree; done).
  assert (Hdesk1 : os.stat (Plugin.desktopFile p) w1 <> Some Dir) by (by rewrite Hstat1).
  assert (Haction2 : os.stat (action_file w p) w2 <> Some Dir).
  { intros Hd. apply stat_without_file_dir in Hd. by rewrite Hstat1 in Hd. }
  split_and!.
  - unfold Plugin.uninstall.
    assert (Hconfirm : forall (k : PyVal Plugin.t -> M Plugin.St bool),
      (forall v, py_eq_int v Plugin.ACTION_VALIDATE_NO = false -> k v (p, w) = Ret true (Plugin.blank, w')) ->
      (let* c :=
         (if py_eq_int match confirmUninstall with
                       | PyNone => PyInt Plugin.ACTION_VALIDATE_ASK
                       | _ => confirmUninstall
                       end Plugin.ACTION_VALIDATE_ASK
          then
            let* p0 := self in
            let* w0 := in_world get in
            if question_yes "Uninstall Plugin" (uninstall_prompt p0) w0
            then ret (PyInt Plugin.ACTION_VALIDATE_YES)
            else ret (PyInt Plugin.ACTION_VALIDATE_NO)
          else ret match confirmUninstall with
                   | PyNone => PyInt Plugin.ACTION_VALIDATE_ASK
                   | _ => confirmUninstall
                   end) in k c) (p, w) = Ret true (Plugin.blank, w')).
    { intros k Hk. unfold bind at 1.
      destruct Hgo as [[Hask Hno]|[Hask Hyes]]; rewrite Hask.
      - simpl. by apply Hk.
      - unfold bind, self, in_world, get, ret. simpl. rewrite Hyes. by apply Hk. }
    apply Hconfirm. intros v Hv. rewrite Hv.
    unfold bind at 1. rewrite deactivate_eq. fold w0.
    unfold bind at 1. unfold self at 1. cbv beta iota.
    set (p1 := if Plugin.isActive p then Plugin.with_isActive false p else p).
    assert (Hid : Plugin.id p1 = Plugin.id p) by (subst p1; by destruct (Plugin.isActive p)).
    assert (Hfile : Plugin.desktopFile p1 = Plugin.desktopFile p)
      by (subst p1; by destruct (Plugin.isActive p)).
    assert (Hpath : Plugin.path p1 = Plugin.path p)
      by (subst p1; by destruct (Plugin.isActive p)).
    cbn [fst]. rewrite Hid, Hfile, Hpath.
    unfold bind at 1, in_world at 1, Krita.writeSetting, modify.
    cbv beta iota. cbn [fst snd]. fold w1.
    rewrite (remove_if_exists_st _ _ _ _ Hdesk1). fold w2.
    unfold bind at 1, in_world at 1, get at 1. cbv beta iota zeta. cbn [fst snd].
    assert (Happ : appdata w2 = appdata w).
    { subst w2 w1 w0. rewrite appdata_without_file. unfold deactivated.
      by destruct (Plugin.isActive p). }
    rewrite Happ. change (os_path.join3 (appdata w) "actions" (Plugin.id p ++ ".action"))
      with (action_file w p).
    rewrite (remove_if_exists_st _ _ _ _ Haction2). fold w3.
    rewrite rmtree_if_exists_st.
    reflexivity.
  - subst w' w3 w2. unfold uninstalled, without_tree, without_file.
    repeat (match goal with |- context [match ?x with _ => _ end] => destruct x end);
      simpl; apply lookup_delete_eq.
  - subst w'. unfold uninstalled. apply (stat_None_shrinks _ w2).
    + eapply shrinks_trans; [apply shrinks_without_file|apply shrinks_without_tree].
    + by apply stat_without_file_self.
  - subst w'. unfold uninstalled. apply (stat_None_shrinks _ w3).
    + apply shrinks_without_tree.
    + by apply stat_without_file_self.
  - intros Hdir q Hq. subst w'. unfold uninstalled. fold w0 w1 w2 w3.
    assert (Hdir3 : os.stat (Plugin.path p) w3 = Some Dir).
    { subst w3 w2. do 2 apply stat_without_file_keeps_dir. by rewrite Hstat1. }
    unfold without_tree. rewrite Hdir3. simpl.
    apply map_lookup_filter_None. right. intros n _. simpl. by rewrite Hq.
  - exact Hs4.
Qed.

End Uninstall.

Section Activation.
Context `{HostAdapter}.

#[local] Arguments os_path.join : simpl never.
#[local] Arguments os_path.dirname : simpl never.
#[local] Arguments os.stat : simpl never.

(** [activate] changes nothing of the record but its flag. *)
Lemma activate_record (p : Plugin.t) (w : World) :
  fst (final (Plugin.activate (p, w))) = Plugin.with_isActive true p.
Proof.
  destruct (Plugin.isActive p) eqn:Hp.
  - rewrite activate_active by done. simpl. destruct p. simpl in Hp. by subst.
  - unfold Plugin.activate. unfold bind at 1. simpl. rewrite Hp.
    unfold bind at 1. simpl.
    match goal with |- fst (final (?m ?st0)) = _ =>
      assert (Hk : preserves (both (fun o => o = Plugin.with_isActive true p)
                                   (fun _ => True)) m) end.
    { preserves_auto; apply preserves_in_world, preserves_True. }
    by apply Hk.
Qed.

(** X11. Activating an inactive record whose entry module loads, no
    extension of the host being defined in the plugin's directory:
    the activation returns, the record is active and the world is the one
    the loader left, with the enabled sentinel written before the load; no
    hook is called and no menu is touched. *)
Theorem activate_without_extension (p : Plugin.t) (w w2 : World) :
  Plugin.isActive p = false ->
  load_module (os_path.join (Plugin.path p) "__init__.py") (sentinel_written "true" p w)
  = Ret tt w2 ->
  (forall x, x ∈ extensions w2 ->
     exists file, ext_classfile x = Some file
                  /\ os_path.dirname file <> Plugin.path p) ->
  Plugin.activate (p, w) = Ret tt (Plugin.with_isActive true p, w2).
Proof.
  intros Hp Hload Hext.
  unfold Plugin.activate. unfold bind at 1. simpl. rewrite Hp.
  unfold bind at 1. simpl. unfold bind at 1. simpl.
  fold (sentinel_written "true" p w).
  unfold bind at 1, in_world at 1. simpl. rewrite Hload. simpl.
  unfold bind at 1. simpl.
  generalize (objectName <$> actions w2). intros ids.
  revert Hext. generalize (extensions w2). intros l Hl.
  match goal with |- bind (fold_each l [] ?body) ?k ?st0 = _ =>
    assert (Hfold : forall acc, fold_each l acc body st0 = Ret acc st0) end.
  { induction l as [|x l IH]; intros acc; [reflexivity|].
    destruct (Hl x) as (file & Hfile & Hdir); [by left|].
    simpl. unfold bind at 1. unfold bind at 1. rewrite Hfile. simpl.
    unfold bind at 1. simpl.
    apply String.eqb_neq in Hdir. rewrite Hdir. simpl.
    apply IH. intros y Hy. apply Hl. by right. }
  unfold bind. rewrite Hfold. reflexivity.
Qed.

(** X12. Whatever its outcome, an activation changes nothing of the
    record but its flag, which is set: the id, the paths and the validity
    are those of the record given. *)
Theorem activate_only_sets_flag (p : Plugin.t) (w : World) :
  let p' := fst (final (Plugin.activate (p, w))) in
  p' = Plugin.with_isActive true p
  /\ Plugin.isActive p' = true
  /\ Plugin.isValid p' = Plugin.isValid p
  /\ Plugin.id p' = Plugin.id p.
Proof. intros p'. subst p'. by rewrite activate_record. Qed.

End Activation.

Section Install.
Context `{HostAdapter}.

#[local] Arguments os_path.join : simpl never.
#[local] Arguments os.stat : simpl never.
#[local] Arguments Str.re_search_end : simpl never.
#[local] Arguments Plugin.install_from : simpl never.

(** X13. With a string for the archive, [install] lets no [Exception]
    escape. A path that is no file makes it return [None] at once; a file
    that is no zip archive makes it return [None] too, the error caught.
    In both cases only the debug output has changed. *)
Theorem install_soft_failures (zipFileName : string) (overwrite : PyVal Plugin.t)
    (w : World) :
  (forall e w', Plugin.install (PyStr zipFileName) overwrite w = Raise e w' ->
                is_Exception e = false)
  /\ ((forall d, os.stat zipFileName w <> Some (File d)) ->
      Plugin.install (PyStr zipFileName) overwrite w
      = Ret None (set_debug
                    (fun l => (l ++ [("File name doesn't exist: " ++ zipFileName)%string])%list)
                    w))
  /\ (forall text, os.stat zipFileName w = Some (File (Text text)) ->
      Plugin.install (PyStr zipFileName) overwrite w
      = Ret None (set_debug
                    (fun l => (l ++ [("Unable to read archive archive: "
                                      ++ zipFileName)%string;
                                     str_of_exc BadZipFile])%list)
                    w)).
Proof.
  split_and!.
  - intros e w'. unfold Plugin.install, os.path_isfile.
    unfold bind at 1. simpl.
    destruct (os.stat zipFileName w) as [[|d]|]; simpl; try done.
    unfold try_except.
    destruct (bind _ _ w) as [a s|e0 s]; [done|].
    destruct (is_Exception e0) eqn:E; [done|]. by intros [= <- _].
  - intros Hfile. unfold Plugin.install, os.path_isfile.
    unfold bind at 1. simpl.
    destruct (os.stat zipFileName w) as [[|d]|] eqn:E; simpl; try done.
    by destruct (Hfile d).
  - intros text Hfile. unfold Plugin.install, os.path_isfile, zipfile.open_archive.
    unfold bind at 1. simpl. rewrite Hfile. simpl.
    unfold try_except, bind at 1. unfold bind at 1, get at 1. simpl. rewrite Hfile.
    simpl. destruct w. unfold bind, qDebug, modify, ret, set_debug. simpl.
    by rewrite <- app_assoc.
Qed.

(** X14. An archive that passes the checks, for a plugin whose directory
    exists already, the overwriting being refused by the argument or by
    the user: [install] returns [None]; no file is touched, and neither
    the settings nor the loaded modules are changed. *)
Theorem install_overwrite_refused (zipFileName : string) (overwrite : PyVal Plugin.t)
    (archive : list ZipEntry) (w : World) (d i : string) (plugin : Plugin.t) :
  os.stat zipFileName w = Some (File (ZipArchive archive)) ->
  validated archive w d i plugin ->
  is_Some (os.stat (Plugin.path plugin) w) ->
  refuses overwrite plugin w ->
  exists w',
    Plugin.install (PyStr zipFileName) overwrite w = Ret None w'
    /\ fs w' = fs w /\ settings w' = settings w /\ sys_modules w' = sys_modules w.
Proof.
  intros Hzip (Hm & (bytes & content & Hread & Hdec & Hload) & Hvalid & rest & Hinit)
    Hexists Hrefuse.
  assert (Htarget : exists w', Plugin.install_target (overwrite_policy overwrite) plugin w
                               = Ret false w'
                    /\ fs w' = fs w /\ settings w' = settings w
                    /\ sys_modules w' = sys_modules w).
  { unfold Plugin.install_target, os.path_exists. unfold bind at 1, bind at 1, get at 1.
    simpl. rewrite (bool_decide_eq_true_2 _ Hexists).
    destruct Hrefuse as [Hno|[Hask Hq]].
    - assert (Hask : py_eq_int (overwrite_policy overwrite) Plugin.ACTION_VALIDATE_ASK
                     = false).
      { destruct (overwrite_policy overwrite) as [| |z|b|]; try done; simpl in *.
        - apply Z.eqb_eq in Hno. by subst z.
        - by destruct b. }
      unfold bind at 1. rewrite Hask. simpl. rewrite Hno.
      eexists. split; [reflexivity|done].
    - unfold bind at 1. rewrite Hask. unfold bind at 1, get at 1. simpl.
      unfold install_prompt in Hq. rewrite Hq. simpl.
      eexists. split; [reflexivity|done]. }
  destruct Htarget as (wt & Htarget & Hfs & Hset & Hmod).
  exists wt. split; [|done].
  unfold Plugin.install, os.path_isfile, zipfile.open_archive.
  unfold bind at 1. simpl. rewrite Hzip. simpl.
  unfold try_except, bind at 1. unfold bind at 1, get at 1. simpl. rewrite Hzip. simpl.
  unfold Plugin.install_from. fold (manifests archive). rewrite Hm.
  unfold bind at 1. simpl.
  unfold bind at 1. rewrite Hread.
  unfold bind at 1. rewrite Hdec. simpl.
  unfold bind at 1. rewrite Hload. simpl. rewrite Hvalid. simpl.
  fold (entry_points (Plugin.id plugin) archive). rewrite Hinit.
  unfold bind at 1. fold (overwrite_policy overwrite). rewrite Htarget. reflexivity.
Qed.

Lemma install_from_some (zipFileName : string) (overwrite : PyVal Plugin.t)
    (archive : list ZipEntry) (w w' : World) (p : Plugin.t) :
  Plugin.install_from zipFileName overwrite archive w = Ret (Some p) w' ->
  Plugin.isValid p = true /\ Plugin.isActive p = true.
Proof.
  unfold Plugin.install_from.
  destruct (List.filter _ _) as [|d [|d2 r]]; [discriminate| |discriminate].
  unfold bind at 1. simpl.
  unfold bind at 1. destruct (zipfile.read_member archive d w) as [bytes w1|e w1];
    [|discriminate].
  unfold bind at 1, lift_sum. destruct (bytes_decode bytes) as [e|content];
    [discriminate|]. simpl.
  unfold bind at 1.
  destruct (on_object Plugin.blank _ w1) as [[[] plugin] w2|e w2]; [|discriminate].
  simpl. destruct (Plugin.isValid plugin) eqn:Hvalid; [|discriminate]. simpl.
  destruct (List.filter _ _) as [|i rest]; [discriminate|].
  unfold bind at 1.
  destruct (Plugin.install_target overwrite plugin w2) as [go w3|e w3]; [|discriminate].
  destruct go; [|discriminate]. simpl.
  unfold bind at 1.
  destruct (Plugin.install_extract archive plugin d i w3) as [[] w4|e w4];
    [|discriminate].
  unfold bind at 1, on_object.
  pose proof (activate_record plugin w4) as Hrec.
  destruct (Plugin.activate (plugin, w4)) as [[] [p' w5]|e [p' w5]]; [|discriminate].
  simpl in Hrec. subst p'. intros [= <- _]. by split.
Qed.

(** X15. The record [install] returns, when it returns one, is valid and
    active. *)
Theorem install_returns_valid_active (zipFileName overwrite : PyVal Plugin.t)
    (w w' : World) (p : Plugin.t) :
  Plugin.install zipFileName overwrite w = Ret (Some p) w' ->
  Plugin.isValid p = true /\ Plugin.isActive p = true.
Proof.
  unfold Plugin.install. destruct zipFileName as [|z| | |]; try discriminate.
  unfold bind at 1, os.path_isfile, bind at 1, get. simpl.
  destruct (os.stat z w) as [[|d]|]; simpl; try discriminate.
  unfold try_except. unfold bind at 1.
  destruct (zipfile.open_archive z w) as [archive w0|e w0].
  - destruct (Plugin.install_from _ _ archive w0) as [r w1|e w1] eqn:E.
    + intros [= -> ->]. by apply install_from_some in E.
    + destruct (is_Exception e); discriminate.
  - destruct (is_Exception e); discriminate.
Qed.

(** X16. When the installation root does not exist, the installation of
    an archive with one manifest, which declares a plugin, fails softly:
    the [NameError] of [Plugins.path()] is caught, [install] returns
    [None], and nothing is created. *)
Theorem install_missing_root (zipFileName : string) (overwrite : PyVal Plugin.t)
    (archive : list ZipEntry) (w : World) (d bytes content : string)
    (cfg : ConfigParser) (i n c m : string) :
  root_exists w = false ->
  os.stat zipFileName w = Some (File (ZipArchive archive)) ->
  manifests archive = [d] ->
  zipfile.read_member archive d w = Ret bytes w ->
  bytes_decode bytes = inr content ->
  content <> "" ->
  cp_read_string content = inr cfg ->
  declares cfg i n c m ->
  exists w', Plugin.install (PyStr zipFileName) overwrite w = Ret None w'
             /\ fs w' = fs w.
Proof.
  intros Hroot Hzip Hm Hread Hdec Hne Hcfg Hdecl.
  pose proof (loadFromDesktopContent_missing_root content cfg i n c m Plugin.blank w
                Hroot Hne Hcfg Hdecl) as Hraise.
  unfold Plugin.install, os.path_isfile, zipfile.open_archive.
  unfold bind at 1. simpl. rewrite Hzip. simpl.
  unfold try_except, bind at 1. unfold bind at 1, get at 1. simpl. rewrite Hzip. simpl.
  unfold Plugin.install_from. fold (manifests archive). rewrite Hm.
  unfold bind at 1. simpl.
  unfold bind at 1. rewrite Hread.
  unfold bind at 1. rewrite Hdec. simpl.
  unfold bind at 1, on_object. rewrite Hraise. simpl.
  eexists. split; [reflexivity|done].
Qed.

End Install.

Section Routing.

Lemma rsplit_slash_no_slash (b : string) :
  no_slash b = true -> Str.rsplit_slash b = (None, b).
Proof.
  induction b as [|c b IH]; [done|].
  intros [Hc Hb]%andb_true_iff.
  change (Str.rsplit_slash (String c b))
    with (match Str.rsplit_slash b with
          | (Some h, t) => (Some (String c h), t)
          | (None, t) => if Str.is_slash c then (Some "/", t) else (None, String c t)
          end).
  rewrite (IH Hb). by destruct (Str.is_slash c).
Qed.

Lemma rsplit_slash_app (a b : string) :
  no_slash b = true -> Str.rsplit_slash (a ++ "/" ++ b) = (Some (a ++ "/"), b).
Proof.
  intros Hb. induction a as [|c a IH].
  - change (Str.rsplit_slash (String "/" b) = (Some "/", b)).
    change (Str.rsplit_slash (String "/" b))
      with (match Str.rsplit_slash b with
            | (Some h, t) => (Some (String "/"%char h), t)
            | (None, t) => (Some "/", t)
            end).
    by rewrite (rsplit_slash_no_slash b Hb).
  - change (Str.rsplit_slash (String c (a ++ "/" ++ b)) = (Some (String c (a ++ "/")), b)).
    change (Str.rsplit_slash (String c (a ++ "/" ++ b)))
      with (match Str.rsplit_slash (a ++ "/" ++ b) with
            | (Some h, t) => (Some (String c h), t)
            | (None, t) => if Str.is_slash c then (Some "/", t) else (None, String c t)
            end).
    by rewrite IH.
Qed.

Lemma rstrip_slash_app_slash (a : string) :
  Str.rstrip_slash (a ++ "/") = Str.rstrip_slash a.
Proof. induction a as [|c a IH]; simpl; [done|by rewrite IH]. Qed.

Lemma basename_app (a b : string) :
  no_slash b = true -> os_path.basename (a ++ "/" ++ b) = b.
Proof. intros Hb. unfold os_path.basename. by rewrite rsplit_slash_app. Qed.

Lemma dirname_app (a b : string) :
  no_slash b = true -> a <> "" -> Str.rstrip_slash a = a ->
  os_path.dirname (a ++ "/" ++ b) = a.
Proof.
  intros Hb Ha Hstrip. unfold os_path.dirname. rewrite rsplit_slash_app by done.
  simpl. rewrite rstrip_slash_app_slash, Hstrip.
  destruct (String.eqb_spec (a ++ "/") "") as [Heq|_]; [by destruct a|].
  destruct (String.eqb_spec a "") as [Heq|_]; done.
Qed.

Lemma prefix_length_app (a b : string) :
  no_slash b = true -> a <> "" -> Str.rstrip_slash a = a ->
  Plugin.prefix_length (a ++ "/" ++ b) = String.length a + 1.
Proof.
  intros Hb Ha Hstrip. unfold Plugin.prefix_length. rewrite dirname_app by done.
  destruct a; [done|]. reflexivity.
Qed.

Lemma slice_from_dir (a rest : string) :
  Str.slice_from (String.length a + 1) (a ++ "/" ++ rest) = rest.
Proof. rewrite slice_from_add, slice_from_app. reflexivity. Qed.

Lemma no_slash_app (a b : string) :
  no_slash a = true -> no_slash b = true -> no_slash (a ++ b) = true.
Proof.
  intros Ha Hb. induction a as [|c a IH]; simpl in *; [done|].
  apply andb_true_iff in Ha as [Hc Ha]. rewrite Hc. by apply IH.
Qed.

End Routing.

(** *** The extraction loop of [install] *)

Section Extraction.

#[local] Arguments os_path.join : simpl never.
#[local] Arguments os_path.dirname : simpl never.
#[local] Arguments os.stat : simpl never.
#[local] Arguments os.key : simpl never.
#[local] Arguments zipfile.arcname : simpl never.
#[local] Arguments zipfile.ancestors : simpl never.
#[local] Arguments Plugins_path : simpl never.
#[local] Arguments Plugin.route : simpl never.
#[local] Arguments Plugin.prefix_length : simpl never.

Lemma for_each_app {S A} (l1 l2 : list A) (body : A -> M S unit) (s : S) :
  for_each (l1 ++ l2) body s = (for_each l1 body ;; for_each l2 body) s.
Proof.
  revert s. induction l1 as [|x l1 IH]; intros s; simpl; [done|].
  unfold bind. destruct (body x s) as [[] s1|e s1]; [|done].
  rewrite IH. reflexivity.
Qed.

Lemma for_each_skip {S A} (l1 l2 : list A) (x : A) (body : A -> M S unit) (s : S) :
  (forall s', body x s' = Ret tt s') ->
  for_each (l1 ++ x :: l2) body s = for_each (l1 ++ l2) body s.
Proof.
  intros Hx. revert s. induction l1 as [|y l1 IH]; intros s; simpl.
  - unfold bind. by rewrite Hx.
  - unfold bind. destruct (body y s) as [[] s1|e s1]; [apply IH|done].
Qed.

Lemma rstrip_slash_idem (s : string) :
  Str.rstrip_slash (Str.rstrip_slash s) = Str.rstrip_slash s.
Proof.
  induction s as [|c s IH]; [done|]. simpl.
  destruct (Str.is_slash c && String.eqb (Str.rstrip_slash s) "") eqn:E; [done|].
  simpl. by rewrite IH, E.
Qed.

Lemma key_idem (p : string) : os.key (os.key p) = os.key p.
Proof.
  unfold os.key.
  destruct (String.eqb_spec (Str.rstrip_slash p) "") as [Hk|Hk].
  - by destruct (String.eqb_spec p "").
  - rewrite rstrip_slash_idem. by destruct (String.eqb_spec (Str.rstrip_slash p) "").
Qed.

Lemma mkdir_kept k v a d : k <> os.key d -> preserves (kept k v a) (os.mkdir d).
Proof.
  intros Hk w [Hv Ha]. unfold os.mkdir, bind, get, raise, modify. simpl.
  destruct (os.stat d w); [done|].
  destruct (if String.eqb _ "" then _ else _) as [[|x]|]; try done.
  split; [|done]. simpl. by rewrite lookup_insert_ne.
Qed.

Lemma write_file_kept k v a p data :
  k <> os.key p -> preserves (kept k v a) (zipfile.write_file p data).
Proof.
  intros Hk w [Hv Ha]. unfold zipfile.write_file, bind, get, raise, modify. simpl.
  destruct (os.stat p w) as [[|x]|]; [done| |];
    (destruct (if String.eqb _ "" then _ else _) as [[|y]|]; try done;
     split; [|done]; simpl; by rewrite lookup_insert_ne).
Qed.

Lemma makedirs_kept k v a p :
  k ∉ os.key <$> zipfile.ancestors p -> preserves (kept k v a) (zipfile.makedirs p).
Proof.
  intros Hk. unfold zipfile.makedirs. apply preserves_for_each_in. intros d Hd.
  apply preserves_bind; [by intros w Hw|]. intros found.
  destruct (negb found); [|apply preserves_ret].
  apply mkdir_kept. intros ->. apply Hk. apply list_elem_of_fmap. by exists d.
Qed.

Lemma extract_kept k v a name data dest :
  let t := os.key (os_path.join dest (zipfile.arcname name)) in
  k <> t -> k ∉ os.key <$> zipfile.ancestors (os_path.dirname t) ->
  preserves (kept k v a) (zipfile.extract name data dest).
Proof.
  intros t Hk Hup. unfold zipfile.extract. fold t.
  apply preserves_bind; [by intros w Hw|]. intros found.
  apply preserves_bind.
  - destruct (_ && _); [by apply makedirs_kept|apply preserves_ret].
  - intros _. destruct (Str.endswith "/" name).
    + apply preserves_bind; [by intros w Hw|]. intros isdir.
      destruct (negb isdir); [|apply preserves_ret].
      apply mkdir_kept. subst t. by rewrite key_idem.
    + apply write_file_kept. subst t. by rewrite key_idem.
Qed.

Lemma write_file_ret p data w w' :
  zipfile.write_file p data w = Ret tt w' ->
  fs w' !! os.key p = Some (File (Text data)).
Proof.
  unfold zipfile.write_file, bind, get, raise, modify. simpl.
  destruct (os.stat p w) as [[|x]|]; [done| |];
    (destruct (if String.eqb _ "" then _ else _) as [[|y]|]; try done;
     intros [= <-]; simpl; apply lookup_insert_eq).
Qed.

(** A member that is no directory, once extracted, is at its path with
    its data. *)
Lemma extract_ret name data dest w w' :
  zipfile.extract name data dest w = Ret tt w' ->
  Str.endswith "/" name = false ->
  fs w' !! os.key (os_path.join dest (zipfile.arcname name)) = Some (File (Text data)).
Proof.
  intros Hex Hfile. revert Hex. unfold zipfile.extract. rewrite Hfile.
  unfold bind at 1. destruct (os.path_exists _ w) as [found w0|e w0]; [|done].
  unfold bind at 1.
  match goal with |- match ?m w0 with _ => _ end = _ -> _ =>
    destruct (m w0) as [[] w1|e w1]; [|done] end.
  intros Hw%write_file_ret. by rewrite key_idem in Hw.
Qed.

Lemma Plugins_path_ret w : forall r w', Plugins_path w = Ret r w' -> r = install_root w /\ w' = w.
Proof.
  intros r w'. unfold Plugins_path, bind, get, os.path_exists, ret, install_root. simpl.
  destruct (bool_decide _); [|done]. by intros [= <- <-].
Qed.

Lemma existsb_eqb_false (k : string) (l : list string) :
  existsb (String.eqb k) l = false -> k ∉ l.
Proof.
  induction l as [|x l IH]; simpl; [intros _; apply not_elem_of_nil|].
  intros [Hx Hl]%orb_false_iff. apply not_elem_of_cons. split; [|by apply IH].
  by apply String.eqb_neq.
Qed.

Lemma extract_appdata a name data dest :
  preserves (fun w => appdata w = a) (zipfile.extract name data dest).
Proof.
  unfold zipfile.extract, zipfile.makedirs, zipfile.write_file, os.mkdir,
    os.path_exists, os.path_isdir.
  preserves_auto; by apply preserves_modify.
Qed.

Lemma install_extract_appdata a archive plugin d i :
  preserves (fun w => appdata w = a) (Plugin.install_extract archive plugin d i).
Proof.
  unfold Plugin.install_extract. apply preserves_for_each. intros f.
  destruct (Plugin.route _ _ _ _) as [[[] name]|]; [| | |apply preserves_ret].
  - apply preserves_bind; [|intros root; apply extract_appdata].
    intros w Hw. unfold Plugins_path, bind, get, os.path_exists, ret. simpl.
    by destruct (bool_decide _).
  - apply preserves_bind; [apply preserves_get|intros w0; apply extract_appdata].
  - apply extract_appdata.
Qed.

(** The members that do not touch a path leave it as it is. *)
Lemma install_extract_kept k v plugin w d i post :
  untouched k plugin w d i post = true ->
  preserves (kept k v (appdata w)) (Plugin.install_extract post plugin d i).
Proof.
  intros Hun. unfold Plugin.install_extract. apply preserves_for_each_in. intros f Hf.
  unfold untouched in Hun. rewrite forallb_forall in Hun.
  apply list_elem_of_In, Hun, negb_true_iff in Hf. unfold touched in Hf.
  destruct (Plugin.route _ _ _ _) as [[dst name]|]; [|apply preserves_ret].
  cbn [existsb] in Hf. apply orb_false_iff in Hf as [Ht Hup].
  apply String.eqb_neq in Ht. apply existsb_eqb_false in Hup.
  unfold extracted_at in Ht, Hup.
  destruct dst; cbn [destination] in Ht, Hup.
  - intros w0 [Hv Ha]. unfold bind.
    destruct (Plugins_path w0) as [root w1|e w1] eqn:E.
    + apply Plugins_path_ret in E as [-> ->].
      unfold install_root in *. rewrite Ha. by apply extract_kept.
    + revert E. unfold Plugins_path, bind, get, os.path_exists, ret. simpl.
      destruct (bool_decide _); [done|]. by intros [= _ <-].
  - intros w0 [Hv Ha]. unfold bind, get. rewrite Ha. by apply extract_kept.
  - by apply extract_kept.
Qed.

(** A member of the archive that is no directory is, once the extraction
    has returned, at the path it was sent to, with its data, when no member
    after it touches that path. *)
Lemma install_extract_lands plugin d i pre e post dst name w w' :
  Plugin.install_extract (pre ++ e :: post) plugin d i w = Ret tt w' ->
  Plugin.route (Plugin.id plugin) (Plugin.prefix_length d) (Plugin.prefix_length i)
    (zfilename e) = Some (dst, name) ->
  Str.endswith "/" name = false ->
  untouched (extracted_at plugin w dst name) plugin w d i post = true ->
  fs w' !! extracted_at plugin w dst name = Some (File (Text (zdata e))).
Proof.
  intros Hall Hroute Hfile Hun.
  pose proof (install_extract_appdata (appdata w) pre plugin d i w eq_refl) as Hpre.
  revert Hall Hpre. unfold Plugin.install_extract at 1. rewrite for_each_app.
  fold (Plugin.install_extract pre plugin d i).
  unfold bind at 1.
  destruct (Plugin.install_extract pre plugin d i w) as [[] w1|e1 w1]; [|done].
  cbn [final for_each]. intros Hall Ha1.
  fold (Plugin.install_extract post plugin d i) in Hall.
  revert Hall. unfold bind at 1. rewrite Hroute.
  set (k := extracted_at plugin w dst name) in *.
  assert (Hturn : forall w2,
    match dst with
    | Plugin.InstallRoot =>
        let* root := Plugins_path in zipfile.extract name (zdata e) root
    | Plugin.ActionsDir =>
        let* w0 := get in
        zipfile.extract name (zdata e) (os_path.join (appdata w0) "actions")
    | Plugin.PluginDir => zipfile.extract name (zdata e) (Plugin.path plugin)
    end w1 = Ret tt w2 ->
    kept k (Some (File (Text (zdata e)))) (appdata w) w2).
  { intros w2 Hex.
    assert (Ha2 : appdata w2 = appdata w).
    { assert (Hp : preserves (fun w0 => appdata w0 = appdata w)
                     (Plugin.install_extract [e] plugin d i))
        by apply install_extract_appdata.
      specialize (Hp w1 Ha1). revert Hp. unfold Plugin.install_extract.
      cbn [for_each]. rewrite Hroute. unfold bind at 1. by rewrite Hex. }
    split; [|done]. subst k. unfold extracted_at.
    destruct dst; cbn [destination].
    - revert Hex. unfold bind at 1.
      destruct (Plugins_path w1) as [root w0|e0 w0] eqn:E; [|done].
      apply Plugins_path_ret in E as [-> ->]. intros Hex.
      unfold install_root in *. rewrite <- Ha1. exact (extract_ret _ _ _ _ _ Hex Hfile).
    - revert Hex. unfold bind, get. rewrite Ha1. intros Hex. exact (extract_ret _ _ _ _ _ Hex Hfile).
    - exact (extract_ret _ _ _ _ _ Hex Hfile). }
  match goal with |- match ?m w1 with _ => _ end = _ -> _ =>
    destruct (m w1) as [[] w2|e2 w2]; [|done] end.
  specialize (Hturn w2 eq_refl). intros Hpost.
  pose proof (install_extract_kept k _ plugin w d i post Hun w2 Hturn) as Hk.
  rewrite Hpost in Hk. apply Hk.
Qed.

End Extraction.

(** *** Where the members of an archive are written *)

Section ExtractionRouting.

#[local] Arguments os_path.join : simpl never.
#[local] Arguments os.key : simpl never.
#[local] Arguments zipfile.ancestors : simpl never.
#[local] Arguments Plugin.prefix_length : simpl never.

Lemma split_slash_no_slash (s : string) :
  no_slash s = true -> Str.split_slash s = (s, []).
Proof.
  induction s as [|c s IH]; [done|].
  intros [Hc Hs]%andb_true_iff. apply negb_true_iff in Hc.
  change (Str.split_slash (String c s))
    with (let '(seg, rest) := Str.split_slash s in
          if Str.is_slash c then (EmptyString, seg :: rest) else (String c seg, rest)).
  by rewrite (IH Hs), Hc.
Qed.

(** A plain name is extracted under that name. *)
Lemma arcname_plain (s : string) :
  no_slash s = true -> (2 < String.length s)%nat -> zipfile.arcname s = s.
Proof.
  intros Hs Hlen. unfold zipfile.arcname. rewrite (split_slash_no_slash s Hs).
  assert (Hne : forall x, (String.length x <= 2)%nat -> String.eqb s x = false).
  { intros x Hx. apply String.eqb_neq. intros ->. lia. }
  cbn [List.filter]. rewrite !Hne by (simpl; lia). reflexivity.
Qed.

Lemma endswith_slash_app (a b : string) :
  b <> "" -> Str.endswith "/" b = false -> Str.endswith "/" (a ++ b) = false.
Proof.
  intros Hb. unfold Str.endswith. rewrite length_app.
  destruct b as [|c b]; [done|]. simpl String.length.
  replace (String.length a + S (String.length b) - 1)
    with (String.length a + String.length b) by lia.
  replace (S (String.length b) - 1) with (String.length b) by lia.
  rewrite slice_from_add, slice_from_app.
  replace (1 <=? String.length a + S (String.length b))%nat with true
    by (symmetry; apply Nat.leb_le; lia).
  by replace (1 <=? S (String.length b))%nat with true
    by (symmetry; apply Nat.leb_le; lia).
Qed.

Lemma app_suffix_neq (a x y : string) : x <> y -> a ++ x <> a ++ y.
Proof.
  intros Hxy Heq. apply Hxy.
  assert (Hs : Str.slice_from (String.length a) (a ++ x)
               = Str.slice_from (String.length a) (a ++ y)) by (by rewrite Heq).
  by rewrite !slice_from_app in Hs.
Qed.

(** Where the loop sends the manifest and the action file of the plugin,
    at the top of the archive or in a directory of it. *)
Lemma route_manifest_file (pluginId dir : string) (initPathLength : nat) :
  no_slash pluginId = true ->
  Str.rstrip_slash dir = dir ->
  let manifest := pluginId ++ ".desktop" in
  let action := pluginId ++ ".action" in
  let rootPathLength := Plugin.prefix_length (in_directory dir manifest) in
  Plugin.route pluginId rootPathLength initPathLength (in_directory dir manifest)
  = Some (Plugin.InstallRoot, manifest)
  /\ Plugin.route pluginId rootPathLength initPathLength (in_directory dir action)
     = Some (Plugin.ActionsDir, action).
Proof.
  intros Hid Hstrip manifest action rootPathLength.
  assert (Hm : no_slash manifest = true) by (by apply no_slash_app).
  assert (Ha : no_slash action = true) by (by apply no_slash_app).
  assert (Hne : String.eqb action manifest = false)
    by (by apply String.eqb_neq, app_suffix_neq).
  subst rootPathLength. unfold in_directory.
  destruct (String.eqb_spec dir "") as [->|Hdir].
  - assert (Hlen : Plugin.prefix_length manifest = 0).
    { unfold Plugin.prefix_length, os_path.dirname.
      by rewrite (rsplit_slash_no_slash manifest Hm). }
    rewrite Hlen. unfold Plugin.route, os_path.basename.
    rewrite (rsplit_slash_no_slash manifest Hm), (rsplit_slash_no_slash action Ha).
    cbn [snd]. fold manifest action. by rewrite String.eqb_refl, Hne, String.eqb_refl.
  - rewrite prefix_length_app by done. unfold Plugin.route.
    rewrite !basename_app by done. fold manifest action.
    by rewrite String.eqb_refl, Hne, String.eqb_refl, !slice_from_dir.
Qed.

(** X18. The manifest of the plugin, named [<id>.desktop] and found at the
    top of the archive or in a directory of it, is written by the extraction
    into the installation root, as [<root>/<id>.desktop]; the action file
    [<id>.action] found beside it is written into the actions directory of
    the application data. When the extraction has returned each is there
    with the data of its member, provided no member after it in the archive
    is extracted at that path. *)
Theorem install_extract_manifest (plugin : Plugin.t) (dir initFileName : string)
    (pre post : list ZipEntry) (e : ZipEntry) (w w' : World) :
  let manifest := Plugin.id plugin ++ ".desktop" in
  let action := Plugin.id plugin ++ ".action" in
  let desktopFileName := in_directory dir manifest in
  let installed := os.key (os_path.join (install_root w) manifest) in
  let actions := os.key (os_path.join (os_path.join (appdata w) "actions") action) in
  no_slash (Plugin.id plugin) = true ->
  Str.rstrip_slash dir = dir ->
  Plugin.install_extract (pre ++ e :: post) plugin desktopFileName initFileName w
  = Ret tt w' ->
  (zfilename e = desktopFileName ->
   untouched installed plugin w desktopFileName initFileName post = true ->
   fs w' !! installed = Some (File (Text (zdata e))))
  /\ (zfilename e = in_directory dir action ->
      untouched actions plugin w desktopFileName initFileName post = true ->
      fs w' !! actions = Some (File (Text (zdata e)))).
Proof.
  intros manifest action desktopFileName installed actions Hid Hstrip Hex.
  destruct (route_manifest_file (Plugin.id plugin) dir (Plugin.prefix_length initFileName)
              Hid Hstrip) as [Hrm Hra].
  fold manifest action desktopFileName in Hrm, Hra.
  assert (Hplain : forall ext, no_slash ext = true -> (2 < String.length ext)%nat ->
            zipfile.arcname (Plugin.id plugin ++ ext) = Plugin.id plugin ++ ext).
  { intros ext Hext Hlen. apply arcname_plain; [by apply no_slash_app|].
    rewrite length_app. lia. }
  split.
  - intros He Hun.
    assert (Hr : Plugin.route (Plugin.id plugin) (Plugin.prefix_length desktopFileName)
                   (Plugin.prefix_length initFileName) (zfilename e)
                 = Some (Plugin.InstallRoot, manifest)) by (by rewrite He).
    pose proof (install_extract_lands plugin desktopFileName initFileName pre e post
                  Plugin.InstallRoot manifest w w' Hex Hr) as Hland.
    unfold extracted_at in Hland. cbn [destination] in Hland.
    subst manifest. rewrite Hplain in Hland by (done || (simpl; lia)).
    apply Hland; [|exact Hun]. by apply endswith_slash_app.
  - intros He Hun.
    assert (Hr : Plugin.route (Plugin.id plugin) (Plugin.prefix_length desktopFileName)
                   (Plugin.prefix_length initFileName) (zfilename e)
                 = Some (Plugin.ActionsDir, action)) by (by rewrite He).
    pose proof (install_extract_lands plugin desktopFileName initFileName pre e post
                  Plugin.ActionsDir action w w' Hex Hr) as Hland.
    unfold extracted_at in Hland. cbn [destination] in Hland.
    subst action. rewrite Hplain in Hland by (done || (simpl; lia)).
    apply Hland; [|exact Hun]. by apply endswith_slash_app.
Qed.

(** Where the loop sends a member of the directory of the entry module. *)
Lemma route_entry_directory (pluginId dir base rest : string) (rootPathLength : nat) :
  dir <> "" ->
  Str.rstrip_slash dir = dir ->
  no_slash base = true ->
  os_path.basename (dir ++ "/" ++ rest) <> pluginId ++ ".desktop" ->
  os_path.basename (dir ++ "/" ++ rest) <> pluginId ++ ".action" ->
  Plugin.route pluginId rootPathLength (Plugin.prefix_length (dir ++ "/" ++ base))
    (dir ++ "/" ++ rest)
  = if String.eqb rest "" then None else Some (Plugin.PluginDir, rest).
Proof.
  intros Hdir Hstrip Hbase Hman Hact. unfold Plugin.route.
  apply String.eqb_neq in Hman, Hact. rewrite Hman, Hact.
  rewrite prefix_length_app by done. rewrite slice_from_dir.
  rewrite !length_app. simpl.
  destruct rest as [|c rest]; simpl.
  - replace (_ <? _)%nat with false; [done|]. symmetry. apply Nat.ltb_ge. lia.
  - replace (_ <? _)%nat with true; [done|]. symmetry. apply Nat.ltb_lt. lia.
Qed.

(** X17. The entry module of the plugin being [dir/base] in the archive,
    a member [dir/rest] that is a file, and neither the manifest nor the
    action file of the plugin, is written by the extraction into the
    plugin's directory, the directory of the entry module being stripped
    from its name and the name cleaned as [extract] does (empty, [.] and
    [..] components dropped): when the extraction has returned it is there
    with its data, provided no member after it in the archive is extracted
    at that path. The member [dir/] itself is skipped: the archive is
    extracted as if it were not there. *)
Theorem install_extract_under_entry_directory (plugin : Plugin.t)
    (desktopFileName dir base rest : string) (pre post : list ZipEntry) (e : ZipEntry) :
  let initFileName := dir ++ "/" ++ base in
  dir <> "" ->
  Str.rstrip_slash dir = dir ->
  no_slash base = true ->
  zfilename e = dir ++ "/" ++ rest ->
  os_path.basename (zfilename e) <> Plugin.id plugin ++ ".desktop" ->
  os_path.basename (zfilename e) <> Plugin.id plugin ++ ".action" ->
  (rest = "" ->
   forall w, Plugin.install_extract (pre ++ e :: post) plugin desktopFileName initFileName w
             = Plugin.install_extract (pre ++ post) plugin desktopFileName initFileName w)
  /\ (rest <> "" -> Str.endswith "/" rest = false ->
      forall w w',
        let installed := os.key (os_path.join (Plugin.path plugin) (zipfile.arcname rest)) in
        Plugin.install_extract (pre ++ e :: post) plugin desktopFileName initFileName w
        = Ret tt w' ->
        untouched installed plugin w desktopFileName initFileName post = true ->
        fs w' !! installed = Some (File (Text (zdata e)))).
Proof.
  intros initFileName Hdir Hstrip Hbase He Hman Hact.
  pose proof (route_entry_directory (Plugin.id plugin) dir base rest
                (Plugin.prefix_length desktopFileName) Hdir Hstrip Hbase) as Hroute.
  rewrite <- He in Hroute. specialize (Hroute Hman Hact). fold initFileName in Hroute.
  split.
  - intros -> w. unfold Plugin.install_extract. apply for_each_skip.
    intros w1. by rewrite Hroute.
  - intros Hrest Hfile w w' installed Hex Hun.
    apply String.eqb_neq in Hrest. rewrite Hrest in Hroute.
    exact (install_extract_lands plugin desktopFileName initFileName pre e post
             Plugin.PluginDir rest w w' Hex Hroute Hfile Hun).
Qed.

End ExtractionRouting.

(** ** The further properties on the sample data *)

(** The reference reader on a sample manifest. *)
Lemma sample_declares (text i n c m : string) :
  let opts := sample.desktop_entry (sample.parsed text) in
  configparser.getitem (sample.parsed text) "Desktop Entry" = inr opts ->
  @configparser.proxy_get (reference.host false) opts "X-KDE-Library" "" = inr i ->
  @configparser.proxy_get (reference.host false) opts "Name" "" = inr n ->
  @configparser.proxy_get (reference.host false) opts "Comment" "" = inr c ->
  @configparser.proxy_get (reference.host false) opts "X-Krita-Manual" "" = inr m ->
  declares (H := reference.host false) (sample.parsed text) i n c m.
Proof. intros opts Hs Hi Hn Hc Hm. exists opts. by split_and!. Qed.

Lemma sample_manifest_at (w : World) (file text : string) :
  os.stat file w = Some (File (Text text)) ->
  reference.decode text = inr text ->
  reference.read_string text = inr (sample.parsed text) ->
  manifest_at (H := reference.host false) w file (sample.parsed text).
Proof. intros Hstat Hdec Hread. by exists text, text. Qed.

Lemma sample_validated (archive : list ZipEntry) (w : World) (d i text : string)
    (plugin : Plugin.t) :
  manifests archive = [d] ->
  zipfile.read_member archive d w = Ret text w ->
  reference.decode text = inr text ->
  on_object Plugin.blank
    (@Plugin.loadFromDesktopContent (reference.host false) (PyStr text)) w
  = Ret (tt, plugin) w ->
  Plugin.isValid plugin = true ->
  entry_points (Plugin.id plugin) archive = [i] ->
  validated (H := reference.host false) archive w d i plugin.
Proof.
  intros Hm Hread Hdec Hload Hvalid Hinit. split_and!; [done| |done|by exists []].
  by exists text, text.
Qed.

(** X1, witness: the manifest of [foo]. *)
Lemma loadFromDesktopContent_declared_witness :
  @Plugin.loadFromDesktopContent (reference.host false)
    (PyStr (sample.manifest "foo" "Foo")) (Plugin.blank, sample.world)
  = Ret tt ({| Plugin.id := "foo"; Plugin.name := "Foo"; Plugin.description := "";
               Plugin.path := os_path.join (install_root sample.world) "foo";
               Plugin.manual := "";
               Plugin.desktopFile :=
                 os_path.join (install_root sample.world) ("foo" ++ ".desktop");
               Plugin.isActive := setting_enabled sample.world "foo";
               Plugin.isValid := true |}, sample.world).
Proof.
  apply (@loadFromDesktopContent_declared (reference.host false)
           (sample.manifest "foo" "Foo") (sample.parsed (sample.manifest "foo" "Foo"))
           "foo" "Foo" "" "").
  - discriminate.
  - by_computation.
  - apply sample_declares; by_computation.
  - by_computation.
Defined.

(** X2, witness: the file [a.desktop] of the sample root. *)
Lemma new_declared_witness :
  @Plugin.new (reference.host false) (PyStr "/app/pykrita/a.desktop") sample.world
  = Ret {| Plugin.id := "foo"; Plugin.name := "Foo"; Plugin.description := "";
           Plugin.path := os_path.join (install_root sample.world) "foo";
           Plugin.manual := "";
           Plugin.desktopFile := "/app/pykrita/a.desktop";
           Plugin.isActive := setting_enabled sample.world "foo";
           Plugin.isValid := true |} sample.world.
Proof.
  apply (@new_declared (reference.host false) "/app/pykrita/a.desktop"
           (sample.parsed (sample.manifest "foo" "Foo")) "foo" "Foo" "" "").
  - apply sample_manifest_at; by_computation.
  - by_computation.
  - apply sample_declares; by_computation.
  - by_computation.
Defined.

(** X3, witness: a file that does not exist. *)
Lemma loadFromDesktopFile_refused_witness :
  exists msg,
    @Plugin.loadFromDesktopFile (reference.host false)
      (PyStr "/app/pykrita/missing.desktop") (sample.plugin_baz true, sample.world)
    = Raise (EInvalidValue msg) (Plugin.blank, sample.world).
Proof.
  apply (@loadFromDesktopFile_refused (reference.host false)).
  intros d.
  replace (os.stat "/app/pykrita/missing.desktop" sample.world) with (@None Node)
    by (symmetry; by_computation).
  discriminate.
Defined.

(** X5, witness: a world with the application data directory only. *)
Lemma missing_root_witness :
  root_exists sample.world_without_root = false
  /\ @Plugins.refresh (reference.host false) (∅, sample.world_without_root)
     = Raise (NameError "dest") (∅, sample.world_without_root).
Proof.
  assert (Hroot : root_exists sample.world_without_root = false) by by_computation.
  split; [exact Hroot|].
  apply (@missing_root (reference.host false) ∅ ""
           {| cp_defaults := ∅; cp_sections := ∅ |} "" "" "" "" Plugin.blank
           sample.world_without_root Hroot).
Defined.

(** X6, witness: a path appended to the empty registry. *)
Lemma registry_keyed_witness :
  keyed (fst (final (@Plugins.append (reference.host false)
                       (PyStr "/app/pykrita/a.desktop") (∅, sample.world)))).
Proof.
  assert (Hempty : keyed ∅) by (intros k p; rewrite lookup_empty; discriminate).
  destruct (@registry_keyed (reference.host false) (PyStr "/app/pykrita/a.desktop") ∅
              sample.world Hempty) as (Happend & _ & _).
  exact Happend.
Defined.

(** X7, witness: the record of [baz] given to the empty registry, and
    removed. *)
Lemma registry_round_trip_witness :
  @Plugins.append (reference.host false) (PyObj (sample.plugin_baz true)) (∅, sample.world)
  = Ret true (<[Plugin.id (sample.plugin_baz true) := sample.plugin_baz true]> ∅,
              sample.world)
  /\ Plugins.remove (PyStr (Plugin.id (sample.plugin_baz true)))
       (<[Plugin.id (sample.plugin_baz true) := sample.plugin_baz true]> ∅, sample.world)
     = Ret tt (delete (Plugin.id (sample.plugin_baz true)) ∅, sample.world).
Proof.
  destruct (@registry_round_trip (reference.host false) (sample.plugin_baz true) ∅
              sample.world) as [Hadd _].
  destruct Hadd as (Happend & _ & _ & _ & Hremove & _); [discriminate|].
  split; [exact Happend|exact Hremove].
Defined.

(** X8, witness: the sample root refreshed. *)
Lemma refresh_idempotent_witness :
  @Plugins.refresh (reference.host false) (∅, sample.world)
  = Ret tt ({["foo" := sample.plugin_foo]}, sample.world)
  /\ @Plugins.refresh (reference.host false) ({["foo" := sample.plugin_foo]}, sample.world)
     = Ret tt ({["foo" := sample.plugin_foo]}, sample.world).
Proof.
  assert (Href : @Plugins.refresh (reference.host false) (∅, sample.world)
                 = Ret tt ({["foo" := sample.plugin_foo]}, sample.world))
    by by_computation.
  split; [exact Href|].
  apply (@refresh_idempotent (reference.host false) ∅ _ sample.world sample.world Href).
Defined.

(** X10, witness: the plugin [baz], installed and enabled, uninstalled
    with "yes". *)
Lemma uninstall_proceeds_witness :
  @Plugin.uninstall (reference.host false) (PyInt Plugin.ACTION_VALIDATE_YES)
    (sample.plugin_baz true, sample.world_installed)
  = Ret true (Plugin.blank, uninstalled (sample.plugin_baz true) sample.world_installed)
  /\ fs (uninstalled (sample.plugin_baz true) sample.world_installed)
     !! "/app/pykrita/baz/__init__.py" = None.
Proof.
  destruct (@uninstall_proceeds (reference.host false) (PyInt Plugin.ACTION_VALIDATE_YES)
              (sample.plugin_baz true) sample.world_installed)
    as (Hun & _ & _ & _ & Htree & _).
  - left. split; reflexivity.
  - by_computation.
  - by_computation.
  - by_computation.
  - replace (os.stat _ _) with (Some (File (Text (sample.manifest "baz" "Baz"))))
      by (symmetry; by_computation).
    discriminate.
  - replace (os.stat _ _) with (Some (File (Text "<ActionCollection/>")))
      by (symmetry; by_computation).
    discriminate.
  - split; [exact Hun|]. apply Htree; by_computation.
Defined.

(** X11, witness: the plugin [baz] on disk, the only extension object
    being that of another plugin. *)
Lemma activate_without_extension_witness :
  @Plugin.activate (reference.host false) (sample.plugin_baz false, sample.world_on_disk)
  = Ret tt (Plugin.with_isActive true (sample.plugin_baz false),
            sample.with_module "__main__" "/app/pykrita/baz/__init__.py"
              (sample.with_setting "enable_baz" "true" sample.world_on_disk)).
Proof.
  apply (@activate_without_extension (reference.host false) (sample.plugin_baz false)
           sample.world_on_disk).
  - reflexivity.
  - by_computation.
  - intros x Hx.
    change (x ∈ [sample.other_extension]) in Hx.
    apply list_elem_of_singleton in Hx. subst x.
    exists "/app/pykrita/pluginmanager/pluginmanager.py". split; [reflexivity|].
    replace (os_path.dirname _) with "/app/pykrita/pluginmanager"
      by (symmetry; by_computation).
    discriminate.
Defined.

(** X14, witness: the archive of [baz] over the installed plugin, the
    overwriting refused by the argument. *)
Lemma install_overwrite_refused_witness :
  exists w',
    @Plugin.install (reference.host true) (PyStr "/tmp/plugin.zip")
      (PyInt Plugin.ACTION_VALIDATE_NO)
      (sample.with_file "/tmp/plugin.zip" (ZipArchive sample.archive_baz)
         sample.world_installed) = Ret None w'
    /\ fs w' = fs (sample.with_file "/tmp/plugin.zip" (ZipArchive sample.archive_baz)
                     sample.world_installed).
Proof.
  destruct (@install_overwrite_refused (reference.host true) "/tmp/plugin.zip"
              (PyInt Plugin.ACTION_VALIDATE_NO) sample.archive_baz
              (sample.with_file "/tmp/plugin.zip" (ZipArchive sample.archive_baz)
                 sample.world_installed)
              "baz.desktop" "baz/__init__.py" (sample.plugin_baz true))
    as (w' & Hinst & Hfs & _).
  - by_computation.
  - destruct (sample_validated sample.archive_baz
                (sample.with_file "/tmp/plugin.zip" (ZipArchive sample.archive_baz)
                   sample.world_installed)
                "baz.desktop" "baz/__init__.py" (sample.manifest "baz" "Baz")
                (sample.plugin_baz true)) as (Hm & Hl & Hv & Hi); try by_computation.
    split_and!; [exact Hm| |exact Hv|exact Hi].
    destruct Hl as (bytes & content & Hl). exists bytes, content. exact Hl.
  - exists Dir. by_computation.
  - left. reflexivity.
  - exists w'. by split.
Defined.

(** An outcome that evaluates to the return of a record is one. *)
Lemma returns_record {S : Type} (o : Outcome S (option Plugin.t)) (p : Plugin.t) :
  match o with
  | Ret (Some q) _ => q = p
  | _ => False
  end ->
  exists s, o = Ret (Some p) s.
Proof. destruct o as [[q|] s|e s]; try done. intros ->. by exists s. Qed.

(** X15, witness: the archive of [baz] installed in the sample world. *)
Lemma install_returns_valid_active_witness :
  exists w',
    @Plugin.install (reference.host false) (PyStr "/tmp/plugin.zip") PyNone
      (sample.world_with sample.archive_baz) = Ret (Some (sample.plugin_baz true)) w'
    /\ Plugin.isValid (sample.plugin_baz true) = true
    /\ Plugin.isActive (sample.plugin_baz true) = true.
Proof.
  destruct (returns_record
              (@Plugin.install (reference.host false) (PyStr "/tmp/plugin.zip") PyNone
                 (sample.world_with sample.archive_baz))
              (sample.plugin_baz true)) as [w' Hinst].
  - vm_cast_no_check (@eq_refl Plugin.t (sample.plugin_baz true)).
  - exists w'. split; [exact Hinst|].
    exact (@install_returns_valid_active (reference.host false) _ _ _ _ _ Hinst).
Defined.

(** X16, witness: the archive of [baz] in the world without root. *)
Lemma install_missing_root_witness :
  exists w',
    @Plugin.install (reference.host false) (PyStr "/tmp/plugin.zip") PyNone
      (sample.with_file "/tmp/plugin.zip" (ZipArchive sample.archive_baz)
         sample.world_without_root) = Ret None w'
    /\ fs w' = fs (sample.with_file "/tmp/plugin.zip" (ZipArchive sample.archive_baz)
                     sample.world_without_root).
Proof.
  apply (@install_missing_root (reference.host false) "/tmp/plugin.zip" PyNone
           sample.archive_baz
           (sample.with_file "/tmp/plugin.zip" (ZipArchive sample.archive_baz)
              sample.world_without_root)
           "baz.desktop" (sample.manifest "baz" "Baz") (sample.manifest "baz" "Baz")
           (sample.parsed (sample.manifest "baz" "Baz")) "baz" "Baz" "" "").
  - by_computation.
  - by_computation.
  - by_computation.
  - by_computation.
  - by_computation.
  - discriminate.
  - by_computation.
  - apply sample_declares; by_computation.
Defined.

(** An outcome that evaluates to a return is one. *)
Lemma returns {S : Type} (o : Outcome S unit) :
  match o with
  | Ret _ _ => True
  | Raise _ _ => False
  end ->
  exists s, o = Ret tt s.
Proof. destruct o as [[] s|e s]; [by exists s|done]. Qed.

(** X17, witness: the archive of [baz] extracted in the sample world,
    where the plugin is not yet, and its member [baz/helper.py]. *)
Lemma install_extract_under_entry_directory_witness :
  exists w',
    Plugin.install_extract sample.archive_baz (sample.plugin_baz true)
      "baz.desktop" "baz/__init__.py" sample.world = Ret tt w'
    /\ fs sample.world !! "/app/pykrita/baz/helper.py" = None
    /\ fs w' !! "/app/pykrita/baz/helper.py" = Some (File (Text "pass")).
Proof.
  destruct (returns (Plugin.install_extract sample.archive_baz (sample.plugin_baz true)
                       "baz.desktop" "baz/__init__.py" sample.world))
    as [w' Hw'].
  - vm_cast_no_check I.
  - exists w'. split; [exact Hw'|]. split; [by_computation|].
    destruct (install_extract_under_entry_directory (sample.plugin_baz true)
                "baz.desktop" "baz" "__init__.py" "helper.py"
                [sample.entry "baz.desktop" (sample.manifest "baz" "Baz");
                 sample.entry "baz/" ""; sample.entry "baz/__init__.py" "pass"]
                [sample.entry "README.txt" "hello"]
                (sample.entry "baz/helper.py" "pass")) as [_ Hland].
    + discriminate.
    + reflexivity.
    + reflexivity.
    + reflexivity.
    + replace (os_path.basename _) with "helper.py" by (symmetry; by_computation).
      discriminate.
    + replace (os_path.basename _) with "helper.py" by (symmetry; by_computation).
      discriminate.
    + apply (Hland ltac:(discriminate) eq_refl sample.world w' Hw').
      by_computation.
Defined.

(** X18, witness: the same extraction, and the manifest [baz.desktop] at
    the top of the archive. *)
Lemma install_extract_manifest_witness :
  exists w',
    Plugin.install_extract sample.archive_baz (sample.plugin_baz true)
      "baz.desktop" "baz/__init__.py" sample.world = Ret tt w'
    /\ fs sample.world !! "/app/pykrita/baz.desktop" = None
    /\ fs w' !! "/app/pykrita/baz.desktop"
       = Some (File (Text (sample.manifest "baz" "Baz"))).
Proof.
  destruct (returns (Plugin.install_extract sample.archive_baz (sample.plugin_baz true)
                       "baz.desktop" "baz/__init__.py" sample.world))
    as [w' Hw'].
  - vm_cast_no_check I.
  - exists w'. split; [exact Hw'|]. split; [by_computation|].
    destruct (install_extract_manifest (sample.plugin_baz true) "" "baz/__init__.py"
                []
                [sample.entry "baz/" ""; sample.entry "baz/__init__.py" "pass";
                 sample.entry "baz/helper.py" "pass"; sample.entry "README.txt" "hello"]
                (sample.entry "baz.desktop" (sample.manifest "baz" "Baz"))
                sample.world w' eq_refl eq_refl Hw') as [Hland _].
    apply Hland; [reflexivity|by_computation].
Defined.
